(** * MoonPhases: the phase calculator [src/core/ta.ts]

    A shallow embedding of the static class [ta] and of the part of the
    JavaScript platform it runs on (numbers, [Math], [Date]), followed by
    the properties of the calculator.

    Numbers.  A JavaScript number is modelled as an exact rational extended
    with [NaN], [+Infinity] and [-Infinity].  Arithmetic on finite values is
    exact: binary64 rounding and the sign of zero are not modelled.  The
    treatment of [NaN] and of the infinities by [+ - * / %], by the
    comparisons and by [Math.floor]/[Math.abs] follows ECMAScript.
    [Math.cos] and [Math.PI] are those of the real numbers.

    Dates.  A [Date] holds a time value: [NaN] (an invalid date) or an
    integral number of milliseconds since the epoch, at most 8.64e15 in
    magnitude.  The local time zone of the host is a [Zone]: the offset of
    local time from UTC, in milliseconds, at every instant and at every
    local time, as ECMAScript's [LocalTZA(t, isUTC)].  An integer stands
    for the zone whose offset never changes ([fixedOffset]); a property
    stated for an offset [tz : Z] is a property of such hosts.  The
    calendar is the proleptic Gregorian calendar of ECMAScript.  The code
    copies a date before it changes it, so a date is a value here and a
    setter returns the new date.

    Errors.  A function that may throw returns a [result].

    Loops.  A [for] loop runs over the list of the values of its counter;
    the [while] loop of [findPhaseEvents] takes the number of iterations it
    may use, and is shown to end within a number that the dates determine.

    The classes [DateTracker] and [Timeline] of [src/components/Timeline.ts]
    follow the calculator, as far as their methods compute dates. *)

From Stdlib Require Import ZArith QArith Qround Qabs Lia Lqa Bool List.
From Stdlib Require Import Ascii String DecimalString Sorted.
From Stdlib Require Import Reals Qreals Lra.
Import ListNotations.

Local Open Scope Z_scope.

(** ** JavaScript numbers *)

Inductive num (A : Type) : Type :=
| NaN
| Inf (neg : bool)
| Fin (a : A).

Arguments NaN {A}.
Arguments Inf {A} neg.
Arguments Fin {A} a.

Definition number : Type := num Q.

Definition Qlt_bool (p q : Q) : bool := negb (Qle_bool q p).

Definition Qsign_neg (q : Q) : bool := Qlt_bool q 0.

(** Truncation towards zero. *)
Definition Qtrunc (q : Q) : Z :=
  if Qle_bool 0 q then Qfloor q else Qceiling q.

Module Num.

Definition of_Z (z : Z) : number := Fin (inject_Z z).

Definition isNaN (x : number) : bool :=
  match x with NaN => true | _ => false end.

Definition neg (x : number) : number :=
  match x with
  | NaN => NaN
  | Inf s => Inf (negb s)
  | Fin q => Fin (- q)%Q
  end.

Definition add (x y : number) : number :=
  match x, y with
  | NaN, _ | _, NaN => NaN
  | Inf a, Inf b => if Bool.eqb a b then Inf a else NaN
  | Inf a, Fin _ => Inf a
  | Fin _, Inf b => Inf b
  | Fin p, Fin q => Fin (p + q)%Q
  end.

Definition sub (x y : number) : number := add x (neg y).

Definition mul (x y : number) : number :=
  match x, y with
  | NaN, _ | _, NaN => NaN
  | Inf a, Inf b => Inf (xorb a b)
  | Inf a, Fin q | Fin q, Inf a =>
      if Qeq_bool q 0 then NaN else Inf (xorb a (Qsign_neg q))
  | Fin p, Fin q => Fin (p * q)%Q
  end.

(** A zero divisor is the positive zero. *)
Definition div (x y : number) : number :=
  match x, y with
  | NaN, _ | _, NaN => NaN
  | Inf _, Inf _ => NaN
  | Inf a, Fin q => Inf (xorb a (Qsign_neg q))
  | Fin _, Inf _ => Fin 0%Q
  | Fin p, Fin q =>
      if Qeq_bool q 0
      then (if Qeq_bool p 0 then NaN else Inf (Qsign_neg p))
      else Fin (p / q)%Q
  end.

(** The remainder operator [%]: the result has the sign of the
    dividend, [p - q * trunc (p / q)]. *)
Definition rem (x y : number) : number :=
  match x, y with
  | NaN, _ | _, NaN => NaN
  | Inf _, _ => NaN
  | Fin p, Inf _ => Fin p
  | Fin p, Fin q =>
      if Qeq_bool q 0 then NaN
      else Fin (p - q * inject_Z (Qtrunc (p / q)))%Q
  end.

Definition ltb (x y : number) : bool :=
  match x, y with
  | NaN, _ | _, NaN => false
  | Inf a, Inf b => a && negb b
  | Inf a, Fin _ => a
  | Fin _, Inf b => negb b
  | Fin p, Fin q => Qlt_bool p q
  end.

Definition leb (x y : number) : bool :=
  match x, y with
  | NaN, _ | _, NaN => false
  | Inf a, Inf b => a || negb b
  | Inf a, Fin _ => a
  | Fin _, Inf b => negb b
  | Fin p, Fin q => Qle_bool p q
  end.

Definition gtb (x y : number) : bool := ltb y x.
Definition geb (x y : number) : bool := leb y x.

(** Strict equality [===] on numbers. *)
Definition eqb (x y : number) : bool :=
  match x, y with
  | Inf a, Inf b => Bool.eqb a b
  | Fin p, Fin q => Qeq_bool p q
  | _, _ => false
  end.

(** [Math.floor] and [Math.abs]. *)
Definition floor (x : number) : number :=
  match x with
  | Fin q => Fin (inject_Z (Qfloor q))
  | _ => x
  end.

Definition abs (x : number) : number :=
  match x with
  | NaN => NaN
  | Inf _ => Inf false
  | Fin q => Fin (Qabs q)
  end.

(** Equality of the values denoted: [Qeq] on finite numbers. *)
Definition equiv (x y : number) : Prop :=
  match x, y with
  | NaN, NaN => True
  | Inf a, Inf b => a = b
  | Fin p, Fin q => (p == q)%Q
  | _, _ => False
  end.

End Num.

Declare Scope js_scope.
Delimit Scope js_scope with js.
Bind Scope js_scope with number.

Notation "x + y" := (Num.add x y) : js_scope.
Notation "x - y" := (Num.sub x y) : js_scope.
Notation "x * y" := (Num.mul x y) : js_scope.
Notation "x / y" := (Num.div x y) : js_scope.
Notation "x 'mod' y" := (Num.rem x y) : js_scope.
Notation "x <? y" := (Num.ltb x y) : js_scope.
Notation "x <=? y" := (Num.leb x y) : js_scope.
Notation "x >? y" := (Num.gtb x y) : js_scope.
Notation "x >=? y" := (Num.geb x y) : js_scope.
Notation "x === y" := (Num.eqb x y) (at level 70, no associativity) : js_scope.
Notation "x =~ y" := (Num.equiv x y) (at level 70, no associativity) : js_scope.

(** A numeric literal of the source. *)
Notation "' q" := (Fin q%Q) (at level 1, q at level 0, format "' q") : js_scope.

(** ** Results: a value, or a thrown [Error] *)

(** The source throws [Error] objects that differ by their message only;
    [message] gives the text.  [kind] is the classification of the
    specification. *)
Inductive error : Type :=
| InvalidDate (paramName : string)
| InvalidDateParameters
| PhaseOutOfRange
| DaysNotANumber
| PhaseSearchFailed (phaseName : string).

Definition message (e : error) : string :=
  match e with
  | InvalidDate paramName => "Invalid " ++ paramName ++ " provided"
  | InvalidDateParameters => "Invalid date parameters"
  | PhaseOutOfRange => "Phase must be between 0 and 1"
  | DaysNotANumber => "Days must be a valid number"
  | PhaseSearchFailed phaseName =>
      "Could not find next " ++ phaseName ++ " within search range"
  end%string.

Inductive errorKind : Type := InvalidInput | PhaseNotFound.

Definition kind (e : error) : errorKind :=
  match e with
  | PhaseSearchFailed _ => PhaseNotFound
  | _ => InvalidInput
  end.

Inductive result (A : Type) : Type :=
| Ok (a : A)
| Throw (e : error).

Arguments Ok {A} a.
Arguments Throw {A} e.

Definition bind {A B : Type} (r : result A) (k : A -> result B) : result B :=
  match r with
  | Ok a => k a
  | Throw e => Throw e
  end.

Notation "x <- r ;; k" := (bind r (fun x => k))
  (at level 61, r at next level, right associativity).
Notation "r ;;; k" := (bind r (fun _ => k))
  (at level 61, right associativity).

Definition failsWith {A : Type} (r : result A) (k : errorKind) : Prop :=
  exists e, r = Throw e /\ kind e = k.

(** ** The Date object *)

Module ES.

Definition msPerDay : Z := 86400000.
Definition msPerHour : Z := 3600000.
Definition msPerMinute : Z := 60000.
Definition msPerSecond : Z := 1000.
Definition maxTime : Z := 8640000000000000.

Definition Day (t : Z) : Z := t / msPerDay.
Definition TimeWithinDay (t : Z) : Z := t mod msPerDay.

(** Day number (days since 1970-01-01) to the proleptic Gregorian
    calendar and back.  Years are counted in eras of 400 years that
    start on the first of March. *)
Definition daysPerEra : Z := 146097.
Definition eraShift : Z := 719468.

Definition yearOfEra (doe : Z) : Z :=
  (doe - doe / 1460 + doe / 36524 - doe / 146096) / 365.

Definition dayOfYear (doe : Z) : Z :=
  let yoe := yearOfEra doe in
  doe - (365 * yoe + yoe / 4 - yoe / 100).

Definition monthIndex (doy : Z) : Z := (5 * doy + 2) / 153.

(** [(year, month, day)], with [month] in 1..12. *)
Definition civil (z : Z) : Z * Z * Z :=
  let era := (z + eraShift) / daysPerEra in
  let doe := (z + eraShift) mod daysPerEra in
  let yoe := yearOfEra doe in
  let doy := dayOfYear doe in
  let mp := monthIndex doy in
  let d := doy - (153 * mp + 2) / 5 + 1 in
  let m := if mp <? 10 then mp + 3 else mp - 9 in
  let y := yoe + era * 400 in
  (if m <=? 2 then y + 1 else y, m, d).

Definition daysFromCivil (y m d : Z) : Z :=
  let y' := if m <=? 2 then y - 1 else y in
  let era := y' / 400 in
  let yoe := y' mod 400 in
  let mp := if m <=? 2 then m + 9 else m - 3 in
  let doy := (153 * mp + 2) / 5 + d - 1 in
  let doe := yoe * 365 + yoe / 4 - yoe / 100 + doy in
  era * daysPerEra + doe - eraShift.

Definition YearFromTime (t : Z) : Z := fst (fst (civil (Day t))).
(** Months are numbered from 0. *)
Definition MonthFromTime (t : Z) : Z := snd (fst (civil (Day t))) - 1.
Definition DateFromTime (t : Z) : Z := snd (civil (Day t)).
Definition HourFromTime (t : Z) : Z := (t / msPerHour) mod 24.
Definition MinFromTime (t : Z) : Z := (t / msPerMinute) mod 60.
Definition SecFromTime (t : Z) : Z := (t / msPerSecond) mod 60.
Definition msFromTime (t : Z) : Z := t mod msPerSecond.

Definition MakeTime (hour min sec ms : Z) : Z :=
  hour * msPerHour + min * msPerMinute + sec * msPerSecond + ms.

Definition MakeDay (year month date : Z) : Z :=
  daysFromCivil (year + month / 12) (month mod 12 + 1) 1 + date - 1.

Definition MakeDate (day time : Z) : Z := day * msPerDay + time.

End ES.

(** The time value of a [Date]. *)
Inductive Date : Type :=
| Invalid
| TimeValue (t : Z).

(** [TimeClip] followed by the construction of the object:
    [new Date(value)] for a number [value]. *)
Definition TimeClip (x : number) : Date :=
  match x with
  | Fin q =>
      if Qle_bool (Qabs q) (inject_Z ES.maxTime)
      then TimeValue (Qtrunc q) else Invalid
  | _ => Invalid
  end.

Definition newDate (value : number) : Date := TimeClip value.

(** [new Date(date)] copies the time value of [date]. *)
Definition copyDate (date : Date) : Date := date.

Definition getTime (date : Date) : number :=
  match date with
  | Invalid => NaN
  | TimeValue t => Num.of_Z t
  end.

(** [ToIntegerOrInfinity] for an argument of a setter; [None] stands for
    a value that makes the date invalid. *)
Definition toInteger (x : number) : option Z :=
  match x with
  | Fin q => Some (Qtrunc q)
  | _ => None
  end.

(** The time zone of the host.  [offsetAt t] is the offset of local time
    from UTC, in milliseconds, at the instant [t]: [LocalTZA(t, true)].
    [offsetOf t] is the offset by which the local time [t] is read:
    [LocalTZA(t, false)], which for a local time that a change of the
    clocks skips or repeats is the offset before the change. *)
Record Zone : Type := mkZone
  { offsetAt : Z -> Z;
    offsetOf : Z -> Z }.

(** A zone whose offset never changes, as UTC. *)
Definition fixedOffset (tza : Z) : Zone :=
  mkZone (fun _ => tza) (fun _ => tza).

Coercion fixedOffset : Z >-> Zone.

Bind Scope Z_scope with Zone.

(** A zone whose clocks change once, at the instant [T], from the offset
    [before] to the offset [after]. *)
Definition clockChange (T before after : Z) : Zone :=
  mkZone (fun t => if t <? T then before else after)
    (fun t => if t <? T + Z.max before after then before else after).

Section Host.

Variable LocalTZA : Zone.

Definition LocalTime (t : Z) : Z := t + offsetAt LocalTZA t.
Definition UTC (t : Z) : Z := t - offsetOf LocalTZA t.

Definition getter (f : Z -> Z) (date : Date) : number :=
  match date with
  | Invalid => NaN
  | TimeValue t => Num.of_Z (f (LocalTime t))
  end.

Definition getFullYear : Date -> number := getter ES.YearFromTime.
Definition getMonth : Date -> number := getter ES.MonthFromTime.
Definition getDate : Date -> number := getter ES.DateFromTime.
Definition getHours : Date -> number := getter ES.HourFromTime.
Definition getMinutes : Date -> number := getter ES.MinFromTime.
Definition getSeconds : Date -> number := getter ES.SecFromTime.

(** [date.setHours(hour)] and [date.setDate(dt)]: the date after the
    call. *)
Definition setHours (date : Date) (hour : number) : Date :=
  match date, toInteger hour with
  | TimeValue u, Some h =>
      let t := LocalTime u in
      let time :=
        ES.MakeTime h (ES.MinFromTime t) (ES.SecFromTime t) (ES.msFromTime t) in
      TimeClip (Num.of_Z (UTC (ES.MakeDate (ES.Day t) time)))
  | _, _ => Invalid
  end.

Definition setDate (date : Date) (dt : number) : Date :=
  match date, toInteger dt with
  | TimeValue u, Some d =>
      let t := LocalTime u in
      let day := ES.MakeDay (ES.YearFromTime t) (ES.MonthFromTime t) d in
      TimeClip (Num.of_Z (UTC (ES.MakeDate day (ES.TimeWithinDay t))))
  | _, _ => Invalid
  end.

(** ** The calculator: class [ta] *)

Local Open Scope string_scope.
Local Open Scope js_scope.

(** [date instanceof Date] holds by typing. *)
Definition validateDate (date : Date) (paramName : string) : result unit :=
  if Num.isNaN (getTime date)
  then Throw (InvalidDate paramName)
  else Ok tt.

Definition julianDay (year month day hour minute second : number)
  : result number :=
  if (year <? '(-4712)) || (month <? '1) || (month >? '12)
     || (day <? '1) || (day >? '31)
  then Throw InvalidDateParameters
  else
    let '(year, month) :=
      if month <=? '2 then (year - '1, month + '12) else (year, month) in
    let a := Num.floor (year / '100) in
    let b := '2 - a + Num.floor (a / '4) in
    let dayFraction := (hour + minute / '60 + second / '3600) / '24 in
    Ok (Num.floor ('365.25 * (year + '4716))
        + Num.floor ('30.6001 * (month + '1))
        + day + dayFraction + b - '1524.5).

Definition moonPhase (date : Date) : result number :=
  validateDate date "date" ;;;
  let year := getFullYear date in
  let month := getMonth date + '1 in
  let day := getDate date in
  let hour := getHours date in
  let minute := getMinutes date in
  let second := getSeconds date in
  jd <- julianDay year month day hour minute second ;;
  let newMoonJD := '2451549.5 in
  let synodicMonth := '29.53058868 in
  let phase := ((jd - newMoonJD) mod synodicMonth) / synodicMonth in
  Ok (if phase <? '0 then phase + '1 else phase).

Definition phaseName (phase : number) : result string :=
  if (phase <? '0) || (phase >? '1) then Throw PhaseOutOfRange
  else if phase <? '0.0625 then Ok "New Moon"
  else if phase <? '0.1875 then Ok "Waxing Crescent"
  else if phase <? '0.3125 then Ok "First Quarter"
  else if phase <? '0.4375 then Ok "Waxing Gibbous"
  else if phase <? '0.5625 then Ok "Full Moon"
  else if phase <? '0.6875 then Ok "Waning Gibbous"
  else if phase <? '0.8125 then Ok "Last Quarter"
  else if phase <? '0.9375 then Ok "Waning Crescent"
  else Ok "New Moon".

(** The wrapped distance of [phase] to [targetPhase], as both searches
    compute it. *)
Definition phaseDiff (phase targetPhase : number) : number :=
  let diff := Num.abs (phase - targetPhase) in
  if diff >? '0.5 then '1 - diff else diff.

(** The values of the counter of
    [for (i = init; cond(i); i += step)], at most [fuel] of them. *)
Fixpoint forValues (fuel : nat) (cond : number -> bool) (step i : number)
  : list number :=
  match fuel with
  | O => []
  | S fuel' =>
      if cond i then i :: forValues fuel' cond step (i + step) else []
  end.

(** The body of the loop of [refinePhaseDate], over the remaining values
    of [minutes]. *)
Fixpoint refineLoop (approximateDate : Date) (targetPhase : number)
  (minutesLeft : list number) (bestDate : Date) (bestDiff : number)
  : result Date :=
  match minutesLeft with
  | [] => Ok bestDate
  | minutes :: rest =>
      let testDate :=
        newDate (getTime approximateDate + minutes * '60 * '1000) in
      phase <- moonPhase testDate ;;
      let diff := phaseDiff phase targetPhase in
      if diff <? bestDiff
      then refineLoop approximateDate targetPhase rest (copyDate testDate) diff
      else refineLoop approximateDate targetPhase rest bestDate bestDiff
  end.

Definition refineMinutes : list number :=
  forValues 64 (fun minutes => minutes <=? '720) '30 '(-720).

Definition refinePhaseDate (approximateDate : Date) (targetPhase : number)
  : result Date :=
  let bestDate := copyDate approximateDate in
  phase0 <- moonPhase bestDate ;;
  let bestDiff := phaseDiff phase0 targetPhase in
  refineLoop approximateDate targetPhase refineMinutes bestDate bestDiff.

(** The body of the loop of [findNextPhase], over the remaining values
    of [hours]; the code after the loop is the case of no value left. *)
Fixpoint scanLoop (date : Date) (targetPhase : number) (phaseName : string)
  (hoursLeft : list number) (bestDate : Date) (bestDiff : number)
  : result Date :=
  match hoursLeft with
  | [] =>
      if bestDiff <? '0.1
      then refinePhaseDate bestDate targetPhase
      else Throw (PhaseSearchFailed phaseName)
  | hours :: rest =>
      let currentDate := newDate (getTime date + hours * '60 * '60 * '1000) in
      phase <- moonPhase currentDate ;;
      let diff := phaseDiff phase targetPhase in
      let '(bestDiff, bestDate) :=
        if diff <? bestDiff then (diff, copyDate currentDate)
        else (bestDiff, bestDate) in
      if bestDiff <? '0.02
      then refinePhaseDate bestDate targetPhase
      else scanLoop date targetPhase phaseName rest bestDate bestDiff
  end.

Definition scanHours : list number :=
  let synodicMonth := '29.53 in
  let maxDays := synodicMonth + '1 in
  forValues 512 (fun hours => hours <? maxDays * '24) '2 '0.

Definition findNextPhase (fromDate : Date) (targetPhase : number)
  (phaseName : string) : result Date :=
  let date := copyDate fromDate in
  let date := setHours date (getHours date + '1) in
  let bestDate := copyDate date in
  let bestDiff := '1 in
  scanLoop date targetPhase phaseName scanHours bestDate bestDiff.

Definition nextNewMoon (fromDate : Date) : result Date :=
  validateDate fromDate "fromDate" ;;;
  findNextPhase fromDate '0 "new moon".

Definition nextFullMoon (fromDate : Date) : result Date :=
  validateDate fromDate "fromDate" ;;;
  findNextPhase fromDate '0.5 "full moon".

Record PhaseEvent : Type := mkEvent
  { date : Date; type : string; phase : number }.

Definition classify (phase prevPhase nextPhase : number) : string :=
  if (phase <? '0.05) && ((prevPhase >? '0.95) || (nextPhase >? '0.05))
  then "new-moon"
  else if (Num.abs (phase - '0.5) <? '0.05)
          && ((Num.abs (prevPhase - '0.5) >? '0.05)
              || (Num.abs (nextPhase - '0.5) >? '0.05))
  then "full-moon"
  else if (Num.abs (phase - '0.25) <? '0.05)
          && ((Num.abs (prevPhase - '0.25) >? '0.05)
              || (Num.abs (nextPhase - '0.25) >? '0.05))
  then "quarter"
  else if (Num.abs (phase - '0.75) <? '0.05)
          && ((Num.abs (prevPhase - '0.75) >? '0.05)
              || (Num.abs (nextPhase - '0.75) >? '0.05))
  then "quarter"
  else "".

(** A string is truthy when it is not empty. *)
Definition truthy (s : string) : bool :=
  match s with EmptyString => false | _ => true end.

(** One iteration of the [while] loop of [findPhaseEvents]: the events
    and the search date after it. *)
Definition eventsStep (startDate endDate searchDate : Date)
  (events : list PhaseEvent) : result (list PhaseEvent * Date) :=
  phase <- moonPhase searchDate ;;
  let prevDate := copyDate searchDate in
  let prevDate := setDate prevDate (getDate prevDate - '1) in
  prevPhase <- moonPhase prevDate ;;
  let nextDate := copyDate searchDate in
  let nextDate := setDate nextDate (getDate nextDate + '1) in
  nextPhase <- moonPhase nextDate ;;
  let phaseType := classify phase prevPhase nextPhase in
  let events :=
    if truthy phaseType
       && (getTime searchDate >=? getTime startDate)
       && (getTime searchDate <=? getTime endDate)
    then (events ++ [mkEvent (copyDate searchDate) phaseType phase])%list
    else events in
  Ok (events, setDate searchDate (getDate searchDate + '1)).

(** The [while] loop, run for at most [fuel] iterations; [None] when
    they do not suffice. *)
Fixpoint eventsLoop (fuel : nat) (startDate endDate : Date) (endTime : number)
  (searchDate : Date) (events : list PhaseEvent)
  : option (result (list PhaseEvent)) :=
  match fuel with
  | O => None
  | S fuel' =>
      if getTime searchDate <=? endTime
      then
        match eventsStep startDate endDate searchDate events with
        | Ok (events', searchDate') =>
            eventsLoop fuel' startDate endDate endTime searchDate' events'
        | Throw e => Some (Throw e)
        end
      else Some (Ok events)
  end.

Definition findPhaseEvents (fuel : nat) (startDate endDate : Date)
  : option (result (list PhaseEvent)) :=
  match validateDate startDate "startDate" ;;;
        validateDate endDate "endDate" with
  | Throw e => Some (Throw e)
  | Ok _ =>
      let events := [] in
      let searchDate := copyDate startDate in
      let searchDate := setDate searchDate (getDate searchDate - '2) in
      let endTime := getTime endDate + ('2 * '24 * '60 * '60 * '1000) in
      eventsLoop fuel startDate endDate endTime searchDate events
  end.

End Host.

Local Open Scope string_scope.
Local Open Scope js_scope.

Section Format.

(** [Number::toString] for a finite number that is not an integer of
    magnitude at most 2^53: its digits are the shortest ones that identify
    the binary64 value. *)
Variable fractionToString : Q -> string.

Definition isInteger (q : Q) : bool := Qeq_bool q (inject_Z (Qfloor q)).

(** The conversion of a number inside a template literal.  An integer
    of magnitude at most 2^53 is printed digit by digit. *)
Definition toString (x : number) : string :=
  match x with
  | NaN => "NaN"
  | Inf false => "Infinity"
  | Inf true => "-Infinity"
  | Fin q =>
      if isInteger q && Qle_bool (Qabs q) 9007199254740992
      then NilZero.string_of_int (Z.to_int (Qfloor q))
      else fractionToString q
  end.

(** [typeof days !== 'number'] is false by typing. *)
Definition formatRelativeTime (days : number) : result string :=
  if Num.isNaN days then Throw DaysNotANumber
  else if days === '0 then Ok "Today"
  else if days === '1 then Ok "Tomorrow"
  else if days === '(-1) then Ok "Yesterday"
  else if days >? '0 then Ok ("In " ++ toString days ++ " days")
  else Ok (toString (Num.abs days) ++ " days ago").

End Format.

(** ** Numbers with a real payload: [Math.PI] and [Math.cos] *)

Module RNum.

Definition real : Type := num R.

Definition of_number (x : number) : real :=
  match x with
  | NaN => NaN
  | Inf s => Inf s
  | Fin q => Fin (Q2R q)
  end.

Definition Rneg_bool (r : R) : bool :=
  if Rlt_dec r 0 then true else false.

Definition Rzero_bool (r : R) : bool :=
  if Req_dec_T r 0 then true else false.

Definition mul (x y : real) : real :=
  match x, y with
  | NaN, _ | _, NaN => NaN
  | Inf a, Inf b => Inf (xorb a b)
  | Inf a, Fin r | Fin r, Inf a =>
      if Rzero_bool r then NaN else Inf (xorb a (Rneg_bool r))
  | Fin r, Fin s => Fin (r * s)%R
  end.

Definition abs (x : real) : real :=
  match x with
  | NaN => NaN
  | Inf _ => Inf false
  | Fin r => Fin (Rabs r)
  end.

Definition cos (x : real) : real :=
  match x with
  | Fin r => Fin (Rtrigo_def.cos r)
  | _ => NaN
  end.

Definition PI : real := Fin Rtrigo1.PI.

End RNum.

Definition illumination (phase : number) : result RNum.real :=
  if (phase <? '0) || (phase >? '1) then Throw PhaseOutOfRange
  else
    let phase := RNum.of_number phase in
    Ok (RNum.mul
          (RNum.abs
             (RNum.cos (RNum.mul (RNum.mul phase (RNum.of_number '2)) RNum.PI)))
          (RNum.of_number '100)).

(** ** The specification's reading of the calculator *)

(** Validation of the arguments of [julianDay]. *)
Definition passesValidation (year month day : number) : bool :=
  ('1 <=? month) && (month <=? '12) && ('1 <=? day) && (day <=? '31)
  && ('(-4712) <=? year).

(** The Julian Day as the specification words it. *)
Definition julianDaySpec (year month day hour minute second : number)
  : number :=
  let year' := if month <=? '2 then year - '1 else year in
  let month' := if month <=? '2 then month + '12 else month in
  let a := Num.floor (year' / '100) in
  let b := '2 - a + Num.floor (a / '4) in
  Num.floor ('365.25 * (year' + '4716))
  + Num.floor ('30.6001 * (month' + '1))
  + day + (hour + minute / '60 + second / '3600) / '24 + b - '1524.5.

(** The nine bands of the classification table. *)
Inductive inBand (q : Q) : string -> Prop :=
| band_new : (0 <= q < 0.0625)%Q -> inBand q "New Moon"
| band_waxing_crescent : (0.0625 <= q < 0.1875)%Q -> inBand q "Waxing Crescent"
| band_first_quarter : (0.1875 <= q < 0.3125)%Q -> inBand q "First Quarter"
| band_waxing_gibbous : (0.3125 <= q < 0.4375)%Q -> inBand q "Waxing Gibbous"
| band_full : (0.4375 <= q < 0.5625)%Q -> inBand q "Full Moon"
| band_waning_gibbous : (0.5625 <= q < 0.6875)%Q -> inBand q "Waning Gibbous"
| band_last_quarter : (0.6875 <= q < 0.8125)%Q -> inBand q "Last Quarter"
| band_waning_crescent : (0.8125 <= q < 0.9375)%Q -> inBand q "Waning Crescent"
| band_new_wrap : (0.9375 <= q <= 1)%Q -> inBand q "New Moon".

Definition floorTime : Z := (ES.daysFromCivil (-4712) 1 1 * ES.msPerDay)%Z.

(** The phase as the specification words it: the remainder of
    [jd - epoch] by the synodic month, divided by the synodic month, plus
    1 when the remainder is negative. *)
Definition moonPhaseSpec (jd : number) : number :=
  let r := (jd - '2451549.5) mod '29.53058868 in
  if r <? '0 then r / '29.53058868 + '1 else r / '29.53058868.

(** The Julian Day of the local calendar components of a date. *)
Definition localJulianDay (LocalTZA : Zone) (date : Date) : result number :=
  julianDay (getFullYear LocalTZA date) (getMonth LocalTZA date + '1)
    (getDate LocalTZA date) (getHours LocalTZA date)
    (getMinutes LocalTZA date) (getSeconds LocalTZA date).

(** Midnight of 2000-01-06, local time, for a host on UTC: the Julian Day
    of this instant is the epoch 2451549.5. *)
Definition epochTime : Z := 947116800000.

(** The length of the scanned window, [(29.53 + 1) * 24] hours, in
    milliseconds. *)
Definition scanWindow : Z := 2637792000.

(** The zone Australia/Lord_Howe around 27 October 1996: local time is
    10 h 30 min ahead of UTC until 15:30 UTC of the 26th, when the clocks
    go from 02:00 to 02:30, and 11 h ahead from then on. *)
Definition lordHowe1996 : Zone := clockChange 846343800000 37800000 39600000.

(** ** The coarse scan, as the specification describes it *)

(** The phase at the instant [t]; [NaN] when [t] is not a representable
    time value or [moonPhase] throws. *)
Definition phaseAt (LocalTZA : Zone) (t : Z) : number :=
  match moonPhase LocalTZA (newDate (Num.of_Z t)) with
  | Ok v => v
  | Throw _ => NaN
  end.

(** The wrapped distance to the target at an instant. *)
Definition distanceAt (LocalTZA : Zone) (targetPhase : number) (t : Z)
  : number :=
  phaseDiff (phaseAt LocalTZA t) targetPhase.

(** The instants sampled by a scan that starts from [u]: one hour after
    [u], then every 2 hours while fewer than [(29.53 + 1) * 24] hours
    have passed, 367 instants in all. *)
Definition coarseTimes (u : Z) : list Z :=
  List.map (fun k => u + ES.msPerHour + 2 * Z.of_nat k * ES.msPerHour)%Z
    (seq 0 367).

(** The least of [best] and the distances [ds]. *)
Definition leastFrom (best : number) (ds : list number) : number :=
  fold_left (fun best d => if d <? best then d else best) ds best.

(** The scan completes with its best distance at least 0.1, and no
    distance fell below 0.02. *)
Definition scanFails (LocalTZA : Zone) (targetPhase : number) (u : Z) : Prop :=
  let ds := List.map (distanceAt LocalTZA targetPhase) (coarseTimes u) in
  ('0.1 <=? leastFrom '1 ds) = true
  /\ Forall (fun d => ('0.02 <=? d) = true) ds.

(** An instant that is a representable time value of local year -4712 or
    later. *)
Definition supportedInstant (LocalTZA : Zone) (t : Z) : Prop :=
  (floorTime <= LocalTime LocalTZA t /\ - ES.maxTime <= t <= ES.maxTime)%Z.

(** Every instant that a search from [u] may sample is supported: the
    scan covers 732 hours from [u + 1] hour, the refinement 720 minutes on
    both sides of a scanned instant. *)
Definition searchable (LocalTZA : Zone) (u : Z) : Prop :=
  forall t : Z,
    (u + ES.msPerHour - 720 * ES.msPerMinute <= t
     <= u + ES.msPerHour + 732 * ES.msPerHour + 720 * ES.msPerMinute)%Z ->
    supportedInstant LocalTZA t.

(** ** Phase events, as the specification describes them *)

Definition eventTime (e : PhaseEvent) : number := getTime (date e).

Definition before (e1 e2 : PhaseEvent) : Prop :=
  (eventTime e1 <? eventTime e2) = true.

(** Every event is earlier than all the events after it. *)
Definition chronological (events : list PhaseEvent) : Prop :=
  StronglySorted before events.

Definition withinRange (startDate endDate : Date) (e : PhaseEvent) : Prop :=
  (getTime startDate <=? eventTime e) = true
  /\ (eventTime e <=? getTime endDate) = true.

(** Every day that [findPhaseEvents] may look at, from 3 days before
    [st] to 3 days after [en], is supported. *)
Definition scannedDays (LocalTZA : Zone) (st en : Z) : Prop :=
  forall t : Z,
    (st - 3 * ES.msPerDay <= t <= en + 3 * ES.msPerDay)%Z ->
    supportedInstant LocalTZA t.

(** The phase of [date] is at a wrapped distance [diff] of the target. *)
Definition atDistance (LocalTZA : Zone) (targetPhase : number) (date : Date)
  (diff : number) : Prop :=
  exists p : number,
    moonPhase LocalTZA date = Ok p /\ phaseDiff p targetPhase = diff.

(** ** The phase in closed form *)

(** The local clock time of an instant, in whole seconds. *)
Definition localSeconds (LocalTZA : Zone) (t : Z) : Z :=
  (LocalTime LocalTZA t / 1000)%Z.

(** The number of synodic months between the reference new moon, Julian
    Day 2451549.5 (day 10962 of the epoch of time values), and the local
    clock time of an instant. *)
Definition lunations (LocalTZA : Zone) (t : Z) : Q :=
  ((inject_Z (localSeconds LocalTZA t) / 86400 - 10962) / 29.53058868)%Q.

(** The fractional part of a rational. *)
Definition fraction (q : Q) : Q := (q - inject_Z (Qfloor q))%Q.

(** The part of a synodic month that passes between two instants of the
    coarse scan, 2 hours apart. *)
Definition scanStep : Q := (2 / (24 * 29.53058868))%Q.

(** The part of a synodic month that passes between two instants of the
    refinement, 30 minutes apart. *)
Definition refineStep : Q := (30 / (1440 * 29.53058868))%Q.

(** ** A host between two changes of its clocks *)

(** From the instant [lo] to the instant [hi] the offset of the zone is
    [tz], and the host reads the local time of each of these instants
    with that offset: the clocks do not change in between, nor so shortly
    before [lo] that a local time is repeated. *)
Definition steady (zone : Zone) (tz lo hi : Z) : Prop :=
  forall t : Z,
    (lo <= t <= hi)%Z -> offsetAt zone t = tz /\ offsetOf zone (t + tz) = tz.

(** The instant at which a search from [u] starts its scan, the date
    after [setHours(getHours() + 1)]: the instant at which the host reads
    the local time of [u] plus one hour. *)
Definition scanStart (zone : Zone) (u : Z) : Z :=
  UTC zone (LocalTime zone u + ES.msPerHour).

(** The instant that [setDate(getDate() + k)] makes of [u]: the instant
    at which the host reads the local time of [u] plus [k] days. *)
Definition daysLater (zone : Zone) (u k : Z) : Z :=
  UTC zone (LocalTime zone u + k * ES.msPerDay).

(** ** Calendar days: [daysBetween] *)

(** [Math.round]: the nearest integer, a half going up. *)
Definition round (x : number) : number :=
  match x with
  | Fin q => Fin (inject_Z (Qfloor (q + (1 # 2))))
  | _ => x
  end.

Section Calendar.

Variable LocalTZA : Zone.

Local Open Scope string_scope.
Local Open Scope js_scope.

(** [new Date(year, month, date)]: the local midnight that starts the
    day; a year from 0 to 99 stands for [1900 + year]. *)
Definition newDateLocal (year month date : number) : Date :=
  match toInteger year, toInteger month, toInteger date with
  | Some y, Some m, Some dt =>
      let yr := if ((0 <=? y) && (y <=? 99))%Z then (1900 + y)%Z else y in
      let finalDate := ES.MakeDate (ES.MakeDay yr m dt) (ES.MakeTime 0 0 0 0) in
      TimeClip (Num.of_Z (UTC LocalTZA finalDate))
  | _, _, _ => Invalid
  end.

Definition daysBetween (fromDate toDate : Date) : result number :=
  validateDate fromDate "fromDate" ;;;
  validateDate toDate "toDate" ;;;
  let msPerDay := '24 * '60 * '60 * '1000 in
  let fromTime :=
    getTime (newDateLocal (getFullYear LocalTZA fromDate)
               (getMonth LocalTZA fromDate) (getDate LocalTZA fromDate)) in
  let toTime :=
    getTime (newDateLocal (getFullYear LocalTZA toDate)
               (getMonth LocalTZA toDate) (getDate LocalTZA toDate)) in
  Ok (round ((toTime - fromTime) / msPerDay)).

End Calendar.

(** The day number of the local midnight that [daysBetween] builds from
    the calendar components of an instant. *)
Definition calendarDay (LocalTZA : Zone) (t : Z) : Z :=
  let lt := LocalTime LocalTZA t in
  let y := ES.YearFromTime lt in
  ES.MakeDay (if ((0 <=? y) && (y <=? 99))%Z then (1900 + y)%Z else y)
    (ES.MonthFromTime lt) (ES.DateFromTime lt).

(** The local year of an instant is not one of the years 0 to 99, which
    the constructor of [Date] reads as 1900 to 1999. *)
Definition fullYear (LocalTZA : Zone) (t : Z) : Prop :=
  (ES.YearFromTime (LocalTime LocalTZA t) < 0
   \/ 99 < ES.YearFromTime (LocalTime LocalTZA t))%Z.

(** A time value whose local midnight is a time value too. *)
Definition wholeDay (t : Z) : Prop :=
  (- ES.maxTime + ES.msPerDay <= t <= ES.maxTime)%Z.

(** The local time at which year 100 begins: from then on no year is
    read as a year of the twentieth century. *)
Definition centuryTime : Z := (ES.daysFromCivil 100 1 1 * ES.msPerDay)%Z.

(** A date from which a search can be run and counted in days: its local
    year is 100 or later eleven hours before it, and the instants from 35
    hours before it to 745 hours after it are time values. *)
Definition countable (LocalTZA : Zone) (u : Z) : Prop :=
  (centuryTime + 11 * ES.msPerHour <= LocalTime LocalTZA u
   /\ - ES.maxTime + 35 * ES.msPerHour <= u
   /\ u + 745 * ES.msPerHour <= ES.maxTime)%Z.

(** ** Phase events and the names of their phases *)

(** The type of an event agrees with the name that [phaseName] gives to
    its phase, as the timeline shows both. *)
Definition named (e : PhaseEvent) : Prop :=
  (type e = "new-moon" /\ phaseName (phase e) = Ok "New Moon")
  \/ (type e = "full-moon" /\ phaseName (phase e) = Ok "Full Moon")
  \/ (type e = "quarter"
      /\ (phaseName (phase e) = Ok "First Quarter"
          \/ phaseName (phase e) = Ok "Last Quarter")).

(** What the timeline reads of an event of the range from [st] to [en]:
    its type agrees with the name of its phase, its phase is that of its
    date, and its date is in the range. *)
Definition drawn (zone : Zone) (st en : Z) (e : PhaseEvent) : Prop :=
  named e /\ moonPhase zone (date e) = Ok (phase e)
  /\ withinRange (TimeValue st) (TimeValue en) e.

(** An event lies a whole number of days after the start of the range,
    and carries the phase of its date. *)
Definition onDayOf (LocalTZA : Zone) (st : Z) (e : PhaseEvent) : Prop :=
  exists k : Z,
    (0 <= k)%Z /\ date e = TimeValue (st + k * ES.msPerDay)
    /\ moonPhase LocalTZA (date e) = Ok (phase e).

(** The part of a synodic month that passes in one day. *)
Definition dayStep : Q := (1 / 29.53058868)%Q.

(** What the test on the neighbouring days leaves of the bands: a
    full-moon or quarter event is more than 0.016 away from its target. *)
Definition offPeak (e : PhaseEvent) : Prop :=
  exists v : Q,
    phase e = 'v
    /\ ((type e = "new-moon" /\ (0 <= v < 0.05)%Q)
        \/ (type e = "full-moon" /\ (0.016 < Qabs (v - 0.5) < 0.05)%Q)
        \/ (type e = "quarter"
            /\ ((0.016 < Qabs (v - 0.25) < 0.05)%Q
                \/ (0.016 < Qabs (v - 0.75) < 0.05)%Q))).

(** ** The date tracker: class [DateTracker] *)

Module DateTracker.

(** The calculator and the setter of [Date], under names that the fields
    and the methods of this class do not hide. *)
Local Abbreviation taPhaseName := phaseName (only parsing).
Local Abbreviation taIllumination := illumination (only parsing).
Local Abbreviation taNextNewMoon := nextNewMoon (only parsing).
Local Abbreviation taNextFullMoon := nextFullMoon (only parsing).
Local Abbreviation dateSetDate := setDate (only parsing).

Record PhaseInfo : Type := mkPhaseInfo
  { phase : number;
    name : string;
    illumination : RNum.real;
    nextNewMoon : Date;
    nextFullMoon : Date }.

(** The fields of the class, and the dates handed to [onDateChange], the
    oldest first. *)
Record tracker : Type := mkTracker
  { currentDate : Date;
    animationSpeed : number;
    isAnimating : bool;
    _targetDate : option Date;
    animationId : option number;
    lastUpdateTime : number;
    notified : list Date }.

(** What a call reads from the browser: [Date.now()] when an animation
    starts, [Date.now()] at the two places of a frame that read it, and
    the id that [requestAnimationFrame] returns. *)
Record readings : Type := mkReadings
  { startNow : number;
    frameNow : number;
    notifyNow : number;
    requestId : number }.

Local Open Scope string_scope.
Local Open Scope js_scope.

Definition updateThrottle : number := '100.

(** [Math.min] of two numbers. *)
Definition min (x y : number) : number :=
  if Num.isNaN x || Num.isNaN y then NaN else if x <? y then x else y.

(** [Math.pow] for an exponent that is a natural number. *)
Fixpoint pow (x : number) (n : nat) : number :=
  match n with
  | O => '1
  | S n' => x * pow x n'
  end.

Definition easeInOutCubic (t : number) : number :=
  if t <? '0.5 then '4 * t * t * t
  else '1 - pow ('(-2) * t + '2) 3 / '2.

(** One run of a method on the fields of the object: the fields as the
    run leaves them, and the value returned or the error thrown.  The
    fields keep what was assigned before a throw. *)
Definition method (A : Type) : Type := tracker -> tracker * result A.

Definition ret {A : Type} (a : A) : method A := fun this => (this, Ok a).

Definition throw {A : Type} (e : error) : method A :=
  fun this => (this, Throw e).

(** A call of a function that does not touch the fields. *)
Definition lift {A : Type} (r : result A) : method A := fun this => (this, r).

Definition read {A : Type} (field : tracker -> A) : method A :=
  fun this => (this, Ok (field this)).

Definition assign (update : tracker -> tracker) : method unit :=
  fun this => (update this, Ok tt).

Definition andThen {A B : Type} (m : method A) (k : A -> method B)
  : method B :=
  fun this =>
    match m this with
    | (this', Ok a) => k a this'
    | (this', Throw e) => (this', Throw e)
    end.

Declare Scope method_scope.
Delimit Scope method_scope with method.
Bind Scope method_scope with method.

Notation "x <- m ;; k" := (andThen m (fun x => k)) : method_scope.
Notation "m ;;; k" := (andThen m (fun _ => k)) : method_scope.

(** Assignments to the fields. *)
Definition setCurrentDate (date : Date) (this : tracker) : tracker :=
  mkTracker date (animationSpeed this) (isAnimating this) (_targetDate this)
    (animationId this) (lastUpdateTime this) (notified this).

Definition setIsAnimating (b : bool) (this : tracker) : tracker :=
  mkTracker (currentDate this) (animationSpeed this) b (_targetDate this)
    (animationId this) (lastUpdateTime this) (notified this).

Definition set_targetDate (date : option Date) (this : tracker) : tracker :=
  mkTracker (currentDate this) (animationSpeed this) (isAnimating this) date
    (animationId this) (lastUpdateTime this) (notified this).

Definition setAnimationId (id : option number) (this : tracker) : tracker :=
  mkTracker (currentDate this) (animationSpeed this) (isAnimating this)
    (_targetDate this) id (lastUpdateTime this) (notified this).

Definition setLastUpdateTime (now : number) (this : tracker) : tracker :=
  mkTracker (currentDate this) (animationSpeed this) (isAnimating this)
    (_targetDate this) (animationId this) now (notified this).

Definition handed (date : Date) (this : tracker) : tracker :=
  mkTracker (currentDate this) (animationSpeed this) (isAnimating this)
    (_targetDate this) (animationId this) (lastUpdateTime this)
    (notified this ++ [date]).

Section Methods.

Variable LocalTZA : Zone.

(** The function given to the constructor: called with a date, it
    returns or it throws.  It does not assign to the fields of the
    tracker. *)
Variable onDateChange : Date -> result unit.

(** The constructor; [onDateChange] is a function by typing. *)
Definition create (initialDate : Date) : result tracker :=
  validateDate initialDate "initialDate" ;;;
  Ok (mkTracker (copyDate initialDate) '1 false None None '0 []).

Definition getCurrentDate (this : tracker) : Date :=
  copyDate (currentDate this).

Definition getCurrentPhaseInfo (this : tracker) : result PhaseInfo :=
  phase <- moonPhase LocalTZA (currentDate this) ;;
  name <- taPhaseName phase ;;
  illumination <- taIllumination phase ;;
  nextNewMoon <- taNextNewMoon LocalTZA (currentDate this) ;;
  nextFullMoon <- taNextFullMoon LocalTZA (currentDate this) ;;
  Ok (mkPhaseInfo phase name illumination nextNewMoon nextFullMoon).

Local Open Scope method_scope.

(** The call [this.onDateChange(date)]. *)
Definition callOnDateChange (date : Date) : method unit :=
  assign (handed date) ;;; lift (onDateChange date).

(** One run of the closure [animate] of [animateToDate], which holds
    [startDate], [targetDate], [totalDuration] and [startTime]. *)
Definition animate (startDate targetDate : Date)
  (totalDuration startTime : number) (r : readings) : method unit :=
  let elapsed := frameNow r - startTime in
  speed <- read animationSpeed ;;
  let progress := min (elapsed / (totalDuration / speed)) '1 in
  let easeProgress := easeInOutCubic progress in
  let currentTime :=
    getTime startDate
    + (getTime targetDate - getTime startDate) * easeProgress in
  assign (setCurrentDate (newDate currentTime)) ;;;
  let now := notifyNow r in
  last <- read lastUpdateTime ;;
  (if (now - last >=? updateThrottle) || (progress >=? '1)
   then
     current <- read currentDate ;;
     callOnDateChange current ;;;
     assign (setLastUpdateTime now)
   else ret tt) ;;;
  if progress <? '1
  then assign (setAnimationId (Some (requestId r)))
  else assign (setIsAnimating false) ;;; assign (set_targetDate None).

(** The frame that [cancelAnimationFrame] drops is the browser's, not a
    field of the class; the first run of [animate] is a call, the later
    ones are the browser's. *)
Definition animateToDate (targetDate : Date) (r : readings) : method unit :=
  assign (setIsAnimating true) ;;;
  assign (set_targetDate (Some (copyDate targetDate))) ;;;
  current <- read currentDate ;;
  let startDate := copyDate current in
  let totalDuration := Num.abs (getTime targetDate - getTime startDate) in
  let startTime := startNow r in
  animate startDate targetDate totalDuration startTime r.

Definition setDate (date : Date) (animate : bool) (r : readings)
  : method unit :=
  lift (validateDate date "date") ;;;
  if animate then animateToDate date r
  else
    assign (setCurrentDate (copyDate date)) ;;;
    current <- read currentDate ;;
    callOnDateChange current.

Definition goToNextNewMoon (animate : bool) (r : readings) : method unit :=
  current <- read currentDate ;;
  nextNewMoon <- lift (taNextNewMoon LocalTZA current) ;;
  setDate nextNewMoon animate r.

Definition goToNextFullMoon (animate : bool) (r : readings) : method unit :=
  current <- read currentDate ;;
  nextFullMoon <- lift (taNextFullMoon LocalTZA current) ;;
  setDate nextFullMoon animate r.

(** [typeof days !== 'number'] is false by typing. *)
Definition addDays (days : number) (animate : bool) (r : readings)
  : method unit :=
  if Num.isNaN days then throw DaysNotANumber
  else
    current <- read currentDate ;;
    let newDate := copyDate current in
    let newDate :=
      dateSetDate LocalTZA newDate (getDate LocalTZA newDate + days) in
    setDate newDate animate r.

End Methods.

End DateTracker.

(** ** The timeline: class [Timeline] *)

Module Timeline.

Section Methods.

Variable LocalTZA : Zone.

Local Open Scope js_scope.

Definition isSameDay (date1 date2 : Date) : bool :=
  (getFullYear LocalTZA date1 === getFullYear LocalTZA date2)
  && (getMonth LocalTZA date1 === getMonth LocalTZA date2)
  && (getDate LocalTZA date1 === getDate LocalTZA date2).

End Methods.

End Timeline.

(** * Properties *)

(** Linear arithmetic over [Q]. *)
Ltac lraQ := Lqa.lra.


(** ** Comparisons of numbers *)

Lemma Qlt_bool_iff (p q : Q) : Qlt_bool p q = true <-> (p < q)%Q.
Proof.
  unfold Qlt_bool. rewrite negb_true_iff.
  split; intro H.
  - apply Qnot_le_lt. intro Hle. apply Qle_bool_iff in Hle. congruence.
  - destruct (Qle_bool q p) eqn:E; [|reflexivity].
    apply Qle_bool_iff in E. exfalso. exact (Qlt_not_le _ _ H E).
Qed.

Lemma Qlt_bool_false_iff (p q : Q) : Qlt_bool p q = false <-> (q <= p)%Q.
Proof.
  unfold Qlt_bool. rewrite negb_false_iff. apply Qle_bool_iff.
Qed.

Lemma Qle_bool_false_iff (p q : Q) : Qle_bool p q = false <-> (q < p)%Q.
Proof.
  rewrite <- Qlt_bool_iff. unfold Qlt_bool. rewrite negb_true_iff. tauto.
Qed.

Lemma ltb_Fin (p q : Q) : ('p <? 'q) = true <-> (p < q)%Q.
Proof. apply Qlt_bool_iff. Qed.

Lemma ltb_Fin_false (p q : Q) : ('p <? 'q) = false <-> (q <= p)%Q.
Proof. apply Qlt_bool_false_iff. Qed.

Lemma leb_Fin (p q : Q) : ('p <=? 'q) = true <-> (p <= q)%Q.
Proof. apply Qle_bool_iff. Qed.

Lemma leb_Fin_false (p q : Q) : ('p <=? 'q) = false <-> (q < p)%Q.
Proof. apply Qle_bool_false_iff. Qed.

Lemma leb_ltb_false (x y : number) : (x <=? y) = true -> (y <? x) = false.
Proof.
  destruct x as [|a|p], y as [|b|q]; simpl; try congruence.
  - destruct a, b; simpl; congruence.
  - intros ->. reflexivity.
  - destruct b; simpl; congruence.
  - intro H. apply Qlt_bool_false_iff. now apply Qle_bool_iff.
Qed.

(** ** julianDay *)

Lemma julianDay_guard (year month day hour minute second : number) :
  julianDay year month day hour minute second = Throw InvalidDateParameters
  <-> (year <? '(-4712)) || (month <? '1) || (month >? '12)
      || (day <? '1) || (day >? '31) = true.
Proof.
  unfold julianDay.
  destruct ((year <? '(-4712)) || (month <? '1) || (month >? '12)
            || (day <? '1) || (day >? '31)).
  - tauto.
  - destruct (month <=? '2); split; discriminate.
Qed.

Lemma julianDay_accepts (year month day hour minute second : number) :
  passesValidation year month day = true ->
  (year <? '(-4712)) || (month <? '1) || (month >? '12)
  || (day <? '1) || (day >? '31) = false.
Proof.
  unfold passesValidation. rewrite !andb_true_iff.
  intros [[[[H1 H2] H3] H4] H5].
  unfold Num.gtb.
  rewrite (leb_ltb_false _ _ H1), (leb_ltb_false _ _ H2),
    (leb_ltb_false _ _ H3), (leb_ltb_false _ _ H4), (leb_ltb_false _ _ H5).
  reflexivity.
Qed.

Lemma julianDay_valid (year month day hour minute second : number) :
  passesValidation year month day = true ->
  julianDay year month day hour minute second
  = Ok (julianDaySpec year month day hour minute second).
Proof.
  intro H. unfold julianDay, julianDaySpec.
  rewrite (julianDay_accepts _ _ _ hour minute second H).
  destruct (month <=? '2); reflexivity.
Qed.

(** C1. Arguments that pass validation give the value of the
    specification's formula (January and February counted as months 13
    and 14 of the year before), and the Julian Day of 2000-01-01 12:00:00
    is exactly 2451545. *)
Theorem julianDay_formula :
  (forall year month day hour minute second : number,
      passesValidation year month day = true ->
      julianDay year month day hour minute second
      = Ok (julianDaySpec year month day hour minute second))
  /\ (exists jd, julianDay '2000 '1 '1 '12 '0 '0 = Ok jd /\ jd =~ '2451545).
Proof.
  split.
  - apply julianDay_valid.
  - eexists. split; [reflexivity | vm_compute; reflexivity].
Qed.

Lemma julianDay_formula_witness :
  julianDay '1999 '12 '31 '23 '59 '59
  = Ok (julianDaySpec '1999 '12 '31 '23 '59 '59).
Proof.
  apply (proj1 julianDay_formula). reflexivity.
Defined.

(** C8, as the code has it.  [julianDay] throws exactly when one of the
    five comparisons of its guard holds, whatever the hour, minute and
    second; [NaN] satisfies no comparison, so it is not rejected. *)
Theorem julianDay_rejects :
  (forall year month day hour minute second : number,
      failsWith (julianDay year month day hour minute second) InvalidInput
      <-> ((month <? '1) = true \/ (month >? '12) = true
           \/ (day <? '1) = true \/ (day >? '31) = true
           \/ (year <? '(-4712)) = true))
  /\ (forall hour minute second : number,
        julianDay NaN NaN NaN hour minute second
        = Ok (julianDaySpec NaN NaN NaN hour minute second)).
Proof.
  split; [|reflexivity].
  intros year month day hour minute second.
  pose proof (julianDay_guard year month day hour minute second) as G.
  rewrite !orb_true_iff in G.
  split.
  - intros [e [He _]]. unfold julianDay in He.
    destruct (year <? '(-4712)), (month <? '1), (month >? '12),
      (day <? '1), (day >? '31); simpl in He; auto 6;
      destruct (month <=? '2); discriminate.
  - intro H. exists InvalidDateParameters. split; [|reflexivity].
    apply G. tauto.
Qed.

(** C8, as stated, fails: a [NaN] year and an infinite hour are
    accepted. *)
Lemma julianDay_accepts_non_finite :
  julianDay NaN '1 '1 '0 '0 '0 = Ok NaN
  /\ julianDay '2000 '1 '1 (Inf false) '0 '0 = Ok (Inf false)
  /\ ~ failsWith (julianDay NaN '1 '1 '0 '0 '0) InvalidInput.
Proof.
  repeat split; try reflexivity.
  intros [e [He _]]. discriminate He.
Qed.

(** ** phaseName *)

Lemma phaseName_guard (phase : number) :
  (phase <? '0) = true \/ (phase >? '1) = true ->
  phaseName phase = Throw PhaseOutOfRange.
Proof.
  intro H. unfold phaseName.
  destruct H as [-> | ->]; [reflexivity | now rewrite orb_true_r].
Qed.

(** C6, amended. [phaseName] fails, with InvalidInput, exactly for the
    phases that its guard tells to be below 0 or above 1, as 1.5 is; the
    comparisons are false of [NaN], which gets a label.  A phase in a
    band of the table gets the label of the band, and the bands cover
    [0,1]. *)
Theorem phaseName_bands :
  (forall phase : number,
      failsWith (phaseName phase) InvalidInput
      <-> (phase <? '0) = true \/ (phase >? '1) = true)
  /\ (forall (phase : number) (e : error),
        phaseName phase = Throw e -> e = PhaseOutOfRange)
  /\ failsWith (phaseName '1.5) InvalidInput
  /\ (forall (q : Q) (label : string),
        inBand q label -> phaseName 'q = Ok label)
  /\ (forall q : Q, (0 <= q <= 1)%Q -> exists label, inBand q label).
Proof.
  assert (R : forall phase : number,
             (phase <? '0) = true \/ (phase >? '1) = true ->
             failsWith (phaseName phase) InvalidInput).
  { intros phase H. exists PhaseOutOfRange.
    split; [now apply phaseName_guard | reflexivity]. }
  assert (Thr : forall (phase : number) (e : error),
             phaseName phase = Throw e ->
             e = PhaseOutOfRange
             /\ ((phase <? '0) = true \/ (phase >? '1) = true)).
  { intros phase e He. unfold phaseName in He.
    destruct ((phase <? '0) || (phase >? '1)) eqn:G.
    - apply orb_true_iff in G. split; [congruence | exact G].
    - repeat match type of He with
             | (if ?c then _ else _) = _ => destruct c
             end; discriminate He. }
  split.
  { intro phase. split; [|apply R].
    intros [e [He _]]. exact (proj2 (Thr _ _ He)). }
  split; [intros phase e He; exact (proj1 (Thr _ _ He))|].
  split; [apply R; right; reflexivity|]. split.
  - intros q label H. unfold phaseName, Num.gtb.
    assert (L : forall c : Q, (c <= q)%Q -> ('q <? 'c) = false)
      by (intros c Hc; now apply ltb_Fin_false).
    assert (U : forall c : Q, (q < c)%Q -> ('q <? 'c) = true)
      by (intros c Hc; now apply ltb_Fin).
    assert (T : forall c : Q, (q <= c)%Q -> ('c <? 'q) = false)
      by (intros c Hc; now apply ltb_Fin_false).
    destruct H as [[lo hi]|[lo hi]|[lo hi]|[lo hi]|[lo hi]|[lo hi]|[lo hi]
                   |[lo hi]|[lo hi]];
      rewrite (L 0%Q) by lraQ; rewrite (T 1%Q) by lraQ; cbn [orb];
      repeat first [ rewrite U by lraQ; reflexivity
                   | rewrite L by lraQ ];
      reflexivity.
  - intros q [lo hi].
    destruct (Qlt_le_dec q 0.0625); [eexists; apply band_new; lraQ|].
    destruct (Qlt_le_dec q 0.1875);
      [eexists; apply band_waxing_crescent; lraQ|].
    destruct (Qlt_le_dec q 0.3125);
      [eexists; apply band_first_quarter; lraQ|].
    destruct (Qlt_le_dec q 0.4375);
      [eexists; apply band_waxing_gibbous; lraQ|].
    destruct (Qlt_le_dec q 0.5625); [eexists; apply band_full; lraQ|].
    destruct (Qlt_le_dec q 0.6875);
      [eexists; apply band_waning_gibbous; lraQ|].
    destruct (Qlt_le_dec q 0.8125);
      [eexists; apply band_last_quarter; lraQ|].
    destruct (Qlt_le_dec q 0.9375);
      [eexists; apply band_waning_crescent; lraQ|].
    eexists; apply band_new_wrap; lraQ.
Qed.

Lemma phaseName_bands_witness :
  failsWith (phaseName '(-0.25)) InvalidInput
  /\ phaseName '0.5 = Ok "Full Moon"
  /\ exists label, inBand 1 label.
Proof.
  destruct phaseName_bands as [Hout [_ [_ [Hin Hcover]]]].
  split; [|split].
  - apply Hout. left. reflexivity.
  - apply Hin. apply band_full. split; unfold Qle, Qlt; simpl; lia.
  - apply Hcover. split; unfold Qle; simpl; lia.
Defined.

(** C6, as stated, fails: [NaN] is not a phase in [0,1], but the
    comparisons of the guard are false of it, and it gets the label of the
    last band. *)
Lemma phaseName_NaN :
  phaseName NaN = Ok "New Moon"
  /\ ~ failsWith (phaseName NaN) InvalidInput.
Proof.
  split; [reflexivity|]. intros [e [He _]]. discriminate He.
Qed.

(** ** formatRelativeTime *)

Lemma eqb_Fin_false (p q : Q) : ('p === 'q) = false <-> ~ (p == q)%Q.
Proof.
  simpl. split.
  - intros H E. apply Qeq_bool_iff in E. congruence.
  - intro H. destruct (Qeq_bool p q) eqn:E; [|reflexivity].
    apply Qeq_bool_iff in E. contradiction.
Qed.

Lemma positive_not_literal (n : number) (c : Q) :
  (c <= 0)%Q -> (n >? '0) = true -> (n === 'c) = false.
Proof.
  intros Hc H. destruct n as [|a|q]; try reflexivity.
  apply ltb_Fin in H. apply eqb_Fin_false. lraQ.
Qed.

Lemma negative_not_literal (n : number) (c : Q) :
  (0 <= c)%Q -> (n <? '0) = true -> (n === 'c) = false.
Proof.
  intros Hc H. destruct n as [|a|q]; try reflexivity.
  apply ltb_Fin in H. apply eqb_Fin_false. lraQ.
Qed.

Lemma negative_not_positive (n : number) :
  (n <? '0) = true -> (n >? '0) = false.
Proof.
  destruct n as [|a|q]; simpl; try congruence.
  - intros ->. reflexivity.
  - intro H. apply Qlt_bool_iff in H. apply Qlt_bool_false_iff. lraQ.
Qed.

Lemma ordered_not_NaN (n m : number) :
  (n <? m) = true -> Num.isNaN n = false /\ Num.isNaN m = false.
Proof. destruct n, m; simpl; intuition congruence. Qed.

(** C9, as the code has it.  The three literals, the two templates, the
    two examples; the only argument rejected is [NaN], and the infinities
    are formatted like any other number. *)
Theorem formatRelativeTime_cases (fractionToString : Q -> string) :
  let format := formatRelativeTime fractionToString in
  let str := toString fractionToString in
  format '0 = Ok "Today"
  /\ format '1 = Ok "Tomorrow"
  /\ format '(-1) = Ok "Yesterday"
  /\ (forall n : number,
        (n >? '0) = true -> (n === '1) = false ->
        format n = Ok ("In " ++ str n ++ " days"))
  /\ (forall n : number,
        (n <? '0) = true -> (n === '(-1)) = false ->
        format n = Ok (str (Num.abs n) ++ " days ago"))
  /\ format '5 = Ok "In 5 days"
  /\ format '(-3) = Ok "3 days ago"
  /\ (forall days : number,
        failsWith (format days) InvalidInput <-> days = NaN)
  /\ format (Inf false) = Ok "In Infinity days"
  /\ format (Inf true) = Ok "Infinity days ago".
Proof.
  intros format str. subst format str.
  repeat match goal with |- _ /\ _ => split end; try reflexivity.
  - intros n Hpos Hone. unfold formatRelativeTime.
    destruct (ordered_not_NaN _ _ Hpos) as [_ ->].
    rewrite (positive_not_literal n 0%Q) by (assumption || lraQ).
    rewrite Hone.
    rewrite (positive_not_literal n (-1)%Q) by (assumption || lraQ).
    rewrite Hpos. reflexivity.
  - intros n Hneg Hone. unfold formatRelativeTime.
    destruct (ordered_not_NaN _ _ Hneg) as [-> _].
    rewrite (negative_not_literal n 0%Q) by (assumption || lraQ).
    rewrite (negative_not_literal n 1%Q) by (assumption || lraQ).
    rewrite Hone, (negative_not_positive n Hneg). reflexivity.
  - intro days. split.
    + intros [e [He _]]. destruct days as [|a|q]; [reflexivity| |].
      * destruct a; discriminate He.
      * unfold formatRelativeTime in He. simpl Num.isNaN in He.
        cbv iota in He.
        destruct ('q === '0), ('q === '1), ('q === '(-1)), ('q >? '0);
          discriminate He.
    + intros ->. exists DaysNotANumber. split; reflexivity.
Qed.

Lemma formatRelativeTime_cases_witness :
  formatRelativeTime (fun _ => "") '7 = Ok "In 7 days"
  /\ formatRelativeTime (fun _ => "") '(-30) = Ok "30 days ago".
Proof.
  destruct (formatRelativeTime_cases (fun _ => ""))
    as (_ & _ & _ & Hpos & Hneg & _).
  split.
  - apply (Hpos '7); reflexivity.
  - apply (Hneg '(-30)); reflexivity.
Defined.

(** C9, as stated, fails: an infinite number of days is not rejected. *)
Lemma formatRelativeTime_accepts_Infinity :
  formatRelativeTime (fun _ => "") (Inf false) = Ok "In Infinity days"
  /\ ~ failsWith (formatRelativeTime (fun _ => "") (Inf false)) InvalidInput.
Proof.
  split; [reflexivity|]. intros [e [He _]]. discriminate He.
Qed.

(** ** illumination *)

Lemma Q2R_literal (z : Z) : Q2R (inject_Z z) = IZR z.
Proof. unfold Q2R. simpl. Lra.lra. Qed.

Lemma illumination_in_range (q : Q) :
  (0 <= q <= 1)%Q ->
  illumination 'q
  = Ok (Fin (Rabs (Rtrigo_def.cos (Q2R q * 2 * Rtrigo1.PI)) * 100)%R).
Proof.
  intros [lo hi]. unfold illumination, Num.gtb.
  rewrite (proj2 (ltb_Fin_false q 0) lo), (proj2 (ltb_Fin_false 1 q) hi).
  cbn [orb RNum.of_number RNum.mul RNum.abs RNum.cos RNum.PI].
  change 2%Q with (inject_Z 2). change 100%Q with (inject_Z 100).
  now rewrite !Q2R_literal.
Qed.

(** C7, amended. For a phase in [0,1] the illumination is
    [|cos (phase * 2 * PI)| * 100], a value in [0,100] that is 100 at
    phase 0 and at phase 0.5.  [illumination] fails, with InvalidInput,
    exactly for the phases that its guard tells to be below 0 or above 1;
    the comparisons are false of [NaN], for which it returns [NaN]. *)
Theorem illumination_formula :
  (forall q : Q,
      (0 <= q <= 1)%Q ->
      exists r : R,
        illumination 'q = Ok (Fin r)
        /\ r = (Rabs (Rtrigo_def.cos (Q2R q * 2 * Rtrigo1.PI)) * 100)%R
        /\ (0 <= r <= 100)%R)
  /\ illumination '0 = Ok (Fin 100%R)
  /\ illumination '0.5 = Ok (Fin 100%R)
  /\ (forall phase : number,
        failsWith (illumination phase) InvalidInput
        <-> (phase <? '0) = true \/ (phase >? '1) = true).
Proof.
  repeat match goal with |- _ /\ _ => split end.
  - intros q H. eexists. split; [now apply illumination_in_range|].
    split; [reflexivity|].
    pose proof (Rabs_pos (Rtrigo_def.cos (Q2R q * 2 * Rtrigo1.PI))) as P.
    pose proof (COS_bound (Q2R q * 2 * Rtrigo1.PI)) as [B1 B2].
    assert (Rabs (Rtrigo_def.cos (Q2R q * 2 * Rtrigo1.PI)) <= 1)%R
      by (apply Rabs_le; split; assumption).
    Lra.lra.
  - rewrite illumination_in_range by (split; unfold Qle; simpl; lia).
    do 2 f_equal.
    replace (Q2R 0 * 2 * Rtrigo1.PI)%R with 0%R
      by (unfold Q2R; simpl; Lra.lra).
    rewrite cos_0, Rabs_R1. Lra.lra.
  - rewrite illumination_in_range by (split; unfold Qle; simpl; lia).
    do 2 f_equal.
    replace (Q2R 0.5 * 2 * Rtrigo1.PI)%R with Rtrigo1.PI
      by (unfold Q2R; simpl; Lra.lra).
    rewrite cos_PI. unfold Rabs. destruct (Rcase_abs (-1)); Lra.lra.
  - intro phase. split.
    + intros [e [He _]]. unfold illumination in He.
      destruct ((phase <? '0) || (phase >? '1)) eqn:G; [|discriminate He].
      now apply orb_true_iff in G.
    + intro H. exists PhaseOutOfRange. split; [|reflexivity].
      unfold illumination.
      destruct H as [-> | ->]; [reflexivity | now rewrite orb_true_r].
Qed.

Lemma illumination_formula_witness :
  (exists r : R,
      illumination '0.25 = Ok (Fin r)
      /\ r = (Rabs (Rtrigo_def.cos (Q2R 0.25 * 2 * Rtrigo1.PI)) * 100)%R
      /\ (0 <= r <= 100)%R)
  /\ failsWith (illumination '1.5) InvalidInput.
Proof.
  destruct illumination_formula as (Hin & _ & _ & Hout).
  split.
  - apply Hin. split; unfold Qle; simpl; lia.
  - apply Hout. right. reflexivity.
Defined.

(** C7, as stated, fails: [NaN] is not a phase in [0,1], but the guard
    lets it through and the result is [NaN]. *)
Lemma illumination_NaN :
  illumination NaN = Ok NaN
  /\ ~ failsWith (illumination NaN) InvalidInput.
Proof.
  split; [reflexivity|]. intros [e [He _]]. discriminate He.
Qed.

(** ** The calendar *)

Ltac era_split z :=
  unfold ES.daysFromCivil, ES.civil, ES.monthIndex, ES.dayOfYear,
    ES.yearOfEra, ES.daysPerEra, ES.eraShift;
  cbv zeta;
  let E := fresh "E" in
  let B := fresh "B" in
  pose proof (Z.div_mod (z + 719468) 146097 ltac:(lia)) as E;
  pose proof (Z.mod_pos_bound (z + 719468) 146097 ltac:(lia)) as B;
  generalize dependent ((z + 719468) / 146097)%Z;
  generalize dependent ((z + 719468) mod 146097)%Z;
  intros doe B era E;
  match goal with
  | |- context [(?mp <? 10)%Z] => destruct (Z.ltb_spec mp 10)
  end;
  cbn [fst snd];
  try match goal with
    | |- context [(?m <=? 2)%Z] => destruct (Z.leb_spec m 2)
    end.

Lemma civil_month_day (z : Z) :
  (1 <= snd (fst (ES.civil z)) <= 12 /\ 1 <= snd (ES.civil z) <= 31)%Z.
Proof. era_split z; Z.div_mod_to_equations; lia. Qed.

Lemma daysFromCivil_civil (z : Z) :
  ES.daysFromCivil (fst (fst (ES.civil z))) (snd (fst (ES.civil z)))
    (snd (ES.civil z)) = z.
Proof. era_split z; Z.div_mod_to_equations; lia. Qed.

Lemma civil_year_floor (z : Z) :
  (-2440550 <= z <-> -4712 <= fst (fst (ES.civil z)))%Z.
Proof. era_split z; Z.div_mod_to_equations; lia. Qed.

Lemma daysFromCivil_first (y m d : Z) :
  (ES.daysFromCivil y m 1 + d - 1)%Z = ES.daysFromCivil y m d.
Proof. unfold ES.daysFromCivil. cbv zeta. lia. Qed.

Lemma MakeDay_shift (t k : Z) :
  ES.MakeDay (ES.YearFromTime t) (ES.MonthFromTime t) (ES.DateFromTime t + k)
  = (ES.Day t + k)%Z.
Proof.
  unfold ES.MakeDay, ES.YearFromTime, ES.MonthFromTime, ES.DateFromTime.
  pose proof (civil_month_day (ES.Day t)) as [Hm _].
  pose proof (daysFromCivil_civil (ES.Day t)) as R.
  generalize dependent (ES.civil (ES.Day t)). intros [[y m] d]. cbn [fst snd].
  intros Hm R.
  replace ((m - 1) / 12)%Z with 0%Z by (Z.div_mod_to_equations; lia).
  replace ((m - 1) mod 12 + 1)%Z with m by (Z.div_mod_to_equations; lia).
  rewrite Z.add_0_r, daysFromCivil_first, <- R.
  rewrite <- (daysFromCivil_first y m (d + k)), <- (daysFromCivil_first y m d).
  lia.
Qed.

Lemma MakeDate_day_shift (t k : Z) :
  ES.MakeDate (ES.Day t + k) (ES.TimeWithinDay t) = (t + k * ES.msPerDay)%Z.
Proof.
  unfold ES.MakeDate, ES.Day, ES.TimeWithinDay, ES.msPerDay.
  Z.div_mod_to_equations; lia.
Qed.

Lemma MakeDate_hour_shift (t k : Z) :
  ES.MakeDate (ES.Day t)
    (ES.MakeTime (ES.HourFromTime t + k) (ES.MinFromTime t)
       (ES.SecFromTime t) (ES.msFromTime t))
  = (t + k * ES.msPerHour)%Z.
Proof.
  unfold ES.MakeDate, ES.MakeTime, ES.Day, ES.HourFromTime, ES.MinFromTime,
    ES.SecFromTime, ES.msFromTime, ES.msPerDay, ES.msPerHour, ES.msPerMinute,
    ES.msPerSecond.
  Z.div_mod_to_equations; lia.
Qed.

Lemma floorTime_year (t : Z) :
  (floorTime <= t <-> -4712 <= ES.YearFromTime t)%Z.
Proof.
  unfold ES.YearFromTime. rewrite <- civil_year_floor.
  unfold floorTime, ES.Day, ES.msPerDay.
  change (ES.daysFromCivil (-4712) 1 1) with (-2440550)%Z.
  Z.div_mod_to_equations; lia.
Qed.

(** ** Truncation and time values *)

Lemma Qtrunc_frac (q : Q) : (-1 < q - inject_Z (Qtrunc q) < 1)%Q.
Proof.
  unfold Qtrunc. destruct (Qle_bool 0 q) eqn:E.
  - pose proof (Qfloor_le q). pose proof (Qlt_floor q) as L.
    rewrite inject_Z_plus in L. change (inject_Z 1) with 1%Q in L.
    split; lraQ.
  - pose proof (Qle_ceiling q). pose proof (Qceiling_lt q) as L.
    assert (S : (inject_Z (Qceiling q - 1) == inject_Z (Qceiling q) - 1)%Q)
      by (unfold Qeq; simpl; ring).
    rewrite S in L. split; lraQ.
Qed.

Lemma Qtrunc_inject_Z (z : Z) : Qtrunc (inject_Z z) = z.
Proof.
  unfold Qtrunc. destruct (Qle_bool 0 (inject_Z z)).
  - apply Qfloor_Z.
  - apply Qceiling_Z.
Qed.

Lemma Qtrunc_comp (p q : Q) : (p == q)%Q -> Qtrunc p = Qtrunc q.
Proof.
  intro E. unfold Qtrunc.
  rewrite (Qleb_comp 0%Q 0%Q (Qeq_refl 0%Q) p q E).
  now rewrite (Qfloor_comp p q E), (Qceiling_comp p q E).
Qed.

Lemma Qtrunc_integer (q : Q) (z : Z) : (q == inject_Z z)%Q -> Qtrunc q = z.
Proof.
  intro E. rewrite (Qtrunc_comp _ _ E). apply Qtrunc_inject_Z.
Qed.

Lemma TimeClip_integer (q : Q) (z : Z) :
  (q == inject_Z z)%Q ->
  TimeClip 'q
  = if (Z.abs z <=? ES.maxTime)%Z then TimeValue z else Invalid.
Proof.
  intro E. unfold TimeClip. rewrite (Qtrunc_integer _ _ E).
  assert (B : Qle_bool (Qabs q) (inject_Z ES.maxTime) = true
              <-> (Z.abs z <= ES.maxTime)%Z).
  { rewrite Qle_bool_iff, Qabs_Qle_condition, E, <- inject_Z_opp,
      <- !Zle_Qle. lia. }
  destruct (Z.leb_spec (Z.abs z) ES.maxTime) as [H|H].
  - now rewrite (proj2 B H).
  - destruct (Qle_bool (Qabs q) (inject_Z ES.maxTime)); [|reflexivity].
    pose proof (proj1 B eq_refl). lia.
Qed.

Lemma TimeClip_in_range (q : Q) (z : Z) :
  (q == inject_Z z)%Q -> (- ES.maxTime <= z <= ES.maxTime)%Z ->
  TimeClip 'q = TimeValue z.
Proof.
  intros E H. rewrite (TimeClip_integer _ _ E).
  destruct (Z.leb_spec (Z.abs z) ES.maxTime); [reflexivity | lia].
Qed.

Lemma TimeClip_valid (q : Q) (z u : Z) :
  (q == inject_Z z)%Q -> TimeClip 'q = TimeValue u ->
  u = z /\ (- ES.maxTime <= z <= ES.maxTime)%Z.
Proof.
  intros E. rewrite (TimeClip_integer _ _ E).
  destruct (Z.leb_spec (Z.abs z) ES.maxTime); [|discriminate].
  intros [= <-]. split; [reflexivity | lia].
Qed.

(** ** Setters of the Date object *)

Lemma toInteger_shift (a k : Z) :
  toInteger (Num.of_Z a + Num.of_Z k) = Some (a + k)%Z.
Proof.
  simpl. f_equal. apply Qtrunc_integer. now rewrite inject_Z_plus.
Qed.

(** In any zone, [setHours(getHours() + k)] and [setDate(getDate() + k)]
    move the local time by [k] hours and by [k] days: the date after the
    call is the instant at which the host reads that local time. *)
Lemma setHours_local (zone : Zone) (u k : Z) :
  setHours zone (TimeValue u) (getHours zone (TimeValue u) + Num.of_Z k)
  = TimeClip (Num.of_Z (UTC zone (LocalTime zone u + k * ES.msPerHour))).
Proof.
  unfold setHours, getHours, getter. rewrite toInteger_shift.
  now rewrite MakeDate_hour_shift.
Qed.

Lemma setDate_local (zone : Zone) (u k : Z) :
  setDate zone (TimeValue u) (getDate zone (TimeValue u) + Num.of_Z k)
  = TimeClip (Num.of_Z (UTC zone (LocalTime zone u + k * ES.msPerDay))).
Proof.
  unfold setDate, getDate, getter. rewrite toInteger_shift.
  now rewrite MakeDay_shift, MakeDate_day_shift.
Qed.

(** Where the offset never changes they add [k] hours and [k] days. *)
Lemma setHours_shift (tz u k : Z) :
  setHours tz (TimeValue u) (getHours tz (TimeValue u) + Num.of_Z k)
  = TimeClip (Num.of_Z (u + k * ES.msPerHour)).
Proof.
  rewrite setHours_local. unfold LocalTime, UTC.
  cbn [offsetAt offsetOf fixedOffset]. do 2 f_equal. lia.
Qed.

Lemma setDate_shift (tz u k : Z) :
  setDate tz (TimeValue u) (getDate tz (TimeValue u) + Num.of_Z k)
  = TimeClip (Num.of_Z (u + k * ES.msPerDay)).
Proof.
  rewrite setDate_local. unfold LocalTime, UTC.
  cbn [offsetAt offsetOf fixedOffset]. do 2 f_equal. lia.
Qed.

Lemma TimeClip_of_Z_valid (z u : Z) :
  TimeClip (Num.of_Z z) = TimeValue u ->
  u = z /\ (- ES.maxTime <= z <= ES.maxTime)%Z.
Proof. apply TimeClip_valid. reflexivity. Qed.

Lemma TimeClip_of_Z_in_range (z : Z) :
  (- ES.maxTime <= z <= ES.maxTime)%Z ->
  TimeClip (Num.of_Z z) = TimeValue z.
Proof. apply TimeClip_in_range. reflexivity. Qed.

(** ** moonPhase *)

Lemma julianDaySpec_finite (y m d h mi s : Q) :
  exists jd : Q, julianDaySpec 'y 'm 'd 'h 'mi 's = 'jd.
Proof.
  unfold julianDaySpec. destruct ('m <=? '2); eexists; reflexivity.
Qed.

Lemma phase_wrap (jd : Q) :
  let phase := (('jd - '2451549.5) mod '29.53058868) / '29.53058868 in
  exists v : Q,
    (if phase <? '0 then phase + '1 else phase) = 'v
    /\ 'v = moonPhaseSpec 'jd
    /\ (0 <= v < 1)%Q
    /\ ((jd == 2451549.5)%Q -> (v == 0)%Q).
Proof.
  unfold moonPhaseSpec.
  set (x := (jd + - 2451549.5)%Q).
  set (T := inject_Z (Qtrunc (x / 29.53058868))).
  set (r := (x - 29.53058868 * T)%Q).
  change (('jd - '2451549.5) mod '29.53058868) with ('r).
  change ('r / '29.53058868) with ('(r / 29.53058868)).
  cbv zeta.
  pose proof (Qtrunc_frac (x / 29.53058868)) as F. fold T in F.
  assert (Ex : (r / 29.53058868 == x / 29.53058868 - T)%Q)
    by (unfold r; field).
  assert (Er : (r == 29.53058868 * (r / 29.53058868))%Q) by field.
  assert (Z0 : (jd == 2451549.5)%Q -> (r / 29.53058868 == 0)%Q).
  { intro E. assert (X0 : (x == 0)%Q) by (unfold x; lraQ).
    assert (T0 : (T == 0)%Q).
    { unfold T. rewrite (Qtrunc_integer _ 0); [reflexivity|].
      rewrite X0. reflexivity. }
    rewrite Ex, X0, T0. reflexivity. }
  destruct (Qlt_le_dec (r / 29.53058868) 0) as [N|P].
  - rewrite (proj2 (ltb_Fin _ _) N).
    assert (Nr : (r < 0)%Q) by lraQ.
    rewrite (proj2 (ltb_Fin _ _) Nr).
    eexists. split; [reflexivity|]. split; [reflexivity|].
    split; [split; lraQ|]. intro E. specialize (Z0 E). lraQ.
  - rewrite (proj2 (ltb_Fin_false _ _) P).
    assert (Pr : (0 <= r)%Q) by lraQ.
    rewrite (proj2 (ltb_Fin_false _ _) Pr).
    eexists. split; [reflexivity|]. split; [reflexivity|].
    split; [split; lraQ|]. exact Z0.
Qed.

Lemma leb_of_Z (a b : Z) : (Num.of_Z a <=? Num.of_Z b) = true <-> (a <= b)%Z.
Proof. unfold Num.of_Z. rewrite leb_Fin, <- Zle_Qle. reflexivity. Qed.

Lemma ltb_of_Z (a b : Z) : (Num.of_Z a <? Num.of_Z b) = true <-> (a < b)%Z.
Proof. unfold Num.of_Z. rewrite ltb_Fin, <- Zlt_Qlt. reflexivity. Qed.

Lemma of_Z_succ (a : Z) : Num.of_Z a + '1 = '(inject_Z a + inject_Z 1).
Proof. reflexivity. Qed.

Section HostFacts.

Variable zone : Zone.

Lemma moonPhase_Invalid : moonPhase zone Invalid = Throw (InvalidDate "date").
Proof. reflexivity. Qed.

Lemma moonPhase_TimeValue (t : Z) :
  moonPhase zone (TimeValue t)
  = (jd <- localJulianDay zone (TimeValue t) ;;
     let phase := ((jd - '2451549.5) mod '29.53058868) / '29.53058868 in
     Ok (if phase <? '0 then phase + '1 else phase)).
Proof. reflexivity. Qed.

Lemma localJulianDay_supported (t : Z) :
  (-4712 <= ES.YearFromTime (LocalTime zone t))%Z ->
  exists jd : Q, localJulianDay zone (TimeValue t) = Ok 'jd.
Proof.
  intro Hy. unfold localJulianDay.
  unfold getFullYear, getMonth, getDate, getHours, getMinutes, getSeconds,
    getter.
  set (lt := LocalTime zone t) in *.
  rewrite julianDay_valid.
  - rewrite of_Z_succ. unfold Num.of_Z.
    destruct (julianDaySpec_finite (inject_Z (ES.YearFromTime lt))
                (inject_Z (ES.MonthFromTime lt) + inject_Z 1)
                (inject_Z (ES.DateFromTime lt)) (inject_Z (ES.HourFromTime lt))
                (inject_Z (ES.MinFromTime lt)) (inject_Z (ES.SecFromTime lt)))
      as [jd ->].
    now exists jd.
  - pose proof (civil_month_day (ES.Day lt)) as [Hm Hd].
    unfold passesValidation. rewrite of_Z_succ, <- inject_Z_plus.
    fold (Num.of_Z (ES.MonthFromTime lt + 1)).
    change ('1) with (Num.of_Z 1). change ('12) with (Num.of_Z 12).
    change ('31) with (Num.of_Z 31). change ('(-4712)) with (Num.of_Z (-4712)).
    rewrite !andb_true_iff, !leb_of_Z.
    unfold ES.MonthFromTime, ES.DateFromTime. lia.
Qed.

Lemma moonPhase_supported (t : Z) :
  (-4712 <= ES.YearFromTime (LocalTime zone t))%Z ->
  exists jd v : Q,
    localJulianDay zone (TimeValue t) = Ok 'jd
    /\ moonPhase zone (TimeValue t) = Ok 'v
    /\ 'v = moonPhaseSpec 'jd
    /\ (0 <= v < 1)%Q
    /\ ((jd == 2451549.5)%Q -> (v == 0)%Q).
Proof.
  intro Hy. destruct (localJulianDay_supported t Hy) as [jd Hjd].
  destruct (phase_wrap jd) as (v & Hv & Hspec & Hrange & Hepoch).
  exists jd, v. rewrite moonPhase_TimeValue, Hjd. cbn [bind].
  cbv zeta in Hv. rewrite Hv. auto.
Qed.

Lemma moonPhase_unsupported (t : Z) :
  (ES.YearFromTime (LocalTime zone t) < -4712)%Z ->
  moonPhase zone (TimeValue t) = Throw InvalidDateParameters.
Proof.
  intro Hy. rewrite moonPhase_TimeValue. unfold localJulianDay.
  rewrite (proj2 (julianDay_guard _ _ _ _ _ _)); [reflexivity|].
  unfold getFullYear, getter. change ('(-4712)) with (Num.of_Z (-4712)).
  rewrite (proj2 (ltb_of_Z _ _) Hy). reflexivity.
Qed.

End HostFacts.

Lemma epoch_instant (tz : Z) :
  exists jd v : number,
    localJulianDay tz (TimeValue (epochTime - tz)) = Ok jd
    /\ jd =~ '2451549.5
    /\ moonPhase tz (TimeValue (epochTime - tz)) = Ok v
    /\ v =~ '0.
Proof.
  rewrite moonPhase_TimeValue.
  unfold localJulianDay, getFullYear, getMonth, getDate, getHours, getMinutes,
    getSeconds, getter, LocalTime.
  cbn [offsetAt offsetOf fixedOffset].
  replace (epochTime - tz + tz)%Z with epochTime by lia.
  do 2 eexists. split; [vm_compute; reflexivity|].
  split; [vm_compute; reflexivity|].
  split; vm_compute; reflexivity.
Qed.

(** C2, as the code has it.  For a date whose local year is at least
    -4712 the phase is the value of the specification's formula at the
    Julian Day of the local calendar components, it lies in [0,1), and it
    is 0 when the Julian Day is the epoch 2451549.5 (local midnight of
    2000-01-06 is such an instant).  A date of an earlier year is rejected
    by [julianDay]. *)
Theorem moonPhase_range (tz : Z) :
  (forall t : Z,
      (-4712 <= ES.YearFromTime (LocalTime tz t))%Z ->
      exists jd v : Q,
        localJulianDay tz (TimeValue t) = Ok 'jd
        /\ moonPhase tz (TimeValue t) = Ok 'v
        /\ 'v = moonPhaseSpec 'jd
        /\ (0 <= v < 1)%Q
        /\ ((jd == 2451549.5)%Q -> (v == 0)%Q))
  /\ (exists jd v : number,
        localJulianDay tz (TimeValue (epochTime - tz)) = Ok jd
        /\ jd =~ '2451549.5
        /\ moonPhase tz (TimeValue (epochTime - tz)) = Ok v
        /\ v =~ '0)
  /\ (forall t : Z,
        (ES.YearFromTime (LocalTime tz t) < -4712)%Z ->
        failsWith (moonPhase tz (TimeValue t)) InvalidInput).
Proof.
  split; [apply moonPhase_supported|]. split; [apply epoch_instant|].
  intros t Hy. exists InvalidDateParameters.
  split; [now apply moonPhase_unsupported | reflexivity].
Qed.

Lemma moonPhase_range_witness :
  (exists jd v : Q,
      localJulianDay 0 (TimeValue 1700000000000) = Ok 'jd
      /\ moonPhase 0 (TimeValue 1700000000000) = Ok 'v
      /\ 'v = moonPhaseSpec 'jd
      /\ (0 <= v < 1)%Q
      /\ ((jd == 2451549.5)%Q -> (v == 0)%Q))
  /\ failsWith (moonPhase 0 (TimeValue (-219951936000000))) InvalidInput.
Proof.
  destruct (moonPhase_range 0) as (Hin & _ & Hout).
  split.
  - apply Hin. vm_compute. discriminate.
  - apply Hout. vm_compute. reflexivity.
Defined.

(** C2, as stated, fails: the first of January of the year -5000 is a
    valid date, and [moonPhase] throws on it. *)
Lemma moonPhase_rejects_early_year :
  validateDate (TimeValue (-219951936000000)) "date" = Ok tt
  /\ getFullYear 0 (TimeValue (-219951936000000)) = Num.of_Z (-5000)
  /\ moonPhase 0 (TimeValue (-219951936000000)) = Throw InvalidDateParameters.
Proof. repeat split; vm_compute; reflexivity. Qed.

(** ** The counters of the two [for] loops *)

Lemma forValues_enough (n : nat) (cond : number -> bool) (step i : number) :
  (List.length (forValues n cond step i) < n)%nat ->
  forall m : nat,
    forValues (n + m) cond step i = forValues n cond step i.
Proof.
  revert i. induction n as [|n IH]; intros i H m; [simpl in H; lia|].
  simpl in *. destruct (cond i); [|reflexivity].
  simpl in H. f_equal. apply IH. lia.
Qed.

Lemma scanHours_values :
  scanHours = List.map (fun k => Num.of_Z (2 * Z.of_nat k)) (seq 0 367).
Proof. vm_compute. reflexivity. Qed.

Lemma refineMinutes_values :
  refineMinutes
  = List.map (fun k => Num.of_Z (30 * Z.of_nat k - 720)) (seq 0 49).
Proof. vm_compute. reflexivity. Qed.

(** Neither list is cut short by the bound on its length. *)
Lemma scanHours_complete (extra : nat) :
  forValues (512 + extra) (fun hours => hours <? ('29.53 + '1) * '24) '2 '0
  = scanHours.
Proof. apply forValues_enough. vm_compute. lia. Qed.

Lemma refineMinutes_complete (extra : nat) :
  forValues (64 + extra) (fun minutes => minutes <=? '720) '30 '(-720)
  = refineMinutes.
Proof. apply forValues_enough. vm_compute. lia. Qed.

Lemma scanHours_range :
  Forall (fun hours => exists h : Z, hours = Num.of_Z h /\ (0 <= h <= 732)%Z)
    scanHours.
Proof.
  rewrite scanHours_values. apply Forall_forall. intros x Hx.
  apply in_map_iff in Hx. destruct Hx as [k [<- Hk]].
  apply in_seq in Hk. eexists. split; [reflexivity | lia].
Qed.

Lemma refineMinutes_range :
  Forall (fun minutes =>
            exists m : Z, minutes = Num.of_Z m /\ (-720 <= m <= 720)%Z)
    refineMinutes.
Proof.
  rewrite refineMinutes_values. apply Forall_forall. intros x Hx.
  apply in_map_iff in Hx. destruct Hx as [k [<- Hk]].
  apply in_seq in Hk. eexists. split; [reflexivity | lia].
Qed.

(** ** Dates built by the searches *)

Lemma TimeClip_equiv (q : Q) (z : Z) :
  (q == inject_Z z)%Q -> TimeClip 'q = TimeClip (Num.of_Z z).
Proof.
  intro E. rewrite (TimeClip_integer q z E).
  unfold Num.of_Z. now rewrite (TimeClip_integer (inject_Z z) z).
Qed.

Lemma newDate_minutes (a m : Z) :
  newDate (getTime (TimeValue a) + Num.of_Z m * '60 * '1000)
  = TimeClip (Num.of_Z (a + m * ES.msPerMinute)).
Proof.
  unfold newDate, getTime, Num.of_Z. cbn [Num.add Num.mul].
  apply TimeClip_equiv.
  rewrite inject_Z_plus, inject_Z_mult. unfold ES.msPerMinute.
  change (inject_Z 60000) with (60 * 1000)%Q. ring.
Qed.

Lemma newDate_hours (a h : Z) :
  newDate (getTime (TimeValue a) + Num.of_Z h * '60 * '60 * '1000)
  = TimeClip (Num.of_Z (a + h * ES.msPerHour)).
Proof.
  unfold newDate, getTime, Num.of_Z. cbn [Num.add Num.mul].
  apply TimeClip_equiv.
  rewrite inject_Z_plus, inject_Z_mult. unfold ES.msPerHour.
  change (inject_Z 3600000) with (60 * 60 * 1000)%Q. ring.
Qed.

Lemma moonPhase_Ok_valid (zone : Zone) (date : Date) (v : number) :
  moonPhase zone date = Ok v -> exists t : Z, date = TimeValue t.
Proof.
  destruct date as [|t]; [discriminate | now exists t].
Qed.

(** ** Where the searches can end *)

Section SearchWindow.

Variable zone : Zone.

Lemma refineLoop_window (a : Z) (targetPhase : number) (lo hi : Z)
  (minutesLeft : list number) :
  Forall (fun minutes =>
            exists m : Z, minutes = Num.of_Z m /\ (lo <= m <= hi)%Z)
    minutesLeft ->
  forall (bestDate : Date) (bestDiff : number) (d : Date),
    (exists tb : Z,
        bestDate = TimeValue tb
        /\ (a + lo * ES.msPerMinute <= tb <= a + hi * ES.msPerMinute)%Z) ->
    refineLoop zone (TimeValue a) targetPhase minutesLeft bestDate bestDiff
    = Ok d ->
    exists td : Z,
      d = TimeValue td
      /\ (a + lo * ES.msPerMinute <= td <= a + hi * ES.msPerMinute)%Z.
Proof.
  induction 1 as [|minutes rest [m [-> Hm]] _ IH];
    intros bestDate bestDiff d Hbest Hrun.
  - simpl in Hrun. injection Hrun as <-. exact Hbest.
  - cbn [refineLoop] in Hrun. rewrite newDate_minutes in Hrun.
    destruct (moonPhase zone (TimeClip (Num.of_Z (a + m * ES.msPerMinute))))
      as [phase|e] eqn:Hphase; [|discriminate].
    cbn [bind] in Hrun.
    destruct (moonPhase_Ok_valid _ _ _ Hphase) as [t Ht].
    destruct (TimeClip_of_Z_valid _ _ Ht) as [-> _].
    destruct (phaseDiff phase targetPhase <? bestDiff).
    + apply (IH _ _ _) in Hrun; [exact Hrun|].
      rewrite Ht. unfold copyDate. eexists. split; [reflexivity|].
      unfold ES.msPerMinute in *. nia.
    + now apply (IH _ _ _) in Hrun.
Qed.

Lemma refinePhaseDate_window (approximateDate : Date) (targetPhase : number)
  (d : Date) :
  refinePhaseDate zone approximateDate targetPhase = Ok d ->
  exists a td : Z,
    approximateDate = TimeValue a /\ d = TimeValue td
    /\ (a - 720 * ES.msPerMinute <= td <= a + 720 * ES.msPerMinute)%Z.
Proof.
  unfold refinePhaseDate, copyDate. intro Hrun.
  destruct (moonPhase zone approximateDate) as [phase0|e] eqn:Hphase;
    [|discriminate].
  destruct (moonPhase_Ok_valid _ _ _ Hphase) as [a ->].
  cbn [bind] in Hrun.
  apply (refineLoop_window a targetPhase (-720) 720 _ refineMinutes_range)
    in Hrun.
  - destruct Hrun as [td [-> Htd]]. exists a, td.
    repeat split; unfold ES.msPerMinute in *; lia.
  - exists a. split; [reflexivity | unfold ES.msPerMinute; lia].
Qed.

Lemma scanLoop_window (t0 : Z) (targetPhase : number) (phaseName : string)
  (hoursLeft : list number) :
  Forall (fun hours => exists h : Z, hours = Num.of_Z h /\ (0 <= h <= 732)%Z)
    hoursLeft ->
  forall (bestDate : Date) (bestDiff : number) (d : Date),
    (bestDate = Invalid
     \/ exists tb : Z,
         bestDate = TimeValue tb
         /\ (t0 <= tb <= t0 + 732 * ES.msPerHour)%Z) ->
    scanLoop zone (TimeValue t0) targetPhase phaseName hoursLeft bestDate
      bestDiff = Ok d ->
    exists td : Z,
      d = TimeValue td
      /\ (t0 - 720 * ES.msPerMinute
          <= td <= t0 + 732 * ES.msPerHour + 720 * ES.msPerMinute)%Z.
Proof.
  assert (R : forall bestDate d,
             (bestDate = Invalid
              \/ exists tb : Z,
                  bestDate = TimeValue tb
                  /\ (t0 <= tb <= t0 + 732 * ES.msPerHour)%Z) ->
             refinePhaseDate zone bestDate targetPhase = Ok d ->
             exists td : Z,
               d = TimeValue td
               /\ (t0 - 720 * ES.msPerMinute
                   <= td <= t0 + 732 * ES.msPerHour + 720 * ES.msPerMinute)%Z).
  { intros bestDate d Hbest Hrun.
    apply refinePhaseDate_window in Hrun.
    destruct Hrun as (a & td & -> & -> & Htd).
    destruct Hbest as [|[tb [[= ->] Htb]]]; [discriminate|].
    exists td. split; [reflexivity | lia]. }
  induction 1 as [|hours rest [h [-> Hh]] _ IH];
    intros bestDate bestDiff d Hbest Hrun.
  - simpl in Hrun. destruct (bestDiff <? '0.1); [|discriminate].
    now apply (R bestDate).
  - cbn [scanLoop] in Hrun. rewrite newDate_hours in Hrun.
    destruct (moonPhase zone (TimeClip (Num.of_Z (t0 + h * ES.msPerHour))))
      as [phase|e] eqn:Hphase; [|discriminate].
    cbn [bind] in Hrun.
    destruct (moonPhase_Ok_valid _ _ _ Hphase) as [t Ht].
    destruct (TimeClip_of_Z_valid _ _ Ht) as [-> _].
    rewrite Ht in Hrun. unfold copyDate in Hrun.
    assert (Hcur : TimeValue (t0 + h * ES.msPerHour) = Invalid
                   \/ exists tb : Z,
                       TimeValue (t0 + h * ES.msPerHour) = TimeValue tb
                       /\ (t0 <= tb <= t0 + 732 * ES.msPerHour)%Z).
    { right. eexists. split; [reflexivity | unfold ES.msPerHour; lia]. }
    destruct (phaseDiff phase targetPhase <? bestDiff).
    + destruct (phaseDiff phase targetPhase <? '0.02).
      * now apply (R _ _ Hcur).
      * exact (IH _ _ _ Hcur Hrun).
    + destruct (bestDiff <? '0.02).
      * now apply (R _ _ Hbest).
      * exact (IH _ _ _ Hbest Hrun).
Qed.

Lemma scanLoop_Invalid (targetPhase : number) (phaseName : string)
  (hours : number) (rest : list number) (bestDate : Date)
  (bestDiff : number) :
  scanLoop zone Invalid targetPhase phaseName (hours :: rest) bestDate bestDiff
  = Throw (InvalidDate "date").
Proof.
  simpl. destruct (hours * '60 * '60 * '1000); reflexivity.
Qed.

Lemma findNextPhase_window_from (u : Z) (targetPhase : number)
  (phaseName : string) (d : Date) :
  findNextPhase zone (TimeValue u) targetPhase phaseName = Ok d ->
  exists td : Z,
    d = TimeValue td
    /\ (UTC zone (LocalTime zone u + ES.msPerHour) - 720 * ES.msPerMinute
        <= td
        <= UTC zone (LocalTime zone u + ES.msPerHour) + 732 * ES.msPerHour
           + 720 * ES.msPerMinute)%Z.
Proof.
  unfold findNextPhase, copyDate.
  change (getHours zone (TimeValue u) + '1)
    with (getHours zone (TimeValue u) + Num.of_Z 1).
  cbv zeta. rewrite !setHours_local, !Z.mul_1_l.
  destruct (TimeClip
              (Num.of_Z (UTC zone (LocalTime zone u + ES.msPerHour))))
    as [|t0] eqn:Hdate.
  - rewrite scanHours_values. simpl List.map.
    rewrite scanLoop_Invalid. discriminate.
  - destruct (TimeClip_of_Z_valid _ _ Hdate) as [-> _].
    intro Hrun. apply (scanLoop_window _ _ _ _ scanHours_range) in Hrun.
    + exact Hrun.
    + right. eexists. split; [reflexivity | unfold ES.msPerHour; lia].
Qed.

End SearchWindow.

Lemma findNextPhase_window (tz u : Z) (targetPhase : number)
  (phaseName : string) (d : Date) :
  findNextPhase tz (TimeValue u) targetPhase phaseName = Ok d ->
  exists td : Z,
    d = TimeValue td
    /\ (u + ES.msPerHour - 720 * ES.msPerMinute
        <= td
        <= u + ES.msPerHour + 732 * ES.msPerHour + 720 * ES.msPerMinute)%Z.
Proof.
  intro Hrun. apply findNextPhase_window_from in Hrun.
  destruct Hrun as [td [-> Htd]]. exists td. split; [reflexivity|].
  unfold LocalTime, UTC in Htd. cbn [offsetAt offsetOf fixedOffset] in Htd.
  lia.
Qed.

Lemma scanWindow_value :
  (inject_Z scanWindow == (29.53 + 1) * 24 * inject_Z ES.msPerHour)%Q.
Proof. vm_compute. reflexivity. Qed.

(** C10, amended. An instant returned by [nextNewMoon] or [nextFullMoon]
    is at least [start - 720 minutes] and at most
    [start + (29.53 + 1) * 24 hours + 720 minutes], where [start] is the
    instant that [setHours(getHours() + 1)] makes of [fromDate]: the
    instant at which the host reads the local time of [fromDate] plus one
    hour.  Where the offset of the zone is the same at both ends of that
    hour, and so on every host whose offset never changes, [start] is
    [fromDate + 1 hour] and the result is no earlier than 11 hours before
    [fromDate]; that bound is reached. *)
Theorem nextPhase_window :
  (forall (zone : Zone) (fromDate d : Date),
      nextNewMoon zone fromDate = Ok d \/ nextFullMoon zone fromDate = Ok d ->
      exists u start td : Z,
        fromDate = TimeValue u /\ d = TimeValue td
        /\ start = UTC zone (LocalTime zone u + ES.msPerHour)
        /\ (start - 720 * ES.msPerMinute <= td)%Z
        /\ (td <= start + scanWindow + 720 * ES.msPerMinute)%Z
        /\ (offsetOf zone (LocalTime zone u + ES.msPerHour) = offsetAt zone u ->
            start = u + ES.msPerHour /\ u - 11 * ES.msPerHour <= td)%Z)
  /\ (forall (tz : Z) (fromDate d : Date),
        nextNewMoon tz fromDate = Ok d \/ nextFullMoon tz fromDate = Ok d ->
        exists u td : Z,
          fromDate = TimeValue u /\ d = TimeValue td
          /\ (u + ES.msPerHour - 720 * ES.msPerMinute <= td)%Z
          /\ (td <= u + ES.msPerHour + scanWindow + 720 * ES.msPerMinute)%Z
          /\ (u - 11 * ES.msPerHour <= td)%Z)
  /\ nextNewMoon 0 (TimeValue (epochTime + 13 * ES.msPerHour))
     = Ok (TimeValue (epochTime + 13 * ES.msPerHour - 11 * ES.msPerHour)).
Proof.
  assert (W : forall (zone : Zone) (fromDate d : Date),
             nextNewMoon zone fromDate = Ok d
             \/ nextFullMoon zone fromDate = Ok d ->
             exists (targetPhase : number) (phaseName : string) (u : Z),
               fromDate = TimeValue u
               /\ findNextPhase zone (TimeValue u) targetPhase phaseName
                  = Ok d).
  { intros zone fromDate d H. destruct fromDate as [|u].
    - destruct H as [H|H]; discriminate H.
    - destruct H as [H|H].
      + exists '0, "new moon", u. split; [reflexivity | exact H].
      + exists '0.5, "full moon", u. split; [reflexivity | exact H]. }
  split; [|split; [|vm_compute; reflexivity]].
  - intros zone fromDate d H.
    destruct (W _ _ _ H) as (targetPhase & phaseName & u & -> & Hrun).
    apply findNextPhase_window_from in Hrun. destruct Hrun as [td [-> Htd]].
    exists u, (UTC zone (LocalTime zone u + ES.msPerHour)), td.
    split; [reflexivity|]. split; [reflexivity|]. split; [reflexivity|].
    unfold scanWindow, ES.msPerHour, ES.msPerMinute in *.
    split; [lia|]. split; [lia|].
    intro E. unfold UTC, LocalTime in *. rewrite E in *. lia.
  - intros tz fromDate d H.
    destruct (W _ _ _ H) as (targetPhase & phaseName & u & -> & Hrun).
    apply findNextPhase_window in Hrun. destruct Hrun as [td [-> Htd]].
    exists u, td. unfold scanWindow, ES.msPerHour, ES.msPerMinute in *.
    repeat split; lia.
Qed.

Lemma nextPhase_window_witness :
  exists u td : Z,
    TimeValue 1700000000000 = TimeValue u
    /\ TimeValue 1702336400000 = TimeValue td
    /\ (u + ES.msPerHour - 720 * ES.msPerMinute <= td)%Z
    /\ (td <= u + ES.msPerHour + scanWindow + 720 * ES.msPerMinute)%Z
    /\ (u - 11 * ES.msPerHour <= td)%Z.
Proof.
  apply (proj1 (proj2 nextPhase_window) 0 (TimeValue 1700000000000)).
  left. vm_compute. reflexivity.
Defined.

(** C10, as stated, fails on a host whose clocks change.  On Lord Howe
    Island, from 01:30 of 27 October 1996, the hour that
    [setHours(getHours() + 1)] adds to the local time crosses the change
    of the clocks and is 30 minutes long; the scan stops at its first
    sample and the refinement goes back 720 minutes, to an instant 11
    hours and 30 minutes before [fromDate]. *)
Lemma nextFullMoon_at_clock_change :
  nextFullMoon lordHowe1996 (TimeValue 846342000000)
  = Ok (TimeValue 846300600000)
  /\ (846300600000 < 846342000000 + ES.msPerHour - 720 * ES.msPerMinute)%Z
  /\ (846300600000 = 846342000000 - 11 * ES.msPerHour - 30 * ES.msPerMinute)%Z
  /\ setHours lordHowe1996 (TimeValue 846342000000)
       (getHours lordHowe1996 (TimeValue 846342000000) + '1)
     = TimeValue (846342000000 + 30 * ES.msPerMinute).
Proof. repeat split; vm_compute; reflexivity. Qed.

(** C3 at a date one hour after a new moon, on a host whose local time is
    UTC: the instant returned for 2000-01-06 01:00 is 2000-01-06 00:00,
    which is not after the date given; likewise [nextFullMoon] at
    2000-01-20 19:00 returns 18:30 of that day. *)
Theorem nextNewMoon_not_after :
  nextNewMoon 0 (TimeValue 947120400000) = Ok (TimeValue 947116800000)
  /\ (947116800000 < 947120400000)%Z
  /\ nextFullMoon 0 (TimeValue 948394800000) = Ok (TimeValue 948393000000)
  /\ (948393000000 < 948394800000)%Z.
Proof. repeat split; vm_compute; reflexivity. Qed.

(** ** When the searches fail *)

Section SearchOutcome.

Variable tz : Z.

Lemma moonPhase_at (t : Z) :
  supportedInstant tz t ->
  exists v : Q,
    moonPhase tz (TimeValue t) = Ok 'v /\ phaseAt tz t = 'v
    /\ (0 <= v < 1)%Q.
Proof.
  intros [Hy Hr]. apply floorTime_year in Hy.
  destruct (moonPhase_supported tz t Hy) as (jd & v & _ & Hv & _ & Hv01 & _).
  exists v. unfold phaseAt, newDate.
  rewrite (TimeClip_of_Z_in_range _ Hr), Hv. auto.
Qed.

Lemma phaseDiff_finite (v tg : Q) : exists dq : Q, phaseDiff 'v 'tg = 'dq.
Proof.
  unfold phaseDiff. cbn [Num.sub Num.add Num.neg Num.abs]. cbv zeta.
  destruct ('(Qabs (v + - tg)) >? '0.5); eexists; reflexivity.
Qed.

Lemma julianDay_throws (year month day hour minute second : number)
  (e : error) :
  julianDay year month day hour minute second = Throw e ->
  e = InvalidDateParameters.
Proof.
  unfold julianDay.
  destruct ((year <? '(-4712)) || (month <? '1) || (month >? '12)
            || (day <? '1) || (day >? '31)).
  - now intros [= <-].
  - destruct (month <=? '2); discriminate.
Qed.

Lemma moonPhase_throws (date : Date) (e : error) :
  moonPhase tz date = Throw e -> kind e = InvalidInput.
Proof.
  destruct date as [|t].
  - now intros [= <-].
  - rewrite moonPhase_TimeValue. unfold localJulianDay.
    destruct (julianDay _ _ _ _ _ _) as [jd|e'] eqn:Hjd.
    + discriminate.
    + apply julianDay_throws in Hjd. subst e'. now intros [= <-].
Qed.

Lemma moonPhase_returns_finite (date : Date) (v : number) :
  moonPhase tz date = Ok v -> exists q : Q, v = 'q.
Proof.
  destruct date as [|t]; [discriminate|].
  rewrite moonPhase_TimeValue. unfold localJulianDay.
  unfold getFullYear, getMonth, getDate, getHours, getMinutes, getSeconds,
    getter.
  rewrite of_Z_succ. unfold Num.of_Z.
  set (lt := LocalTime tz t).
  destruct (julianDaySpec_finite (inject_Z (ES.YearFromTime lt))
              (inject_Z (ES.MonthFromTime lt) + inject_Z 1)
              (inject_Z (ES.DateFromTime lt)) (inject_Z (ES.HourFromTime lt))
              (inject_Z (ES.MinFromTime lt)) (inject_Z (ES.SecFromTime lt)))
    as [jd Hjd].
  destruct (passesValidation '(inject_Z (ES.YearFromTime lt))
              '(inject_Z (ES.MonthFromTime lt) + inject_Z 1)
              '(inject_Z (ES.DateFromTime lt))) eqn:V.
  - rewrite (julianDay_valid _ _ _ _ _ _ V), Hjd. cbn [bind].
    destruct (phase_wrap jd) as (w & Hw & _). cbv zeta in Hw. rewrite Hw.
    intros [= <-]. now exists w.
  - destruct (julianDay _ _ _ _ _ _) as [x|e] eqn:Hx; [|discriminate].
    exfalso. unfold julianDay in Hx.
    destruct (('(inject_Z (ES.YearFromTime lt)) <? '(-4712))
              || ('(inject_Z (ES.MonthFromTime lt) + inject_Z 1) <? '1)
              || ('(inject_Z (ES.MonthFromTime lt) + inject_Z 1) >? '12)
              || ('(inject_Z (ES.DateFromTime lt)) <? '1)
              || ('(inject_Z (ES.DateFromTime lt)) >? '31)) eqn:G;
      [discriminate|].
    rewrite !orb_false_iff in G. destruct G as [[[[G1 G2] G3] G4] G5].
    unfold Num.gtb in *.
    apply ltb_Fin_false in G1, G2, G3, G4, G5.
    unfold passesValidation in V.
    rewrite (proj2 (leb_Fin _ _) G1), (proj2 (leb_Fin _ _) G2),
      (proj2 (leb_Fin _ _) G3), (proj2 (leb_Fin _ _) G4),
      (proj2 (leb_Fin _ _) G5) in V.
    discriminate V.
Qed.

Lemma InvalidInput_not_PhaseNotFound {A : Type} (e : error) :
  kind e = InvalidInput -> ~ failsWith (@Throw A e) PhaseNotFound.
Proof.
  intros He [e' [[= <-] He']]. congruence.
Qed.

Lemma Ok_not_fails {A : Type} (a : A) (k : errorKind) :
  ~ failsWith (Ok a) k.
Proof. intros [e [He _]]. discriminate He. Qed.

Lemma refineLoop_never_PhaseNotFound (approximateDate : Date)
  (targetPhase : number) (minutesLeft : list number) :
  forall (bestDate : Date) (bestDiff : number),
    ~ failsWith
        (refineLoop tz approximateDate targetPhase minutesLeft bestDate
           bestDiff) PhaseNotFound.
Proof.
  induction minutesLeft as [|minutes rest IH]; intros bestDate bestDiff.
  - apply Ok_not_fails.
  - cbn [refineLoop].
    destruct (moonPhase tz
                (newDate (getTime approximateDate + minutes * '60 * '1000)))
      as [phase|e] eqn:Hphase; cbn [bind].
    + destruct (phaseDiff phase targetPhase <? bestDiff); apply IH.
    + apply InvalidInput_not_PhaseNotFound. now apply moonPhase_throws in Hphase.
Qed.

Lemma refinePhaseDate_never_PhaseNotFound (approximateDate : Date)
  (targetPhase : number) :
  ~ failsWith (refinePhaseDate tz approximateDate targetPhase) PhaseNotFound.
Proof.
  unfold refinePhaseDate.
  destruct (moonPhase tz (copyDate approximateDate)) as [phase|e] eqn:Hphase;
    cbn [bind].
  - apply refineLoop_never_PhaseNotFound.
  - apply InvalidInput_not_PhaseNotFound. now apply moonPhase_throws in Hphase.
Qed.

Lemma refineLoop_total (a : Z) (tg : Q) (minutesLeft : list Z) :
  (forall m : Z,
      In m minutesLeft -> supportedInstant tz (a + m * ES.msPerMinute)) ->
  forall (bestDate : Date) (bestDiff : number),
  exists d : Date,
    refineLoop tz (TimeValue a) 'tg (List.map Num.of_Z minutesLeft)
      bestDate bestDiff = Ok d.
Proof.
  induction minutesLeft as [|m rest IH]; intros Hs bestDate bestDiff.
  - eexists. reflexivity.
  - cbn [List.map refineLoop]. rewrite newDate_minutes.
    destruct (Hs m (or_introl eq_refl)) as [Hy Hr].
    rewrite (TimeClip_of_Z_in_range _ Hr).
    destruct (moonPhase_at _ (conj Hy Hr)) as (v & -> & _).
    cbn [bind].
    assert (Hrest : forall m' : Z,
               In m' rest -> supportedInstant tz (a + m' * ES.msPerMinute))
      by (intros m' Hin; apply Hs; now right).
    destruct (phaseDiff 'v 'tg <? bestDiff); now apply IH.
Qed.

Lemma refineMinutes_integers :
  refineMinutes
  = List.map Num.of_Z
      (List.map (fun k => 30 * Z.of_nat k - 720)%Z (seq 0 49)).
Proof. rewrite map_map. apply refineMinutes_values. Qed.

Lemma refinePhaseDate_total (a : Z) (tg : Q) :
  (forall t : Z,
      (a - 720 * ES.msPerMinute <= t <= a + 720 * ES.msPerMinute)%Z ->
      supportedInstant tz t) ->
  exists d : Date, refinePhaseDate tz (TimeValue a) 'tg = Ok d.
Proof.
  intro Hs. unfold refinePhaseDate, copyDate.
  destruct (moonPhase_at a) as (v & -> & _).
  { apply Hs. unfold ES.msPerMinute. lia. }
  cbn [bind]. rewrite refineMinutes_integers. apply refineLoop_total.
  intros m Hm. apply in_map_iff in Hm. destruct Hm as [k [<- Hk]].
  apply in_seq in Hk. apply Hs. unfold ES.msPerMinute. lia.
Qed.

(** The scan fails with PhaseNotFound exactly when it ends with its best
    distance at least 0.1, whatever the dates it meets. *)
Lemma scanLoop_fails (t0 : Z) (tg : Q) (name : string)
  (hoursLeft : list Z) :
  forall (bestDate : Date) (b : Q),
    (0.02 <= b)%Q ->
    let ds :=
      List.map (fun h => distanceAt tz 'tg (t0 + h * ES.msPerHour)%Z)
        hoursLeft in
    failsWith
      (scanLoop tz (TimeValue t0) 'tg name (List.map Num.of_Z hoursLeft)
         bestDate 'b) PhaseNotFound
    <-> ('0.1 <=? leastFrom 'b ds) = true
        /\ Forall (fun d => ('0.02 <=? d) = true) ds.
Proof.
  induction hoursLeft as [|h rest IH]; intros bestDate b Hb; cbv zeta.
  - cbn [List.map scanLoop leastFrom fold_left].
    destruct (Qlt_le_dec b 0.1) as [L|G].
    + rewrite (proj2 (ltb_Fin _ _) L). split.
      * intro F. now apply refinePhaseDate_never_PhaseNotFound in F.
      * intros [H _]. apply leb_Fin in H. lraQ.
    + rewrite (proj2 (ltb_Fin_false _ _) G). split.
      * intros _. split; [now apply leb_Fin | constructor].
      * intros _. exists (PhaseSearchFailed name). split; reflexivity.
  - cbn [List.map scanLoop]. rewrite newDate_hours.
    destruct (moonPhase tz (TimeClip (Num.of_Z (t0 + h * ES.msPerHour))))
      as [v|e] eqn:Hv; cbn [bind].
    + assert (Hd : distanceAt tz 'tg (t0 + h * ES.msPerHour)
                   = phaseDiff v 'tg)
        by (unfold distanceAt, phaseAt, newDate; now rewrite Hv).
      rewrite Hd.
      destruct (moonPhase_returns_finite _ _ Hv) as [vq ->].
      destruct (phaseDiff_finite vq tg) as [dq ->].
      unfold leastFrom. cbn [fold_left]. fold (leastFrom).
      destruct (Qlt_le_dec dq b) as [L|G].
      * rewrite (proj2 (ltb_Fin _ _) L).
        destruct (Qlt_le_dec dq 0.02) as [L2|G2].
        -- rewrite (proj2 (ltb_Fin _ _) L2). split.
           ++ intro F. now apply refinePhaseDate_never_PhaseNotFound in F.
           ++ intros [_ H]. inversion H as [|? ? H1 _].
              apply leb_Fin in H1. lraQ.
        -- rewrite (proj2 (ltb_Fin_false _ _) G2).
           rewrite (IH _ dq G2). split.
           ++ intros [H1 H2]. split; [exact H1|].
              constructor; [now apply leb_Fin | exact H2].
           ++ intros [H1 H2]. split; [exact H1 | now inversion H2].
      * rewrite (proj2 (ltb_Fin_false _ _) G).
        rewrite (proj2 (ltb_Fin_false b 0.02) Hb).
        rewrite (IH _ b Hb). split.
        -- intros [H1 H2]. split; [exact H1|].
           constructor; [apply leb_Fin; lraQ | exact H2].
        -- intros [H1 H2]. split; [exact H1 | now inversion H2].
    + assert (Hd : distanceAt tz 'tg (t0 + h * ES.msPerHour) = NaN)
        by (unfold distanceAt, phaseAt, newDate; now rewrite Hv).
      rewrite Hd. split.
      * intro F. apply moonPhase_throws in Hv.
        now apply (InvalidInput_not_PhaseNotFound _ Hv) in F.
      * intros [_ H]. inversion H as [|? ? H1 _]. discriminate H1.
Qed.

(** On supported instants the scan either fails with PhaseNotFound or
    returns. *)
Lemma scanLoop_returns (t0 : Z) (tg : Q) (name : string)
  (hoursLeft : list Z) :
  (forall t : Z,
      (t0 - 720 * ES.msPerMinute <= t
       <= t0 + 732 * ES.msPerHour + 720 * ES.msPerMinute)%Z ->
      supportedInstant tz t) ->
  Forall (fun h => 0 <= h <= 732)%Z hoursLeft ->
  forall (bestDiff : number) (tb : Z),
    (t0 <= tb <= t0 + 732 * ES.msPerHour)%Z ->
    let run :=
      scanLoop tz (TimeValue t0) 'tg name (List.map Num.of_Z hoursLeft)
        (TimeValue tb) bestDiff in
    run = Throw (PhaseSearchFailed name) \/ exists d : Date, run = Ok d.
Proof.
  intros Hs Hh.
  assert (R : forall tb : Z,
             (t0 <= tb <= t0 + 732 * ES.msPerHour)%Z ->
             exists d : Date, refinePhaseDate tz (TimeValue tb) 'tg = Ok d).
  { intros tb Htb. apply refinePhaseDate_total. intros t Ht. apply Hs.
    unfold ES.msPerMinute, ES.msPerHour in *. lia. }
  induction Hh as [|h rest Hh _ IH]; intros bestDiff tb Htb; cbv zeta.
  - cbn [List.map scanLoop].
    destruct (bestDiff <? '0.1); [right; now apply R | now left].
  - cbn [List.map scanLoop]. rewrite newDate_hours.
    assert (Hcur : (t0 <= t0 + h * ES.msPerHour <= t0 + 732 * ES.msPerHour)%Z)
      by (unfold ES.msPerHour; lia).
    assert (Hsup : supportedInstant tz (t0 + h * ES.msPerHour))
      by (apply Hs; unfold ES.msPerMinute, ES.msPerHour in *; lia).
    rewrite (TimeClip_of_Z_in_range _ (proj2 Hsup)).
    destruct (moonPhase_at _ Hsup) as (v & -> & _).
    cbn [bind]. unfold copyDate.
    destruct (phaseDiff 'v 'tg <? bestDiff).
    + destruct (phaseDiff 'v 'tg <? '0.02);
        [right; now apply R | now apply IH].
    + destruct (bestDiff <? '0.02); [right; now apply R | now apply IH].
Qed.

(** The 367 instants of [coarseTimes] are those of a 2-hour step below
    [(29.53 + 1) * 24] hours. *)
Lemma coarseTimes_count (k : nat) :
  (k < 367)%nat <-> (inject_Z (2 * Z.of_nat k) < (29.53 + 1) * 24)%Q.
Proof.
  split; intro H.
  - apply Qle_lt_trans with (inject_Z 732).
    + rewrite <- Zle_Qle. lia.
    + unfold Qlt. simpl. lia.
  - destruct (Nat.lt_ge_cases k 367) as [L|G]; [exact L|]. exfalso.
    assert (B : (inject_Z 734 <= inject_Z (2 * Z.of_nat k))%Q)
      by (rewrite <- Zle_Qle; lia).
    assert (C : ((29.53 + 1) * 24 < inject_Z 734)%Q)
      by (unfold Qlt; simpl; lia).
    lraQ.
Qed.

Lemma scanHours_integers :
  scanHours
  = List.map Num.of_Z (List.map (fun k => 2 * Z.of_nat k)%Z (seq 0 367)).
Proof. rewrite map_map. apply scanHours_values. Qed.

Lemma coarseDistances (u : Z) (targetPhase : number) :
  List.map (distanceAt tz targetPhase) (coarseTimes u)
  = List.map
      (fun h => distanceAt tz targetPhase
                  (u + ES.msPerHour + h * ES.msPerHour)%Z)
      (List.map (fun k => 2 * Z.of_nat k)%Z (seq 0 367)).
Proof. unfold coarseTimes. rewrite !map_map. reflexivity. Qed.

Lemma findNextPhase_start (u : Z) (targetPhase : number) (name : string) :
  findNextPhase tz (TimeValue u) targetPhase name
  = scanLoop tz (TimeClip (Num.of_Z (u + ES.msPerHour))) targetPhase name
      scanHours (TimeClip (Num.of_Z (u + ES.msPerHour))) '1.
Proof.
  unfold findNextPhase, copyDate.
  change (getHours tz (TimeValue u) + '1)
    with (getHours tz (TimeValue u) + Num.of_Z 1).
  cbv zeta. now rewrite !setHours_shift, !Z.mul_1_l.
Qed.

Lemma findNextPhase_fails (u : Z) (tg : Q) (name : string) :
  failsWith (findNextPhase tz (TimeValue u) 'tg name) PhaseNotFound
  <-> scanFails tz 'tg u.
Proof.
  rewrite findNextPhase_start. unfold scanFails. cbv zeta.
  rewrite coarseDistances.
  destruct (TimeClip (Num.of_Z (u + ES.msPerHour))) as [|t0] eqn:Hclip.
  - rewrite scanHours_integers.
    change (seq 0 367) with (0%nat :: seq 1 366). cbn [List.map].
    rewrite scanLoop_Invalid.
    assert (D0 : distanceAt tz 'tg
                   (u + ES.msPerHour + 2 * Z.of_nat 0 * ES.msPerHour)
                 = NaN).
    { unfold distanceAt, phaseAt, newDate.
      replace (u + ES.msPerHour + 2 * Z.of_nat 0 * ES.msPerHour)%Z
        with (u + ES.msPerHour)%Z by lia.
      now rewrite Hclip. }
    rewrite D0. split.
    + intro F. now apply InvalidInput_not_PhaseNotFound in F.
    + intros [_ H]. inversion H as [|? ? H1 _]. discriminate H1.
  - destruct (TimeClip_of_Z_valid _ _ Hclip) as [-> _].
    rewrite scanHours_integers. apply scanLoop_fails. lraQ.
Qed.

Lemma findNextPhase_returns (u : Z) (tg : Q) (name : string) :
  searchable tz u ->
  ~ scanFails tz 'tg u ->
  exists d : Date, findNextPhase tz (TimeValue u) 'tg name = Ok d.
Proof.
  intros Hs Hn. pose proof (findNextPhase_fails u tg name) as F.
  rewrite findNextPhase_start in *.
  assert (H0 : supportedInstant tz (u + ES.msPerHour))
    by (apply Hs; unfold ES.msPerHour, ES.msPerMinute; lia).
  rewrite (TimeClip_of_Z_in_range _ (proj2 H0)) in *.
  rewrite scanHours_integers in *.
  destruct (scanLoop_returns (u + ES.msPerHour) tg name
              (List.map (fun k => 2 * Z.of_nat k)%Z (seq 0 367)))
    with (bestDiff := '1) (tb := (u + ES.msPerHour)%Z) as [Ht|Hok].
  - intros t Ht. apply Hs. exact Ht.
  - apply Forall_forall. intros h Hin. apply in_map_iff in Hin.
    destruct Hin as [k [<- Hk]]. apply in_seq in Hk. lia.
  - unfold ES.msPerHour. lia.
  - exfalso. apply Hn, F. rewrite Ht.
    exists (PhaseSearchFailed name). split; reflexivity.
  - exact Hok.
Qed.

End SearchOutcome.

(** C4, as the code has it.  [nextNewMoon] and [nextFullMoon] fail with
    PhaseNotFound exactly when the date is valid and the coarse scan ends
    with its best distance at least 0.1, no distance having fallen below
    0.02.  In every other case they return an instant, provided every
    instant that the search may sample is a representable date of local
    year -4712 or later. *)
Theorem nextPhase_failure (tz : Z) :
  (forall fromDate : Date,
      (failsWith (nextNewMoon tz fromDate) PhaseNotFound
       <-> exists u : Z, fromDate = TimeValue u /\ scanFails tz '0 u)
      /\ (failsWith (nextFullMoon tz fromDate) PhaseNotFound
          <-> exists u : Z, fromDate = TimeValue u /\ scanFails tz '0.5 u))
  /\ (forall u : Z,
        searchable tz u ->
        (~ scanFails tz '0 u ->
         exists d : Date, nextNewMoon tz (TimeValue u) = Ok d)
        /\ (~ scanFails tz '0.5 u ->
            exists d : Date, nextFullMoon tz (TimeValue u) = Ok d)).
Proof.
  split.
  - intros [|u]; split; split.
    + intro F. now apply InvalidInput_not_PhaseNotFound in F.
    + intros [u [Hu _]]. discriminate Hu.
    + intro F. now apply InvalidInput_not_PhaseNotFound in F.
    + intros [u [Hu _]]. discriminate Hu.
    + intro F. exists u. split; [reflexivity|].
      now apply (findNextPhase_fails tz u 0 "new moon").
    + intros [u' [[= <-] F]].
      now apply (findNextPhase_fails tz u 0 "new moon").
    + intro F. exists u. split; [reflexivity|].
      now apply (findNextPhase_fails tz u 0.5 "full moon").
    + intros [u' [[= <-] F]].
      now apply (findNextPhase_fails tz u 0.5 "full moon").
  - intros u Hs. split; intro Hn.
    + now apply (findNextPhase_returns tz u 0 "new moon").
    + now apply (findNextPhase_returns tz u 0.5 "full moon").
Qed.

Lemma nextPhase_failure_witness :
  (exists d : Date, nextNewMoon 0 (TimeValue 1700000000000) = Ok d)
  /\ (exists d : Date, nextFullMoon 0 (TimeValue 1700000000000) = Ok d).
Proof.
  destruct (proj2 (nextPhase_failure 0) 1700000000000) as [N F].
  - intros t Ht. unfold supportedInstant, LocalTime.
    cbn [offsetAt offsetOf fixedOffset].
    change floorTime with (-210863520000000)%Z.
    unfold ES.maxTime, ES.msPerHour, ES.msPerMinute in *. lia.
  - split; [apply N | apply F]; intros [H _]; vm_compute in H;
      discriminate H.
Defined.

(** C4, as stated, fails: from the last representable date the search
    neither returns an instant nor fails with PhaseNotFound. *)
Lemma nextNewMoon_at_last_date :
  validateDate (TimeValue ES.maxTime) "fromDate" = Ok tt
  /\ nextNewMoon 0 (TimeValue ES.maxTime) = Throw (InvalidDate "date")
  /\ kind (InvalidDate "date") = InvalidInput
  /\ ~ failsWith (nextNewMoon 0 (TimeValue ES.maxTime)) PhaseNotFound.
Proof.
  assert (E : nextNewMoon 0 (TimeValue ES.maxTime) = Throw (InvalidDate "date"))
    by (vm_compute; reflexivity).
  repeat split; try assumption.
  rewrite E. intros [e [[= <-] He]]. discriminate He.
Qed.

(** ** findPhaseEvents *)

Section Events.

Variable tz : Z.

Lemma eventsStep_Ok (st en s : Z) (events events' : list PhaseEvent)
  (searchDate' : Date) :
  eventsStep tz (TimeValue st) (TimeValue en) (TimeValue s) events
  = Ok (events', searchDate') ->
  searchDate' = TimeClip (Num.of_Z (s + ES.msPerDay))
  /\ (events' = events
      \/ exists (ty : string) (ph : number),
          events' = (events ++ [mkEvent (TimeValue s) ty ph])%list
          /\ (st <= s <= en)%Z).
Proof.
  unfold eventsStep, copyDate.
  change (getDate tz (TimeValue s) - '1)
    with (getDate tz (TimeValue s) + Num.of_Z (-1)).
  change (getDate tz (TimeValue s) + '1)
    with (getDate tz (TimeValue s) + Num.of_Z 1).
  rewrite !setDate_shift.
  destruct (moonPhase tz (TimeValue s)) as [ph|]; [|discriminate].
  cbn [bind].
  destruct (moonPhase tz (TimeClip (Num.of_Z (s + -1 * ES.msPerDay))))
    as [prev|]; [|discriminate].
  cbn [bind].
  destruct (moonPhase tz (TimeClip (Num.of_Z (s + 1 * ES.msPerDay))))
    as [next|]; [|discriminate].
  cbn [bind]. cbv zeta. rewrite Z.mul_1_l.
  destruct (truthy (classify ph prev next)
            && (getTime (TimeValue s) >=? getTime (TimeValue st))
            && (getTime (TimeValue s) <=? getTime (TimeValue en))) eqn:C;
    intros [= <- <-]; (split; [reflexivity|]).
  - right. do 2 eexists. split; [reflexivity|].
    rewrite !andb_true_iff in C. destruct C as [[_ C1] C2].
    unfold Num.geb in C1. cbn [getTime] in C1, C2.
    apply leb_of_Z in C1, C2. lia.
  - now left.
Qed.

Lemma StronglySorted_snoc {A : Type} (R : A -> A -> Prop) (l : list A)
  (y : A) :
  StronglySorted R l -> Forall (fun x => R x y) l ->
  StronglySorted R (l ++ [y]).
Proof.
  induction 1 as [|x l Hl IH Hx]; intro Hy; cbn.
  - repeat constructor.
  - inversion Hy as [|? ? Hxy Hly]; subst. constructor.
    + now apply IH.
    + apply Forall_app. split; [assumption | now repeat constructor].
Qed.

Lemma eventsLoop_invariant (st en : Z) (endTime : number) (fuel : nat) :
  forall (searchDate : Date) (events evs : list PhaseEvent) (lim : Z),
    chronological events ->
    Forall (fun e => exists te : Z,
                date e = TimeValue te /\ (st <= te <= en)%Z /\ (te < lim)%Z)
      events ->
    (searchDate = Invalid
     \/ exists s : Z, searchDate = TimeValue s /\ (lim <= s)%Z) ->
    eventsLoop tz fuel (TimeValue st) (TimeValue en) endTime searchDate events
    = Some (Ok evs) ->
    chronological evs
    /\ Forall (fun e => exists te : Z,
                   date e = TimeValue te /\ (st <= te <= en)%Z) evs.
Proof.
  induction fuel as [|fuel IH];
    intros searchDate events evs lim Hsorted Hall Hdate Hrun;
    [discriminate|].
  cbn [eventsLoop] in Hrun.
  destruct (getTime searchDate <=? endTime).
  - destruct Hdate as [->|[s [-> Hlim]]].
    + discriminate Hrun.
    + destruct (eventsStep tz (TimeValue st) (TimeValue en) (TimeValue s)
                  events) as [[events' searchDate']|e] eqn:Hstep;
        [|discriminate].
      apply eventsStep_Ok in Hstep. destruct Hstep as [-> Hev].
      apply (IH _ _ _ (s + ES.msPerDay)%Z) in Hrun; [exact Hrun| | |].
      * destruct Hev as [->|(ty & ph & -> & _)]; [assumption|].
        apply StronglySorted_snoc; [assumption|].
        eapply Forall_impl; [|exact Hall].
        intros e (te & Hte & _ & Hlt). unfold before, eventTime.
        rewrite Hte. cbn [date getTime]. apply ltb_of_Z. lia.
      * assert (Hold : Forall
                         (fun e => exists te : Z,
                              date e = TimeValue te /\ (st <= te <= en)%Z
                              /\ (te < s + ES.msPerDay)%Z) events).
        { eapply Forall_impl; [|exact Hall].
          intros e (te & Hte & Hr & Hlt). exists te.
          unfold ES.msPerDay. repeat split; try assumption; lia. }
        destruct Hev as [->|(ty & ph & -> & Hr)]; [assumption|].
        apply Forall_app. split; [assumption|].
        constructor; [|constructor].
        exists s. cbn [date]. unfold ES.msPerDay. repeat split; lia.
      * destruct (TimeClip (Num.of_Z (s + ES.msPerDay))) as [|s'] eqn:Hclip;
          [now left|].
        right. exists s'. split; [reflexivity|].
        apply TimeClip_of_Z_valid in Hclip. lia.
  - injection Hrun as <-. split; [assumption|].
    eapply Forall_impl; [|exact Hall].
    intros e (te & Hte & Hr & _). now exists te.
Qed.

Lemma loop_condition (s E : Z) (q : Q) :
  (q == inject_Z E)%Q ->
  (getTime (TimeValue s) <=? 'q) = true <-> (s <= E)%Z.
Proof.
  intro Hq. cbn [getTime]. unfold Num.of_Z. rewrite leb_Fin, Hq, <- Zle_Qle.
  reflexivity.
Qed.

Lemma eventsLoop_terminates (st en : Z) (q : Q) (E : Z) :
  (q == inject_Z E)%Q ->
  forall (k : nat) (searchDate : Date) (events : list PhaseEvent),
    (searchDate = Invalid
     \/ exists s : Z,
         searchDate = TimeValue s
         /\ (E - s < Z.of_nat k * ES.msPerDay)%Z) ->
    exists r : result (list PhaseEvent),
    forall n : nat,
      (k < n)%nat ->
      eventsLoop tz n (TimeValue st) (TimeValue en) 'q searchDate events
      = Some r.
Proof.
  intro Hq.
  assert (Hinv : forall events : list PhaseEvent,
             exists r : result (list PhaseEvent),
             forall n : nat,
               (0 < n)%nat ->
               eventsLoop tz n (TimeValue st) (TimeValue en) 'q Invalid events
               = Some r).
  { intro events. exists (Ok events). intros [|n] Hn; [lia | reflexivity]. }
  induction k as [|k IH]; intros searchDate events Hdate.
  - destruct Hdate as [->|[s [-> Hs]]]; [apply Hinv|].
    exists (Ok events). intros [|n] Hn; [lia|]. cbn [eventsLoop].
    destruct (getTime (TimeValue s) <=? 'q) eqn:C; [|reflexivity].
    apply (loop_condition _ _ _ Hq) in C. lia.
  - destruct Hdate as [->|[s [-> Hs]]].
    { destruct (Hinv events) as [r Hr]. exists r. intros n Hn.
      apply Hr. lia. }
    destruct (getTime (TimeValue s) <=? 'q) eqn:C.
    + destruct (eventsStep tz (TimeValue st) (TimeValue en) (TimeValue s)
                  events) as [[events' searchDate']|e] eqn:Hstep.
      * destruct (eventsStep_Ok _ _ _ _ _ _ Hstep) as [-> _].
        destruct (IH (TimeClip (Num.of_Z (s + ES.msPerDay))) events')
          as [r Hr].
        { destruct (TimeClip (Num.of_Z (s + ES.msPerDay))) as [|s'] eqn:Hclip;
            [now left|].
          right. exists s'. split; [reflexivity|].
          apply TimeClip_of_Z_valid in Hclip. unfold ES.msPerDay in *. lia. }
        exists r. intros [|n] Hn; [lia|]. cbn [eventsLoop].
        rewrite C, Hstep. apply Hr. lia.
      * exists (Throw e). intros [|n] Hn; [lia|]. cbn [eventsLoop].
        now rewrite C, Hstep.
    + exists (Ok events). intros [|n] Hn; [lia|]. cbn [eventsLoop].
      now rewrite C.
Qed.

Lemma eventsStep_total (st en s : Z) (events : list PhaseEvent) :
  supportedInstant tz (s - ES.msPerDay) ->
  supportedInstant tz s ->
  supportedInstant tz (s + ES.msPerDay) ->
  exists events' : list PhaseEvent,
    eventsStep tz (TimeValue st) (TimeValue en) (TimeValue s) events
    = Ok (events', TimeValue (s + ES.msPerDay)).
Proof.
  intros Hprev Hcur Hnext. unfold eventsStep, copyDate.
  change (getDate tz (TimeValue s) - '1)
    with (getDate tz (TimeValue s) + Num.of_Z (-1)).
  change (getDate tz (TimeValue s) + '1)
    with (getDate tz (TimeValue s) + Num.of_Z 1).
  rewrite !setDate_shift, Z.mul_1_l.
  replace (s + -1 * ES.msPerDay)%Z with (s - ES.msPerDay)%Z by lia.
  rewrite (TimeClip_of_Z_in_range _ (proj2 Hprev)),
    (TimeClip_of_Z_in_range _ (proj2 Hnext)).
  destruct (moonPhase_at tz _ Hcur) as (v & -> & _).
  destruct (moonPhase_at tz _ Hprev) as (vp & -> & _).
  destruct (moonPhase_at tz _ Hnext) as (vn & -> & _).
  cbn [bind]. eexists. reflexivity.
Qed.

Lemma eventsLoop_runs (st en : Z) (q : Q) (E : Z) :
  (q == inject_Z E)%Q ->
  (E <= en + 2 * ES.msPerDay)%Z ->
  scannedDays tz st en ->
  forall (k : nat) (s : Z) (events : list PhaseEvent),
    (st - 2 * ES.msPerDay <= s)%Z ->
    (E - s < Z.of_nat k * ES.msPerDay)%Z ->
    exists evs : list PhaseEvent,
    forall n : nat,
      (k < n)%nat ->
      eventsLoop tz n (TimeValue st) (TimeValue en) 'q (TimeValue s) events
      = Some (Ok evs).
Proof.
  intros Hq HE Hdays.
  induction k as [|k IH]; intros s events Hlo Hk.
  - exists events. intros [|n] Hn; [lia|]. cbn [eventsLoop].
    destruct (getTime (TimeValue s) <=? 'q) eqn:C; [|reflexivity].
    apply (loop_condition _ _ _ Hq) in C. lia.
  - destruct (getTime (TimeValue s) <=? 'q) eqn:C.
    + pose proof (proj1 (loop_condition _ _ _ Hq) C) as Hs.
      destruct (eventsStep_total st en s events) as [events' Hstep];
        try (apply Hdays; unfold ES.msPerDay in *; lia).
      destruct (IH (s + ES.msPerDay)%Z events') as [evs Hevs];
        try (unfold ES.msPerDay in *; lia).
      exists evs. intros [|n] Hn; [lia|]. cbn [eventsLoop].
      rewrite C, Hstep. apply Hevs. lia.
    + exists events. intros [|n] Hn; [lia|]. cbn [eventsLoop].
      now rewrite C.
Qed.

Lemma findPhaseEvents_TimeValue (st en : Z) :
  exists q : Q,
    (q == inject_Z (en + 2 * ES.msPerDay))%Q
    /\ forall fuel : nat,
        findPhaseEvents tz fuel (TimeValue st) (TimeValue en)
        = eventsLoop tz fuel (TimeValue st) (TimeValue en) 'q
            (TimeClip (Num.of_Z (st - 2 * ES.msPerDay))) [].
Proof.
  exists (inject_Z en + 2 * 24 * 60 * 60 * 1000)%Q. split.
  - rewrite inject_Z_plus. unfold ES.msPerDay.
    change (inject_Z (2 * 86400000)) with (2 * 24 * 60 * 60 * 1000)%Q.
    reflexivity.
  - intro fuel. unfold findPhaseEvents, copyDate.
    cbn [validateDate getTime Num.isNaN Num.of_Z bind].
    change (getDate tz (TimeValue st) - '2)
      with (getDate tz (TimeValue st) + Num.of_Z (-2)).
    rewrite setDate_shift.
    replace (st + -2 * ES.msPerDay)%Z with (st - 2 * ES.msPerDay)%Z by lia.
    reflexivity.
Qed.

End Events.

Lemma findPhaseEvents_terminates (tz : Z) (startDate endDate : Date) :
  exists (fuel : nat) (r : result (list PhaseEvent)),
  forall n : nat,
    (fuel <= n)%nat -> findPhaseEvents tz n startDate endDate = Some r.
Proof.
  destruct startDate as [|st].
  { exists 0%nat. eexists. intros n _. reflexivity. }
  destruct endDate as [|en].
  { exists 0%nat. eexists. intros n _. reflexivity. }
  destruct (findPhaseEvents_TimeValue tz st en) as (q & Hq & Hrun).
  destruct (eventsLoop_terminates tz st en q _ Hq
              (Z.to_nat (en + 2 * ES.msPerDay - (st - 2 * ES.msPerDay)) + 1)
              (TimeClip (Num.of_Z (st - 2 * ES.msPerDay))) [])
    as [r Hr].
  - destruct (TimeClip (Num.of_Z (st - 2 * ES.msPerDay))) as [|s] eqn:Hclip;
      [now left|].
    right. exists s. split; [reflexivity|].
    apply TimeClip_of_Z_valid in Hclip. destruct Hclip as [-> _].
    unfold ES.msPerDay. lia.
  - eexists. exists r. intros n Hn. rewrite Hrun. apply Hr. exact Hn.
Qed.

Lemma findPhaseEvents_sound (tz : Z) (startDate endDate : Date)
  (fuel : nat) (evs : list PhaseEvent) :
  findPhaseEvents tz fuel startDate endDate = Some (Ok evs) ->
  Forall (withinRange startDate endDate) evs
  /\ chronological evs
  /\ ((getTime endDate <? getTime startDate) = true -> evs = []).
Proof.
  destruct startDate as [|st]; [discriminate|].
  destruct endDate as [|en]; [discriminate|].
  destruct (findPhaseEvents_TimeValue tz st en) as (q & Hq & Hrun).
  rewrite Hrun. intro H.
  apply (eventsLoop_invariant tz st en _ fuel _ _ _ (st - 2 * ES.msPerDay)%Z)
    in H.
  - destruct H as [Hsorted Hall]. split; [|split; [exact Hsorted|]].
    + eapply Forall_impl; [|exact Hall].
      intros e (te & Hte & Hr). unfold withinRange, eventTime.
      rewrite Hte. cbn [getTime]. rewrite !leb_of_Z. exact Hr.
    + intro Hlt. cbn [getTime] in Hlt. apply ltb_of_Z in Hlt.
      destruct evs as [|e evs]; [reflexivity|].
      inversion Hall as [|? ? (te & _ & Hr) _]. lia.
  - constructor.
  - constructor.
  - destruct (TimeClip (Num.of_Z (st - 2 * ES.msPerDay))) as [|s] eqn:Hclip;
      [now left|].
    right. exists s. split; [reflexivity|].
    apply TimeClip_of_Z_valid in Hclip. lia.
Qed.

Lemma findPhaseEvents_runs (tz st en : Z) :
  scannedDays tz st en ->
  exists (fuel : nat) (evs : list PhaseEvent),
    findPhaseEvents tz fuel (TimeValue st) (TimeValue en) = Some (Ok evs).
Proof.
  intro Hdays.
  destruct (findPhaseEvents_TimeValue tz st en) as (q & Hq & Hrun).
  destruct (Z.le_gt_cases (st - 2 * ES.msPerDay) (en + 2 * ES.msPerDay))
    as [Hle|Hgt].
  - assert (Hsup : supportedInstant tz (st - 2 * ES.msPerDay))
      by (apply Hdays; unfold ES.msPerDay in *; lia).
    destruct (eventsLoop_runs tz st en q _ Hq (Z.le_refl _) Hdays
                (Z.to_nat (en + 2 * ES.msPerDay - (st - 2 * ES.msPerDay)) + 1)
                (st - 2 * ES.msPerDay) [])
      as [evs Hevs]; [lia | unfold ES.msPerDay; lia |].
    eexists. exists evs. rewrite Hrun.
    rewrite (TimeClip_of_Z_in_range _ (proj2 Hsup)).
    apply Hevs. apply Nat.lt_succ_diag_r.
  - exists 1%nat, []. rewrite Hrun. cbn [eventsLoop].
    destruct (TimeClip (Num.of_Z (st - 2 * ES.msPerDay))) as [|s] eqn:Hclip;
      [reflexivity|].
    apply TimeClip_of_Z_valid in Hclip. destruct Hclip as [-> _].
    destruct (getTime (TimeValue (st - 2 * ES.msPerDay)) <=? 'q) eqn:C;
      [|reflexivity].
    apply (loop_condition _ _ _ Hq) in C. lia.
Qed.

(** C5, as the code has it.  The scan ends; the events it returns lie in
    [[startDate, endDate]] and are in chronological order, none when
    [endDate] is before [startDate]; and no error is raised when every
    day looked at, from 3 days before [startDate] to 3 days after
    [endDate], is a representable date of local year -4712 or later. *)
Theorem findPhaseEvents_range (tz : Z) (startDate endDate : Date) :
  (exists (fuel : nat) (r : result (list PhaseEvent)),
      forall n : nat,
        (fuel <= n)%nat -> findPhaseEvents tz n startDate endDate = Some r)
  /\ (forall (fuel : nat) (evs : list PhaseEvent),
        findPhaseEvents tz fuel startDate endDate = Some (Ok evs) ->
        Forall (withinRange startDate endDate) evs
        /\ chronological evs
        /\ ((getTime endDate <? getTime startDate) = true -> evs = []))
  /\ (forall st en : Z,
        startDate = TimeValue st -> endDate = TimeValue en ->
        scannedDays tz st en ->
        exists (fuel : nat) (evs : list PhaseEvent),
          findPhaseEvents tz fuel startDate endDate = Some (Ok evs)).
Proof.
  split; [apply findPhaseEvents_terminates|].
  split; [apply findPhaseEvents_sound|].
  intros st en -> ->. apply findPhaseEvents_runs.
Qed.

Lemma findPhaseEvents_range_witness :
  (exists (fuel : nat) (evs : list PhaseEvent),
      findPhaseEvents 0 fuel (TimeValue 946684800000) (TimeValue 949363200000)
      = Some (Ok evs)
      /\ Forall
           (withinRange (TimeValue 946684800000) (TimeValue 949363200000)) evs
      /\ chronological evs)
  /\ (exists fuel : nat,
        findPhaseEvents 0 fuel (TimeValue 949363200000)
          (TimeValue 946684800000)
        = Some (Ok [])).
Proof.
  assert (S : forall st en : Z,
             (946684800000 <= st <= 949363200000)%Z ->
             (946684800000 <= en <= 949363200000)%Z ->
             scannedDays 0 st en).
  { intros st en Hst Hen t Ht. unfold supportedInstant, LocalTime.
    cbn [offsetAt offsetOf fixedOffset].
    change floorTime with (-210863520000000)%Z.
    unfold ES.maxTime, ES.msPerDay in *. lia. }
  split.
  - destruct (findPhaseEvents_range 0 (TimeValue 946684800000)
                (TimeValue 949363200000)) as (_ & Hsound & Hruns).
    destruct (Hruns 946684800000 949363200000 eq_refl eq_refl)%Z
      as (fuel & evs & Hrun); [apply S; lia|].
    exists fuel, evs. split; [exact Hrun|].
    destruct (Hsound fuel evs Hrun) as (Hin & Hsorted & _).
    split; assumption.
  - destruct (findPhaseEvents_range 0 (TimeValue 949363200000)
                (TimeValue 946684800000)) as (_ & Hsound & Hruns).
    destruct (Hruns 949363200000 946684800000 eq_refl eq_refl)%Z
      as (fuel & evs & Hrun); [apply S; lia|].
    exists fuel.
    destruct (Hsound fuel evs Hrun) as (_ & _ & Hempty).
    rewrite <- (Hempty eq_refl). exact Hrun.
Defined.

(** C5, as stated, fails: the first and the second of January of the
    year -4712 are valid dates on which [moonPhase] returns, yet
    [findPhaseEvents] from the second to the first throws. *)
Lemma findPhaseEvents_at_first_year :
  (exists p q : number,
      moonPhase 0 (TimeValue (-210863433600000)) = Ok p
      /\ moonPhase 0 (TimeValue (-210863520000000)) = Ok q)
  /\ (getTime (TimeValue (-210863520000000))
      <? getTime (TimeValue (-210863433600000))) = true
  /\ findPhaseEvents 0 1 (TimeValue (-210863433600000))
       (TimeValue (-210863520000000))
     = Some (Throw InvalidDateParameters).
Proof.
  split; [|split; vm_compute; reflexivity].
  do 2 eexists. split; vm_compute; reflexivity.
Qed.

(** ** How close to the target the searches end *)

Lemma ltb_trans (x y z : number) :
  (x <? y) = true -> (y <? z) = true -> (x <? z) = true.
Proof.
  destruct x as [|a|p], y as [|b|q], z as [|c|r]; simpl;
    try congruence;
    try (destruct a; simpl; congruence);
    try (destruct b; simpl; congruence);
    try (destruct c; simpl; congruence).
  - destruct a, b, c; simpl; congruence.
  - rewrite !Qlt_bool_iff. apply Qlt_trans.
Qed.

Section SearchDistance.

Variable tz : Z.
Variable targetPhase : number.

Lemma refineLoop_distance (approximateDate : Date) (bound : number)
  (minutesLeft : list number) :
  forall (bestDate : Date) (bestDiff : number) (d : Date),
    atDistance tz targetPhase bestDate bestDiff ->
    (bestDiff <? bound) = true ->
    refineLoop tz approximateDate targetPhase minutesLeft bestDate bestDiff
    = Ok d ->
    exists diff : number, atDistance tz targetPhase d diff /\ (diff <? bound) = true.
Proof.
  induction minutesLeft as [|minutes rest IH];
    intros bestDate bestDiff d Hbest Hlt Hrun.
  - injection Hrun as <-. now exists bestDiff.
  - cbn [refineLoop] in Hrun.
    destruct (moonPhase tz
                (newDate (getTime approximateDate + minutes * '60 * '1000)))
      as [phase|e] eqn:Hphase; [|discriminate].
    cbn [bind] in Hrun. unfold copyDate in Hrun.
    destruct (phaseDiff phase targetPhase <? bestDiff) eqn:C.
    + apply (IH _ _ _) in Hrun; [exact Hrun | | ].
      * exists phase. split; [exact Hphase | reflexivity].
      * exact (ltb_trans _ _ _ C Hlt).
    + now apply (IH _ _ _ Hbest Hlt) in Hrun.
Qed.

Lemma refinePhaseDate_distance (bestDate : Date) (bestDiff bound : number)
  (d : Date) :
  atDistance tz targetPhase bestDate bestDiff ->
  (bestDiff <? bound) = true ->
  refinePhaseDate tz bestDate targetPhase = Ok d ->
  exists diff : number, atDistance tz targetPhase d diff /\ (diff <? bound) = true.
Proof.
  intros (p & Hp & Hd) Hlt. unfold refinePhaseDate, copyDate.
  rewrite Hp. cbn [bind]. rewrite Hd.
  apply refineLoop_distance; [|exact Hlt].
  exists p. split; assumption.
Qed.

Lemma scanLoop_distance (date : Date) (phaseName : string)
  (hoursLeft : list number) :
  forall (bestDate : Date) (bestDiff : number) (d : Date),
    bestDiff = '1 \/ atDistance tz targetPhase bestDate bestDiff ->
    scanLoop tz date targetPhase phaseName hoursLeft bestDate bestDiff = Ok d ->
    exists diff : number, atDistance tz targetPhase d diff /\ (diff <? '0.1) = true.
Proof.
  assert (R : forall (bestDate : Date) (bestDiff bound : number) (d : Date),
             bestDiff = '1 \/ atDistance tz targetPhase bestDate bestDiff ->
             (bestDiff <? bound) = true ->
             (bound <? '0.1) = true \/ bound = '0.1 ->
             refinePhaseDate tz bestDate targetPhase = Ok d ->
             exists diff : number, atDistance tz targetPhase d diff /\ (diff <? '0.1) = true).
  { intros bestDate bestDiff bound d [->|Hbest] Hlt Hbound Hrun.
    - destruct Hbound as [Hb| ->]; [|discriminate Hlt].
      pose proof (ltb_trans _ _ _ Hlt Hb) as F. discriminate F.
    - apply (refinePhaseDate_distance _ _ '0.1 _ Hbest); [|exact Hrun].
      destruct Hbound as [Hb| ->]; [|exact Hlt].
      exact (ltb_trans _ _ _ Hlt Hb). }
  induction hoursLeft as [|hours rest IH];
    intros bestDate bestDiff d Hbest Hrun.
  - cbn [scanLoop] in Hrun.
    destruct (bestDiff <? '0.1) eqn:C; [|discriminate].
    apply (R _ _ '0.1 _ Hbest C); [now right | exact Hrun].
  - cbn [scanLoop] in Hrun.
    destruct (moonPhase tz
                (newDate (getTime date + hours * '60 * '60 * '1000)))
      as [phase|e] eqn:Hphase; [|discriminate].
    cbn [bind] in Hrun. unfold copyDate in Hrun.
    assert (Hcur : phaseDiff phase targetPhase = '1
                   \/ atDistance tz targetPhase
                        (newDate (getTime date + hours * '60 * '60 * '1000))
                        (phaseDiff phase targetPhase)).
    { right. exists phase. split; [exact Hphase | reflexivity]. }
    destruct (phaseDiff phase targetPhase <? bestDiff).
    + destruct (phaseDiff phase targetPhase <? '0.02) eqn:C.
      * apply (R _ _ '0.02 _ Hcur C); [now left | exact Hrun].
      * exact (IH _ _ _ Hcur Hrun).
    + destruct (bestDiff <? '0.02) eqn:C.
      * apply (R _ _ '0.02 _ Hbest C); [now left | exact Hrun].
      * exact (IH _ _ _ Hbest Hrun).
Qed.

Lemma findNextPhase_distance (fromDate : Date) (phaseName : string)
  (d : Date) :
  findNextPhase tz fromDate targetPhase phaseName = Ok d ->
  exists diff : number, atDistance tz targetPhase d diff /\ (diff <? '0.1) = true.
Proof.
  unfold findNextPhase. apply scanLoop_distance. now left.
Qed.

End SearchDistance.

(** The phase of an instant returned by
    [nextNewMoon] is at a wrapped distance below 0.1 of 0, and that of an
    instant returned by [nextFullMoon] at a wrapped distance below 0.1 of
    0.5. *)
Lemma nextPhase_distance (tz : Z) (fromDate d : Date) :
  (nextNewMoon tz fromDate = Ok d ->
   exists p : number,
     moonPhase tz d = Ok p /\ (phaseDiff p '0 <? '0.1) = true)
  /\ (nextFullMoon tz fromDate = Ok d ->
      exists p : number,
        moonPhase tz d = Ok p /\ (phaseDiff p '0.5 <? '0.1) = true).
Proof.
  split; intro H; destruct fromDate as [|u]; try discriminate H;
    apply findNextPhase_distance in H;
    destruct H as (diff & (p & Hp & <-) & Hlt); now exists p.
Qed.

(** * Further properties of the code *)

(** ** The Julian Day and the calendar *)

(** The day number of the formula of [julianDay], in integers. *)
Lemma meeus_day_number (Y m D : Z) :
  (1 <= m <= 12)%Z ->
  let y' := (if m <=? 2 then Y - 1 else Y)%Z in
  let m' := (if m <=? 2 then m + 12 else m)%Z in
  ((36525 * (y' + 4716)) / 100 + (306001 * (m' + 1)) / 10000 + D
   + (2 - y' / 100 + y' / 100 / 4))%Z
  = (ES.daysFromCivil Y m D + 2442112)%Z.
Proof.
  intros Hm. cbv zeta. unfold ES.daysFromCivil, ES.daysPerEra, ES.eraShift.
  cbv zeta.
  destruct (Z.leb_spec m 2).
  - assert (m = 1 \/ m = 2)%Z as [-> | ->] by lia; cbn [Z.leb Z.compare Pos.compare Pos.compare_cont];
    Z.div_mod_to_equations; lia.
  - assert (m = 3 \/ m = 4 \/ m = 5 \/ m = 6 \/ m = 7 \/ m = 8 \/ m = 9
            \/ m = 10 \/ m = 11 \/ m = 12)%Z as Hc by lia.
    repeat (destruct Hc as [-> | Hc]); try subst m;
    Z.div_mod_to_equations; lia.
Qed.

Lemma Qfloor_scaled (p : Z) (d : positive) (q : Q) (n : Z) :
  (q == inject_Z n)%Q -> Qfloor ((p # d) * q) = ((p * n) / Zpos d)%Z.
Proof.
  intro E. rewrite (Qfloor_comp _ ((p * n) # d)); [reflexivity|].
  rewrite E. unfold Qeq, Qmult, inject_Z. cbn [Qnum Qden]. lia.
Qed.

Lemma Qfloor_quotient (d : positive) (q : Q) (n : Z) :
  (q == inject_Z n)%Q -> Qfloor (q / (Zpos d # 1)) = (n / Zpos d)%Z.
Proof.
  intro E. rewrite (Qfloor_comp _ (n # d)); [reflexivity|].
  rewrite E. unfold Qeq, Qdiv, Qinv, Qmult, inject_Z. cbn [Qnum Qden]. lia.
Qed.

Lemma inject_Z_day_number (A B D a a4 R : Z) :
  (A + B + D + (2 - a + a4) = R + 2442112)%Z ->
  (inject_Z A + inject_Z B + inject_Z D + (2 - inject_Z a + inject_Z a4)
   == inject_Z R + 2442112)%Q.
Proof.
  intros H. assert (R = A + B + D + (2 + - a + a4) + - (2442112))%Z as -> by lia.
  rewrite !inject_Z_plus, !inject_Z_opp.
  change (inject_Z 2) with 2%Q. change (inject_Z 2442112) with 2442112%Q. ring.
Qed.

Lemma julianDaySpec_value (Y m D h mi s : Z) (qy qm qd qh qmi qs : Q) :
  (1 <= m <= 12)%Z ->
  (qy == inject_Z Y)%Q -> (qm == inject_Z m)%Q -> (qd == inject_Z D)%Q ->
  (qh == inject_Z h)%Q -> (qmi == inject_Z mi)%Q -> (qs == inject_Z s)%Q ->
  exists jd : Q,
    julianDaySpec 'qy 'qm 'qd 'qh 'qmi 'qs = 'jd
    /\ (jd == inject_Z (ES.daysFromCivil Y m D)
             + inject_Z (3600 * h + 60 * mi + s) / 86400 + 2440587.5)%Q.
Proof.
  intros Hm Ey Em Ed Eh Emi Es.
  pose proof (meeus_day_number Y m D Hm) as M. cbv zeta in M.
  assert (T : (inject_Z (3600 * h + 60 * mi + s) / 86400
               == (qh + qmi / 60 + qs / 3600) / 24)%Q).
  { rewrite Eh, Emi, Es, !inject_Z_plus, !inject_Z_mult.
    change (inject_Z 3600) with 3600%Q. change (inject_Z 60) with 60%Q. field. }
  unfold julianDaySpec.
  assert (C : ('qm <=? '2) = (m <=? 2)%Z).
  { cbn [Num.leb]. destruct (Z.leb_spec m 2) as [L|G].
    - apply Qle_bool_iff. rewrite Em. change 2%Q with (inject_Z 2).
      now rewrite <- Zle_Qle.
    - apply Qle_bool_false_iff. rewrite Em. change 2%Q with (inject_Z 2).
      now rewrite <- Zlt_Qlt. }
  rewrite C. 
  destruct (m <=? 2)%Z.
  - eexists. split; [reflexivity|].
    assert (Ey' : (qy + - (1) == inject_Z (Y - 1))%Q)
      by (rewrite Ey; unfold Z.sub; rewrite inject_Z_plus; reflexivity).
    assert (Ey4 : (qy + - (1) + 4716 == inject_Z (Y - 1 + 4716))%Q)
      by (rewrite Ey'; rewrite (inject_Z_plus (Y - 1) 4716); reflexivity).
    assert (Em' : (qm + 12 + 1 == inject_Z (m + 12 + 1))%Q)
      by (rewrite Em, !inject_Z_plus; reflexivity).
    change 365.25%Q with (36525 # 100). change 30.6001%Q with (306001 # 10000).
    rewrite (Qfloor_scaled _ _ _ _ Ey4), (Qfloor_scaled _ _ _ _ Em').
    change 100%Q with (100 # 1). change 4%Q with (4 # 1) at 1.
    rewrite (Qfloor_quotient _ _ _ Ey').
    rewrite (Qfloor_quotient 4 (inject_Z ((Y - 1) / 100)) _ (Qeq_refl _)).
    rewrite <- T.
    apply inject_Z_day_number in M.
    rewrite Ed. 
    lraQ.
  - eexists. split; [reflexivity|].
    assert (Ey4 : (qy + 4716 == inject_Z (Y + 4716))%Q)
      by (rewrite Ey; rewrite (inject_Z_plus Y 4716); reflexivity).
    assert (Em' : (qm + 1 == inject_Z (m + 1))%Q)
      by (rewrite Em, !inject_Z_plus; reflexivity).
    change 365.25%Q with (36525 # 100). change 30.6001%Q with (306001 # 10000).
    rewrite (Qfloor_scaled _ _ _ _ Ey4), (Qfloor_scaled _ _ _ _ Em').
    change 100%Q with (100 # 1). change 4%Q with (4 # 1) at 1.
    rewrite (Qfloor_quotient _ _ _ Ey).
    rewrite (Qfloor_quotient 4 (inject_Z (Y / 100)) _ (Qeq_refl _)).
    rewrite <- T.
    apply inject_Z_day_number in M.
    rewrite Ed.
    lraQ.
Qed.

(** X1.  [julianDay] agrees with the calendar of [Date].  For integer
    arguments that pass the validation it returns the Julian Day of the
    proleptic Gregorian date: the day number of the date, counted from
    1970-01-01, plus the seconds of the time of day over 86400, plus
    2440587.5. *)
Theorem julianDay_gregorian (Y m D h mi s : Z) :
  (-4712 <= Y)%Z -> (1 <= m <= 12)%Z -> (1 <= D <= 31)%Z ->
  exists jd : Q,
    julianDay (Num.of_Z Y) (Num.of_Z m) (Num.of_Z D) (Num.of_Z h)
      (Num.of_Z mi) (Num.of_Z s) = Ok 'jd
    /\ (jd == inject_Z (ES.daysFromCivil Y m D)
             + inject_Z (3600 * h + 60 * mi + s) / 86400 + 2440587.5)%Q.
Proof.
  intros HY Hm HD. rewrite julianDay_valid.
  - unfold Num.of_Z.
    destruct (julianDaySpec_value Y m D h mi s (inject_Z Y) (inject_Z m)
                (inject_Z D) (inject_Z h) (inject_Z mi) (inject_Z s))
      as (jd & -> & E); try reflexivity; [exact Hm|].
    now exists jd.
  - unfold passesValidation.
    change ('1) with (Num.of_Z 1). change ('12) with (Num.of_Z 12).
    change ('31) with (Num.of_Z 31). change ('(-4712)) with (Num.of_Z (-4712)).
    rewrite !andb_true_iff, !leb_of_Z. lia.
Qed.

Lemma julianDay_gregorian_witness :
  exists jd : Q,
    julianDay (Num.of_Z 2000) (Num.of_Z 1) (Num.of_Z 6) (Num.of_Z 12)
      (Num.of_Z 0) (Num.of_Z 0) = Ok 'jd
    /\ (jd == inject_Z (ES.daysFromCivil 2000 1 6)
             + inject_Z (3600 * 12 + 60 * 0 + 0) / 86400 + 2440587.5)%Q.
Proof. apply (julianDay_gregorian 2000 1 6 12 0 0); lia. Defined.

Lemma Qtrunc_floor_cases (q : Q) :
  Qtrunc q = Qfloor q
  \/ (Qtrunc q = (Qfloor q + 1)%Z /\ (inject_Z (Qfloor q) < q)%Q /\ (q < 0)%Q).
Proof.
  unfold Qtrunc. destruct (Qle_bool 0 q) eqn:E; [now left|].
  apply Qle_bool_false_iff in E.
  pose proof (Qfloor_le q) as F1. pose proof (Qlt_floor q) as F2.
  pose proof (Qle_ceiling q) as C1. pose proof (Qceiling_lt q) as C2.
  assert (H1 : (Qfloor q <= Qceiling q)%Z)
    by (rewrite Zle_Qle; lraQ).
  assert (H2 : (Qceiling q - 1 < Qfloor q + 1)%Z)
    by (rewrite Zlt_Qlt; lraQ).
  assert (Qceiling q = Qfloor q \/ Qceiling q = Qfloor q + 1)%Z as [H|H] by lia.
  - now left.
  - right. split; [exact H|]. split; [|exact E].
    rewrite H in C2. replace (Qfloor q + 1 - 1)%Z with (Qfloor q) in C2 by lia.
    exact C2.
Qed.

Lemma fraction_range (q : Q) : (0 <= fraction q < 1)%Q.
Proof.
  unfold fraction. pose proof (Qfloor_le q). pose proof (Qlt_floor q).
  rewrite inject_Z_plus in *. change (inject_Z 1) with 1%Q in *. split; lraQ.
Qed.

Lemma Qfloor_unique (q : Q) (n : Z) :
  (inject_Z n <= q < inject_Z n + 1)%Q -> Qfloor q = n.
Proof.
  intros [L U].
  pose proof (Qfloor_le q) as F1. pose proof (Qlt_floor q) as F2.
  rewrite inject_Z_plus in F2. change (inject_Z 1) with 1%Q in F2.
  assert (n < Qfloor q + 1)%Z.
  { rewrite Zlt_Qlt, inject_Z_plus. change (inject_Z 1) with 1%Q. lraQ. }
  assert (Qfloor q < n + 1)%Z.
  { rewrite Zlt_Qlt, inject_Z_plus. change (inject_Z 1) with 1%Q. lraQ. }
  lia.
Qed.

Lemma fraction_comp (p q : Q) : (p == q)%Q -> (fraction p == fraction q)%Q.
Proof.
  intro E. unfold fraction. rewrite (Qfloor_comp _ _ E), E. reflexivity.
Qed.

Lemma fraction_shift (q : Q) (n : Z) :
  (fraction (q + inject_Z n) == fraction q)%Q.
Proof.
  unfold fraction.
  rewrite (Qfloor_unique (q + inject_Z n) (Qfloor q + n)).
  - rewrite inject_Z_plus. ring.
  - pose proof (Qfloor_le q). pose proof (Qlt_floor q).
    rewrite !inject_Z_plus in *. change (inject_Z 1) with 1%Q in *. split; lraQ.
Qed.

(** The wrapped remainder of [moonPhase] is a fractional part. *)
Lemma phase_fraction (jd : Q) :
  let phase := (('jd - '2451549.5) mod '29.53058868) / '29.53058868 in
  exists v : Q,
    (if phase <? '0 then phase + '1 else phase) = 'v
    /\ (v == fraction ((jd - 2451549.5) / 29.53058868))%Q.
Proof.
  set (x := (jd + - 2451549.5)%Q).
  set (T := inject_Z (Qtrunc (x / 29.53058868))).
  set (r := (x - 29.53058868 * T)%Q).
  change (('jd - '2451549.5) mod '29.53058868) with ('r).
  change ('r / '29.53058868) with ('(r / 29.53058868)).
  cbv zeta.
  change ((jd - 2451549.5) / 29.53058868)%Q with (x / 29.53058868)%Q.
  assert (Ex : (r / 29.53058868 == x / 29.53058868 - T)%Q)
    by (unfold r; field).
  pose proof (fraction_range (x / 29.53058868)) as R. unfold fraction in *.
  destruct (Qtrunc_floor_cases (x / 29.53058868)) as [E|(E & L & N)].
  - unfold T in Ex. rewrite E in Ex.
    rewrite (proj2 (ltb_Fin_false _ _)) by lraQ.
    eexists. split; [reflexivity|]. exact Ex.
  - unfold T in Ex. rewrite E, inject_Z_plus in Ex.
    change (inject_Z 1) with 1%Q in Ex.
    rewrite (proj2 (ltb_Fin _ _)) by lraQ.
    eexists. split; [reflexivity|]. cbn [Num.add]. lraQ.
Qed.

Section ClosedForm.

Variable zone : Zone.

Lemma local_seconds (lt : Z) :
  (lt / 1000
   = 86400 * ES.Day lt
     + (3600 * ES.HourFromTime lt + 60 * ES.MinFromTime lt
        + ES.SecFromTime lt))%Z.
Proof.
  unfold ES.Day, ES.HourFromTime, ES.MinFromTime, ES.SecFromTime,
    ES.msPerDay, ES.msPerHour, ES.msPerMinute, ES.msPerSecond.
  Z.div_mod_to_equations. lia.
Qed.

Lemma localJulianDay_value (t : Z) :
  (-4712 <= ES.YearFromTime (LocalTime zone t))%Z ->
  exists jd : Q,
    localJulianDay zone (TimeValue t) = Ok 'jd
    /\ (jd == inject_Z (localSeconds zone t) / 86400 + 2440587.5)%Q.
Proof.
  intro Hy. unfold localJulianDay, localSeconds.
  unfold getFullYear, getMonth, getDate, getHours, getMinutes, getSeconds,
    getter.
  set (lt := LocalTime zone t) in *.
  pose proof (civil_month_day (ES.Day lt)) as [Hm Hd].
  rewrite julianDay_valid.
  - rewrite of_Z_succ. unfold Num.of_Z.
    destruct (julianDaySpec_value (ES.YearFromTime lt)
                (ES.MonthFromTime lt + 1) (ES.DateFromTime lt)
                (ES.HourFromTime lt) (ES.MinFromTime lt) (ES.SecFromTime lt)
                (inject_Z (ES.YearFromTime lt))
                (inject_Z (ES.MonthFromTime lt) + inject_Z 1)
                (inject_Z (ES.DateFromTime lt)) (inject_Z (ES.HourFromTime lt))
                (inject_Z (ES.MinFromTime lt)) (inject_Z (ES.SecFromTime lt)))
      as (jd & -> & E);
      try reflexivity.
    + unfold ES.MonthFromTime. lia.
    + now rewrite inject_Z_plus.
    + exists jd. split; [reflexivity|]. rewrite E.
      unfold ES.YearFromTime, ES.MonthFromTime, ES.DateFromTime.
      replace (snd (fst (ES.civil (ES.Day lt))) - 1 + 1)%Z
        with (snd (fst (ES.civil (ES.Day lt)))) by lia.
      rewrite daysFromCivil_civil, (local_seconds lt).
      rewrite (inject_Z_plus (86400 * ES.Day lt)), inject_Z_mult.
      change (inject_Z 86400) with 86400%Q. field.
  - unfold passesValidation. rewrite of_Z_succ, <- inject_Z_plus.
    fold (Num.of_Z (ES.MonthFromTime lt + 1)).
    change ('1) with (Num.of_Z 1). change ('12) with (Num.of_Z 12).
    change ('31) with (Num.of_Z 31). change ('(-4712)) with (Num.of_Z (-4712)).
    rewrite !andb_true_iff, !leb_of_Z.
    unfold ES.MonthFromTime, ES.DateFromTime. lia.
Qed.

Lemma moonPhase_value (t : Z) :
  (-4712 <= ES.YearFromTime (LocalTime zone t))%Z ->
  exists v : Q,
    moonPhase zone (TimeValue t) = Ok 'v
    /\ (v == fraction (lunations zone t))%Q.
Proof.
  intro Hy. destruct (localJulianDay_value t Hy) as (jd & Hjd & E).
  destruct (phase_fraction jd) as (v & Hv & Ev).
  exists v. rewrite moonPhase_TimeValue, Hjd. cbn [bind].
  cbv zeta in Hv. rewrite Hv. split; [reflexivity|].
  rewrite Ev. apply fraction_comp. unfold lunations. rewrite E. field.
Qed.

Lemma moonPhase_Ok_value (t : Z) (v : number) :
  moonPhase zone (TimeValue t) = Ok v ->
  exists q : Q,
    v = 'q /\ (q == fraction (lunations zone t))%Q /\ (0 <= q < 1)%Q.
Proof.
  intro Hv.
  destruct (Z_lt_le_dec (ES.YearFromTime (LocalTime zone t)) (-4712)) as [Hy|Hy].
  - rewrite (moonPhase_unsupported zone t Hy) in Hv. discriminate Hv.
  - destruct (moonPhase_value t Hy) as (q & Hq & E).
    rewrite Hq in Hv. injection Hv as <-. exists q.
    split; [reflexivity|]. split; [exact E|].
    rewrite E. apply fraction_range.
Qed.

End ClosedForm.

(** X2.  The phase in closed form.  For a date of local year -4712 or later,
    [moonPhase] returns the fractional part of the number of synodic
    months of 29.53058868 days between the local midnight of 2000-01-06
    and the local clock time of the date, taken in whole seconds; the
    phase lies in [0, 1). *)
Theorem moonPhase_closed_form (tz t : Z) :
  (-4712 <= ES.YearFromTime (LocalTime tz t))%Z ->
  exists v : Q,
    moonPhase tz (TimeValue t) = Ok 'v
    /\ (v == fraction (lunations tz t))%Q
    /\ (0 <= v < 1)%Q.
Proof.
  intro Hy. destruct (moonPhase_value tz t Hy) as (v & Hv & E).
  exists v. split; [exact Hv|]. split; [exact E|].
  rewrite E. apply fraction_range.
Qed.

Lemma moonPhase_closed_form_witness :
  exists v : Q,
    moonPhase 3600000 (TimeValue 1700000000000) = Ok 'v
    /\ (v == fraction (lunations 3600000 1700000000000))%Q
    /\ (0 <= v < 1)%Q.
Proof.
  apply (moonPhase_closed_form 3600000 1700000000000). vm_compute.
  discriminate.
Defined.

(** ** The coarse scan always comes close to the target *)

Lemma phaseDiff_close (v tg : Q) :
  (tg <= v < tg + 0.02)%Q -> ('0.02 <=? phaseDiff 'v 'tg) = false.
Proof.
  intros [L U]. unfold phaseDiff. cbn [Num.sub Num.add Num.neg Num.abs].
  cbv zeta. assert (A : (Qabs (v + - tg) == v + - tg)%Q)
    by (apply Qabs_pos; lraQ).
  unfold Num.gtb. rewrite (proj2 (ltb_Fin_false _ _)) by (rewrite A; lraQ).
  apply leb_Fin_false. rewrite A. lraQ.
Qed.

Lemma crossing (y tg : Q) :
  (0 <= tg <= 0.5)%Q ->
  exists k : Z,
    (0 <= k <= 355)%Z
    /\ (tg <= fraction (y + inject_Z k * scanStep) < tg + 0.02)%Q.
Proof.
  intros Htg.
  pose proof (fraction_range y) as F. unfold fraction in F.
  set (n0 := Qfloor y) in *.
  assert (G : exists (gap : Q) (n : Z),
             (0 <= gap < 1)%Q /\ (y + gap == inject_Z n + tg)%Q).
  { destruct (Qlt_le_dec tg (y - inject_Z n0)) as [L|L].
    - exists (tg + 1 - (y - inject_Z n0))%Q, (n0 + 1)%Z.
      rewrite inject_Z_plus. change (inject_Z 1) with 1%Q.
      split; [split; lraQ | ring].
    - exists (tg - (y - inject_Z n0))%Q, n0. split; [split; lraQ | ring]. }
  destruct G as (gap & n & Hgap & Hn).
  set (k := Qceiling (gap * 354.36706416)).
  pose proof (Qle_ceiling (gap * 354.36706416)) as C1.
  pose proof (Qceiling_lt (gap * 354.36706416)) as C2. fold k in C1, C2.
  unfold Z.sub in C2. rewrite inject_Z_plus in C2.
  change (inject_Z (- (1))) with (- (1))%Q in C2.
  exists k. split.
  - split.
    + assert (-1 < k)%Z; [|lia]. rewrite Zlt_Qlt.
      change (inject_Z (-1)) with (- (1))%Q. lraQ.
    + assert (k < 356)%Z; [|lia]. rewrite Zlt_Qlt.
      change (inject_Z 356) with 356%Q. lraQ.
  - assert (S : (inject_Z k * scanStep == inject_Z k / 354.36706416)%Q)
      by (unfold scanStep; field).
    assert (K1 : (gap <= inject_Z k / 354.36706416)%Q).
    { apply Qle_shift_div_l; [reflexivity | exact C1]. }
    assert (K2 : (inject_Z k / 354.36706416 < gap + 1 / 354.36706416)%Q).
    { apply Qlt_shift_div_r; [reflexivity|].
      setoid_replace ((gap + 1 / 354.36706416) * 354.36706416)%Q
        with (gap * 354.36706416 + 1)%Q by field.
      lraQ. }
    assert (D : (1 / 354.36706416 < 0.02)%Q) by reflexivity.
    unfold fraction.
    rewrite (Qfloor_unique (y + inject_Z k * scanStep) n) by (split; lraQ).
    split; lraQ.
Qed.

Section ScanFinds.

Variable tz : Z.

Lemma lunations_hours (t h : Z) :
  (lunations tz (t + h * ES.msPerHour)
   == lunations tz t + inject_Z h / (24 * 29.53058868))%Q.
Proof.
  unfold lunations, localSeconds, LocalTime, ES.msPerHour.
  cbn [offsetAt offsetOf fixedOffset].
  replace ((t + h * 3600000 + tz) / 1000)%Z
    with ((t + tz) / 1000 + h * 3600)%Z.
  - rewrite inject_Z_plus, inject_Z_mult. change (inject_Z 3600) with 3600%Q.
    field.
  - Z.div_mod_to_equations. lia.
Qed.

Lemma distance_unknown (tg : Q) (t : Z) :
  (ES.YearFromTime (LocalTime tz t) < -4712)%Z ->
  ('0.02 <=? distanceAt tz 'tg t) = false.
Proof.
  intro Hy. unfold distanceAt, phaseAt, newDate.
  destruct (TimeClip (Num.of_Z t)) as [|t'] eqn:Hclip; [reflexivity|].
  destruct (TimeClip_of_Z_valid _ _ Hclip) as [-> _].
  now rewrite (moonPhase_unsupported tz t Hy).
Qed.

Lemma distance_close (tg : Q) (t : Z) :
  (tg <= fraction (lunations tz t) < tg + 0.02)%Q ->
  ('0.02 <=? distanceAt tz 'tg t) = false.
Proof.
  intro Hf.
  destruct (Z_lt_le_dec (ES.YearFromTime (LocalTime tz t)) (-4712)) as [Hy|Hy];
    [now apply distance_unknown|].
  unfold distanceAt, phaseAt, newDate.
  destruct (TimeClip (Num.of_Z t)) as [|t'] eqn:Hclip; [reflexivity|].
  destruct (TimeClip_of_Z_valid _ _ Hclip) as [-> _].
  destruct (moonPhase_value tz t Hy) as (v & -> & Ev).
  apply phaseDiff_close. rewrite Ev. exact Hf.
Qed.

Lemma scan_finds (tg : Q) (u : Z) :
  (0 <= tg <= 0.5)%Q ->
  ~ Forall (fun d => ('0.02 <=? d) = true)
      (List.map (distanceAt tz 'tg) (coarseTimes u)).
Proof.
  intros Htg HF.
  destruct (crossing (lunations tz (u + ES.msPerHour)) tg Htg)
    as (k & Hk & Hf).
  rewrite Forall_forall in HF.
  assert (Hin : In (distanceAt tz 'tg
                      (u + ES.msPerHour + 2 * Z.of_nat (Z.to_nat k) * ES.msPerHour))
                  (List.map (distanceAt tz 'tg) (coarseTimes u))).
  { apply in_map. unfold coarseTimes.
    apply (in_map (fun k => u + ES.msPerHour + 2 * Z.of_nat k * ES.msPerHour)%Z).
    apply in_seq. lia. }
  apply HF in Hin. rewrite distance_close in Hin; [discriminate|].
  rewrite Z2Nat.id by lia.
  assert (E : (lunations tz (u + ES.msPerHour + 2 * k * ES.msPerHour)
               == lunations tz (u + ES.msPerHour) + inject_Z k * scanStep)%Q).
  { rewrite lunations_hours, inject_Z_mult. change (inject_Z 2) with 2%Q.
    unfold scanStep. field. }
  rewrite (fraction_comp _ _ E). exact Hf.
Qed.

Lemma scanFails_never (tg : Q) (u : Z) :
  (0 <= tg <= 0.5)%Q -> ~ scanFails tz 'tg u.
Proof. intros Htg [_ HF]. exact (scan_finds tg u Htg HF). Qed.

End ScanFinds.

(** ** How close the refinement comes *)

Lemma ltb_false_trans (p q : Q) (z : number) :
  ('p <? 'q) = false -> ('p <? z) = true -> ('q <? z) = true.
Proof.
  intros H1 H2. destruct z as [|s|r].
  - discriminate H2.
  - exact H2.
  - apply ltb_Fin_false in H1. apply ltb_Fin in H2. apply ltb_Fin. lraQ.
Qed.

(** A phase at a wrapped distance below [b] of the target is the target
    plus an offset below [b], up to a whole number of months. *)
Lemma distance_offset (y v tg d b : Q) :
  (0 <= tg <= 0.5)%Q -> (v == fraction y)%Q ->
  phaseDiff 'v 'tg = 'd -> (d < b)%Q -> (b <= 0.5)%Q ->
  exists (n : Z) (e : Q),
    (y == inject_Z n + tg + e)%Q /\ (- b < e < b)%Q.
Proof.
  intros Htg Ev Hd Hlt Hb.
  pose proof (fraction_range y) as R. rewrite <- Ev in R.
  unfold fraction in Ev.
  unfold phaseDiff in Hd. cbn [Num.sub Num.add Num.neg Num.abs] in Hd.
  cbv zeta in Hd. unfold Num.gtb in Hd.
  destruct ('0.5 <? '(Qabs (v + - tg))) eqn:C.
  - apply ltb_Fin in C. cbn [Num.sub Num.add Num.neg] in Hd.
    assert (Hq : (1 + - Qabs (v + - tg))%Q = d) by congruence.
    clear Hd. subst d.
    assert (P : (0 <= v + - tg)%Q).
    { destruct (Qlt_le_dec (v + - tg) 0) as [N|P]; [|exact P].
      rewrite Qabs_neg in C by lraQ. lraQ. }
    assert (A : (Qabs (v + - tg) == v + - tg)%Q) by now apply Qabs_pos.
    exists (Qfloor y + 1)%Z, (v - tg - 1)%Q.
    rewrite inject_Z_plus. change (inject_Z 1) with 1%Q. split; [|split]; lraQ.
  - apply ltb_Fin_false in C.
    assert (Hq : Qabs (v + - tg) = d) by congruence.
    clear Hd. subst d.
    apply Qabs_Qlt_condition in Hlt.
    exists (Qfloor y), (v - tg)%Q. split; [|split]; lraQ.
Qed.

Lemma offset_distance (y v tg e b : Q) (n : Z) :
  (0 <= tg <= 0.5)%Q -> (v == fraction y)%Q ->
  (y == inject_Z n + tg + e)%Q -> (- b < e < b)%Q -> (b <= 0.5)%Q ->
  (phaseDiff 'v 'tg <? 'b) = true.
Proof.
  intros Htg Ev Ey He Hb.
  assert (V : (v == tg + e)%Q \/ (v == tg + e + 1)%Q).
  { destruct (Qlt_le_dec (tg + e) 0) as [N|P].
    - right. rewrite Ev. unfold fraction.
      rewrite (Qfloor_unique y (n - 1)).
      + unfold Z.sub. rewrite inject_Z_plus.
        change (inject_Z (- (1))) with (-1)%Q. lraQ.
      + unfold Z.sub. rewrite inject_Z_plus.
        change (inject_Z (- (1))) with (-1)%Q. split; lraQ.
    - left. rewrite Ev. unfold fraction.
      rewrite (Qfloor_unique y n) by (split; lraQ). lraQ. }
  unfold phaseDiff. cbn [Num.sub Num.add Num.neg Num.abs]. cbv zeta.
  unfold Num.gtb.
  destruct V as [V|V].
  - assert (A : (Qabs (v + - tg) < b)%Q)
      by (apply Qabs_Qlt_condition; split; lraQ).
    rewrite (proj2 (ltb_Fin_false _ _)) by lraQ.
    now apply ltb_Fin.
  - assert (A : (Qabs (v + - tg) == v + - tg)%Q)
      by (apply Qabs_pos; lraQ).
    rewrite (proj2 (ltb_Fin _ _)) by lraQ.
    cbn [Num.sub Num.add Num.neg]. apply ltb_Fin. lraQ.
Qed.

(** Within 24 steps of 30 minutes an offset below 0.02 comes below
    0.0031. *)
Lemma refine_choice (e : Q) :
  (-0.02 < e < 0.02)%Q ->
  exists m : Z,
    (-24 <= m <= 24)%Z
    /\ (-0.0031 < e + inject_Z m * refineStep < 0.0031)%Q.
Proof.
  intros He.
  assert (E : (refineStep == 100000000 # 141746825664)%Q) by reflexivity.
  set (k := Qfloor (e * 1417.46825664)).
  pose proof (Qfloor_le (e * 1417.46825664)) as F1.
  pose proof (Qlt_floor (e * 1417.46825664)) as F2. fold k in F1, F2.
  rewrite inject_Z_plus in F2. change (inject_Z 1) with 1%Q in F2.
  destruct (Z_lt_le_dec 24 k) as [Hi|Hi].
  - exists (-24)%Z. split; [lia|]. rewrite E.
    change (inject_Z (-24)) with (-24)%Q.
    assert (25 <= inject_Z k)%Q
      by (change 25%Q with (inject_Z 25); rewrite <- Zle_Qle; lia).
    split; lraQ.
  - destruct (Z_lt_le_dec k (-24)) as [Lo|Lo].
    + exists 24%Z. split; [lia|]. rewrite E.
      change (inject_Z 24) with 24%Q.
      assert (inject_Z k <= -25)%Q
        by (change (-25)%Q with (inject_Z (-25)); rewrite <- Zle_Qle; lia).
      split; lraQ.
    + exists (- k)%Z. split; [lia|]. rewrite E, inject_Z_opp.
      split; lraQ.
Qed.

Section Refinement.

Variable tz : Z.

Lemma lunations_minutes (t m : Z) :
  (lunations tz (t + m * ES.msPerMinute)
   == lunations tz t + inject_Z m / (1440 * 29.53058868))%Q.
Proof.
  unfold lunations, localSeconds, LocalTime, ES.msPerMinute.
  cbn [offsetAt offsetOf fixedOffset].
  replace ((t + m * 60000 + tz) / 1000)%Z with ((t + tz) / 1000 + m * 60)%Z.
  - rewrite inject_Z_plus, inject_Z_mult. change (inject_Z 60) with 60%Q.
    field.
  - Z.div_mod_to_equations. lia.
Qed.

Lemma atDistance_finite (tg : Q) (date : Date) (diff : number) :
  atDistance tz 'tg date diff -> exists d : Q, diff = 'd.
Proof.
  intros (p & Hp & <-).
  destruct (moonPhase_returns_finite tz _ _ Hp) as [v ->].
  apply phaseDiff_finite.
Qed.

Lemma refineLoop_improves (a : Z) (tg bound : Q) (m0 : Z)
  (minutesLeft : list Z) :
  In m0 minutesLeft ->
  (forall v : number,
      moonPhase tz (TimeClip (Num.of_Z (a + m0 * ES.msPerMinute))) = Ok v ->
      (phaseDiff v 'tg <? 'bound) = true) ->
  forall (bestDate : Date) (bestDiff : number) (d : Date),
    atDistance tz 'tg bestDate bestDiff ->
    refineLoop tz (TimeValue a) 'tg (List.map Num.of_Z minutesLeft)
      bestDate bestDiff = Ok d ->
    exists diff : number,
      atDistance tz 'tg d diff /\ (diff <? 'bound) = true.
Proof.
  intros Hin Hm0.
  induction minutesLeft as [|m rest IH]; [contradiction|].
  intros bestDate bestDiff d Hbest Hrun.
  cbn [List.map refineLoop] in Hrun. rewrite newDate_minutes in Hrun.
  destruct (moonPhase tz (TimeClip (Num.of_Z (a + m * ES.msPerMinute))))
    as [v|err] eqn:Hv; [|discriminate].
  cbn [bind] in Hrun. unfold copyDate in Hrun.
  assert (Hcur : atDistance tz 'tg
                   (TimeClip (Num.of_Z (a + m * ES.msPerMinute)))
                   (phaseDiff v 'tg))
    by (exists v; split; [exact Hv | reflexivity]).
  destruct Hin as [->|Hin].
  - specialize (Hm0 v Hv).
    destruct (atDistance_finite tg _ _ Hcur) as [dq Hdq].
    destruct (atDistance_finite tg _ _ Hbest) as [bq Hbq].
    rewrite Hdq, Hbq in *.
    destruct ('dq <? 'bq) eqn:L.
    + exact (refineLoop_distance tz 'tg _ 'bound _ _ _ _ Hcur Hm0 Hrun).
    + exact (refineLoop_distance tz 'tg _ 'bound _ _ _ _ Hbest
               (ltb_false_trans _ _ _ L Hm0) Hrun).
  - destruct (phaseDiff v 'tg <? bestDiff).
    + exact (IH Hin _ _ _ Hcur Hrun).
    + exact (IH Hin _ _ _ Hbest Hrun).
Qed.

Lemma refinePhaseDate_accurate (tg : Q) (bestDate : Date) (bestDiff : number)
  (d : Date) :
  (0 <= tg <= 0.5)%Q ->
  atDistance tz 'tg bestDate bestDiff -> (bestDiff <? '0.02) = true ->
  refinePhaseDate tz bestDate 'tg = Ok d ->
  exists diff : number,
    atDistance tz 'tg d diff /\ (diff <? '0.0031) = true.
Proof.
  intros Htg Hbest Hlt Hrun.
  destruct Hbest as (p & Hp & Hdiff).
  destruct (moonPhase_Ok_valid _ _ _ Hp) as [a ->].
  destruct (moonPhase_Ok_value tz a p Hp) as (va & -> & Eva & _).
  destruct (phaseDiff_finite va tg) as [dq Hdq].
  rewrite Hdq in Hdiff. subst bestDiff. apply ltb_Fin in Hlt.
  destruct (distance_offset (lunations tz a) va tg dq 0.02 Htg Eva Hdq Hlt)
    as (n & e & Ey & He); [discriminate|].
  destruct (refine_choice e He) as (m & Hm & Hoff).
  unfold refinePhaseDate, copyDate in Hrun. rewrite Hp in Hrun.
  cbn [bind] in Hrun. rewrite refineMinutes_integers in Hrun.
  apply (refineLoop_improves a tg 0.0031 (30 * m)) in Hrun; [exact Hrun| | |].
  - apply in_map_iff. exists (Z.to_nat (m + 24)). split.
    + rewrite Z2Nat.id by lia. lia.
    + apply in_seq. lia.
  - intros v Hv.
    destruct (moonPhase_Ok_valid _ _ _ Hv) as [t Ht]. rewrite Ht in Hv.
    destruct (TimeClip_of_Z_valid _ _ Ht) as [-> _].
    destruct (moonPhase_Ok_value tz _ v Hv) as (w & -> & Ew & _).
    apply (offset_distance
             (lunations tz (a + 30 * m * ES.msPerMinute)) w tg
             (e + inject_Z m * refineStep) 0.0031 n Htg Ew);
      [|exact Hoff | discriminate].
    rewrite lunations_minutes, Ey, inject_Z_mult.
    change (inject_Z 30) with 30%Q. unfold refineStep. field.
  - exists 'va. split; [exact Hp | reflexivity].
Qed.

End Refinement.

Section ScanEnds.

Variable tz : Z.

(** A scan that returns a date has refined a date at a distance below
    0.02, or has seen all its distances. *)
Lemma scanLoop_close (t0 : Z) (tg : Q) (name : string) (hoursLeft : list Z) :
  forall (bestDate : Date) (b : Q) (d : Date),
    (0.02 <= b)%Q ->
    scanLoop tz (TimeValue t0) 'tg name (List.map Num.of_Z hoursLeft)
      bestDate 'b = Ok d ->
    (exists (found : Date) (diff : number),
        atDistance tz 'tg found diff /\ (diff <? '0.02) = true
        /\ refinePhaseDate tz found 'tg = Ok d)
    \/ Forall (fun d => ('0.02 <=? d) = true)
         (List.map (fun h => distanceAt tz 'tg (t0 + h * ES.msPerHour)%Z)
            hoursLeft).
Proof.
  induction hoursLeft as [|h rest IH]; intros bestDate b d Hb Hrun.
  - right. constructor.
  - cbn [List.map scanLoop] in Hrun. rewrite newDate_hours in Hrun.
    destruct (moonPhase tz (TimeClip (Num.of_Z (t0 + h * ES.msPerHour))))
      as [v|e] eqn:Hv; [|discriminate]. cbn [bind] in Hrun.
    assert (Hd : distanceAt tz 'tg (t0 + h * ES.msPerHour)
                 = phaseDiff v 'tg)
      by (unfold distanceAt, phaseAt, newDate; now rewrite Hv).
    assert (Hcur : atDistance tz 'tg
                     (TimeClip (Num.of_Z (t0 + h * ES.msPerHour)))
                     (phaseDiff v 'tg))
      by (exists v; split; [exact Hv | reflexivity]).
    cbn [List.map]. rewrite Hd. unfold copyDate in Hrun.
    destruct (moonPhase_returns_finite _ _ _ Hv) as [vq ->].
    destruct (phaseDiff_finite vq tg) as [dq Hdq]. rewrite Hdq in *.
    destruct (Qlt_le_dec dq b) as [L|G].
    + rewrite (proj2 (ltb_Fin _ _) L) in Hrun.
      destruct (Qlt_le_dec dq 0.02) as [L2|G2].
      * rewrite (proj2 (ltb_Fin _ _) L2) in Hrun. left.
        exists (TimeClip (Num.of_Z (t0 + h * ES.msPerHour))), 'dq.
        split; [exact Hcur|]. split; [now apply ltb_Fin | exact Hrun].
      * rewrite (proj2 (ltb_Fin_false _ _) G2) in Hrun.
        destruct (IH _ _ _ G2 Hrun) as [H|H]; [now left | right].
        constructor; [now apply leb_Fin | exact H].
    + rewrite (proj2 (ltb_Fin_false _ _) G) in Hrun.
      rewrite (proj2 (ltb_Fin_false b 0.02) Hb) in Hrun.
      destruct (IH _ _ _ Hb Hrun) as [H|H]; [now left | right].
      constructor; [apply leb_Fin; lraQ | exact H].
Qed.

Lemma findNextPhase_close (u : Z) (tg : Q) (name : string) (d : Date) :
  (0 <= tg <= 0.5)%Q ->
  findNextPhase tz (TimeValue u) 'tg name = Ok d ->
  exists diff : number, atDistance tz 'tg d diff /\ (diff <? '0.0031) = true.
Proof.
  intros Htg Hrun. rewrite findNextPhase_start in Hrun.
  destruct (TimeClip (Num.of_Z (u + ES.msPerHour))) as [|t0] eqn:Hclip.
  - rewrite scanHours_integers in Hrun.
    change (seq 0 367) with (0%nat :: seq 1 366) in Hrun.
    cbn [List.map] in Hrun. rewrite scanLoop_Invalid in Hrun. discriminate.
  - destruct (TimeClip_of_Z_valid _ _ Hclip) as [-> _].
    rewrite scanHours_integers in Hrun.
    apply scanLoop_close in Hrun; [|lraQ].
    destruct Hrun as [(found & diff & Hfound & Hlt & Hrun)|H].
    + exact (refinePhaseDate_accurate tz tg found diff d Htg Hfound Hlt Hrun).
    + exfalso. apply (scan_finds tz tg u Htg). rewrite coarseDistances.
      exact H.
Qed.

(** One hour after a date at a distance below 0.0031 of the target the
    distance is below 0.02. *)
Lemma hour_after (tg : Q) (td : Z) (diff v : number) :
  (0 <= tg <= 0.5)%Q ->
  atDistance tz 'tg (TimeValue td) diff -> (diff <? '0.0031) = true ->
  moonPhase tz (TimeValue (td + ES.msPerHour)) = Ok v ->
  (phaseDiff v 'tg <? '0.02) = true.
Proof.
  intros Htg (p & Hp & Hdiff) Hlt Hv.
  destruct (moonPhase_Ok_value tz td p Hp) as (vd & -> & Evd & _).
  destruct (phaseDiff_finite vd tg) as [dq Hdq].
  rewrite Hdq in Hdiff. subst diff. apply ltb_Fin in Hlt.
  destruct (distance_offset (lunations tz td) vd tg dq 0.0031 Htg Evd Hdq Hlt)
    as (n & e & Ey & He); [discriminate|].
  destruct (moonPhase_Ok_value tz _ v Hv) as (w & -> & Ew & _).
  assert (E : (scanStep == 100000000 # 35436706416)%Q) by reflexivity.
  apply (offset_distance (lunations tz (td + ES.msPerHour)) w tg
           (e + scanStep * (1 # 2)) 0.02 n Htg Ew); [| | discriminate].
  - replace (td + ES.msPerHour)%Z with (td + 1 * ES.msPerHour)%Z by lia.
    rewrite lunations_hours, Ey. change (inject_Z 1) with 1%Q.
    unfold scanStep. field.
  - rewrite E. split; lraQ.
Qed.

End ScanEnds.

(** X3.  The error of a search that finds no phase is never raised:
    whatever the date and the offset of the host, [nextNewMoon] and
    [nextFullMoon] do not fail with PhaseNotFound. *)
Theorem nextPhase_always_found (tz : Z) (fromDate : Date) :
  ~ failsWith (nextNewMoon tz fromDate) PhaseNotFound
  /\ ~ failsWith (nextFullMoon tz fromDate) PhaseNotFound.
Proof.
  destruct fromDate as [|u].
  - split; apply InvalidInput_not_PhaseNotFound; reflexivity.
  - split; unfold nextNewMoon, nextFullMoon; cbn [validateDate getTime
      Num.of_Z Num.isNaN bind]; rewrite findNextPhase_fails;
      apply scanFails_never; split; discriminate.
Qed.

(** Where the offset never changes: when every instant that a search may
    sample is a representable date of local year -4712 or later,
    [nextNewMoon] and [nextFullMoon] return a date, and the phase of that
    date is at a wrapped distance below 0.0031 of the target. *)
Lemma nextPhase_close (tz u : Z) :
  searchable tz u ->
  (exists (d : Date) (p : number),
      nextNewMoon tz (TimeValue u) = Ok d
      /\ moonPhase tz d = Ok p /\ (phaseDiff p '0 <? '0.0031) = true)
  /\ (exists (d : Date) (p : number),
         nextFullMoon tz (TimeValue u) = Ok d
         /\ moonPhase tz d = Ok p /\ (phaseDiff p '0.5 <? '0.0031) = true).
Proof.
  intro Hs.
  assert (H0 : (0 <= 0 <= 0.5)%Q) by (split; discriminate).
  assert (H5 : (0 <= 0.5 <= 0.5)%Q) by (split; discriminate).
  split.
  - destruct (findNextPhase_returns tz u 0 "new moon" Hs
                (scanFails_never tz 0 u H0)) as [d Hd].
    destruct (findNextPhase_close tz u 0 "new moon" d H0 Hd)
      as (diff & (p & Hp & <-) & Hlt).
    exists d, p. unfold nextNewMoon. cbn [validateDate getTime Num.of_Z
      Num.isNaN bind]. auto.
  - destruct (findNextPhase_returns tz u 0.5 "full moon" Hs
                (scanFails_never tz 0.5 u H5)) as [d Hd].
    destruct (findNextPhase_close tz u 0.5 "full moon" d H5 Hd)
      as (diff & (p & Hp & <-) & Hlt).
    exists d, p. unfold nextFullMoon. cbn [validateDate getTime Num.of_Z
      Num.isNaN bind]. auto.
Qed.

(** ** A host between two changes of its clocks *)

(** Where the clocks do not change, the calculator does what it does on
    a host whose offset never changes. *)

(** [findPhaseEvents] on two valid dates, as the loop it runs. *)
Lemma findPhaseEvents_loop (zone : Zone) (st en : Z) (fuel : nat) :
  findPhaseEvents zone fuel (TimeValue st) (TimeValue en)
  = eventsLoop zone fuel (TimeValue st) (TimeValue en)
      '(inject_Z en + 2 * 24 * 60 * 60 * 1000)
      (setDate zone (TimeValue st)
         (getDate zone (TimeValue st) + Num.of_Z (-2))) [].
Proof. reflexivity. Qed.

Section Steady.

Variable zone : Zone.
Variable tz lo hi : Z.

Hypothesis clocks : steady zone tz lo hi.

Lemma steady_LocalTime (t : Z) :
  (lo <= t <= hi)%Z -> LocalTime zone t = (t + tz)%Z.
Proof.
  intro H. unfold LocalTime. now rewrite (proj1 (clocks t H)).
Qed.

Lemma steady_UTC (t : Z) : (lo <= t <= hi)%Z -> UTC zone (t + tz) = t.
Proof.
  intro H. unfold UTC. rewrite (proj2 (clocks t H)). lia.
Qed.

Lemma steady_getter (f : Z -> Z) (t : Z) :
  (lo <= t <= hi)%Z -> getter zone f (TimeValue t) = getter tz f (TimeValue t).
Proof.
  intro H. unfold getter. rewrite (steady_LocalTime t H). reflexivity.
Qed.

Lemma steady_moonPhase (t : Z) :
  (lo <= t <= hi)%Z ->
  moonPhase zone (TimeValue t) = moonPhase tz (TimeValue t).
Proof.
  intro H.
  unfold moonPhase, getFullYear, getMonth, getDate, getHours, getMinutes,
    getSeconds.
  now rewrite !(steady_getter _ t H).
Qed.

Lemma steady_moonPhase_clip (x : Z) :
  (lo <= x <= hi)%Z ->
  moonPhase zone (TimeClip (Num.of_Z x)) = moonPhase tz (TimeClip (Num.of_Z x)).
Proof.
  intro H. destruct (TimeClip (Num.of_Z x)) as [|t] eqn:E; [reflexivity|].
  destruct (TimeClip_of_Z_valid _ _ E) as [-> _]. now apply steady_moonPhase.
Qed.

Lemma steady_setHours (u k : Z) :
  (lo <= u <= hi)%Z -> (lo <= u + k * ES.msPerHour <= hi)%Z ->
  setHours zone (TimeValue u) (getHours zone (TimeValue u) + Num.of_Z k)
  = TimeClip (Num.of_Z (u + k * ES.msPerHour)).
Proof.
  intros Hu Hk. rewrite setHours_local, (steady_LocalTime u Hu).
  replace (u + tz + k * ES.msPerHour)%Z with (u + k * ES.msPerHour + tz)%Z
    by lia.
  now rewrite (steady_UTC _ Hk).
Qed.

Lemma steady_setDate (u k : Z) :
  (lo <= u <= hi)%Z -> (lo <= u + k * ES.msPerDay <= hi)%Z ->
  setDate zone (TimeValue u) (getDate zone (TimeValue u) + Num.of_Z k)
  = TimeClip (Num.of_Z (u + k * ES.msPerDay)).
Proof.
  intros Hu Hk. rewrite setDate_local, (steady_LocalTime u Hu).
  replace (u + tz + k * ES.msPerDay)%Z with (u + k * ES.msPerDay + tz)%Z
    by lia.
  now rewrite (steady_UTC _ Hk).
Qed.

Lemma steady_supportedInstant (t : Z) :
  (lo <= t <= hi)%Z -> supportedInstant zone t <-> supportedInstant tz t.
Proof.
  intro H. unfold supportedInstant. rewrite (steady_LocalTime t H).
  unfold LocalTime. cbn [offsetAt fixedOffset]. reflexivity.
Qed.

(** *** The searches *)

Lemma steady_refineLoop (a : Z) (targetPhase : number)
  (minutesLeft : list number) :
  (lo <= a - 720 * ES.msPerMinute)%Z -> (a + 720 * ES.msPerMinute <= hi)%Z ->
  Forall (fun minutes =>
            exists m : Z, minutes = Num.of_Z m /\ (-720 <= m <= 720)%Z)
    minutesLeft ->
  forall (bestDate : Date) (bestDiff : number),
    refineLoop zone (TimeValue a) targetPhase minutesLeft bestDate bestDiff
    = refineLoop tz (TimeValue a) targetPhase minutesLeft bestDate bestDiff.
Proof.
  intros Hlo Hhi.
  induction 1 as [|minutes rest [m [-> Hm]] _ IH]; intros bestDate bestDiff;
    [reflexivity|].
  cbn [refineLoop]. rewrite newDate_minutes.
  rewrite steady_moonPhase_clip by (unfold ES.msPerMinute in *; lia).
  destruct (moonPhase tz (TimeClip (Num.of_Z (a + m * ES.msPerMinute))))
    as [phase|e]; cbn [bind]; [|reflexivity].
  destruct (phaseDiff phase targetPhase <? bestDiff); apply IH.
Qed.

Lemma steady_refinePhaseDate (date : Date) (targetPhase : number) :
  (date = Invalid
   \/ exists a : Z,
       date = TimeValue a
       /\ (lo <= a - 720 * ES.msPerMinute)%Z
       /\ (a + 720 * ES.msPerMinute <= hi)%Z) ->
  refinePhaseDate zone date targetPhase = refinePhaseDate tz date targetPhase.
Proof.
  intros [->|(a & -> & Hlo & Hhi)]; [reflexivity|].
  unfold refinePhaseDate, copyDate.
  rewrite steady_moonPhase by (unfold ES.msPerMinute in *; lia).
  destruct (moonPhase tz (TimeValue a)) as [phase0|e]; cbn [bind];
    [|reflexivity].
  now apply steady_refineLoop; [| |exact refineMinutes_range].
Qed.

Lemma steady_scanLoop (t0 : Z) (targetPhase : number) (name : string)
  (hoursLeft : list number) :
  (lo <= t0 - 720 * ES.msPerMinute)%Z ->
  (t0 + 732 * ES.msPerHour + 720 * ES.msPerMinute <= hi)%Z ->
  Forall (fun hours => exists h : Z, hours = Num.of_Z h /\ (0 <= h <= 732)%Z)
    hoursLeft ->
  forall (bestDate : Date) (bestDiff : number),
    (bestDate = Invalid
     \/ exists tb : Z,
         bestDate = TimeValue tb
         /\ (t0 <= tb <= t0 + 732 * ES.msPerHour)%Z) ->
    scanLoop zone (TimeValue t0) targetPhase name hoursLeft bestDate bestDiff
    = scanLoop tz (TimeValue t0) targetPhase name hoursLeft bestDate bestDiff.
Proof.
  intros Hlo Hhi.
  assert (R : forall bestDate : Date,
             (bestDate = Invalid
              \/ exists tb : Z,
                  bestDate = TimeValue tb
                  /\ (t0 <= tb <= t0 + 732 * ES.msPerHour)%Z) ->
             refinePhaseDate zone bestDate targetPhase
             = refinePhaseDate tz bestDate targetPhase).
  { intros bestDate [->|(tb & -> & Htb)]; apply steady_refinePhaseDate;
      [now left | right]. exists tb. split; [reflexivity|].
    unfold ES.msPerHour, ES.msPerMinute in *. lia. }
  induction 1 as [|hours rest [h [-> Hh]] _ IH];
    intros bestDate bestDiff Hbest.
  - cbn [scanLoop]. destruct (bestDiff <? '0.1); [now apply R | reflexivity].
  - cbn [scanLoop]. rewrite newDate_hours.
    rewrite steady_moonPhase_clip
      by (unfold ES.msPerHour, ES.msPerMinute in *; lia).
    destruct (moonPhase tz (TimeClip (Num.of_Z (t0 + h * ES.msPerHour))))
      as [phase|e] eqn:Hphase; cbn [bind]; [|reflexivity].
    destruct (moonPhase_Ok_valid _ _ _ Hphase) as [t Ht].
    destruct (TimeClip_of_Z_valid _ _ Ht) as [-> _].
    rewrite Ht. unfold copyDate.
    assert (Hcur : TimeValue (t0 + h * ES.msPerHour) = Invalid
                   \/ exists tb : Z,
                       TimeValue (t0 + h * ES.msPerHour) = TimeValue tb
                       /\ (t0 <= tb <= t0 + 732 * ES.msPerHour)%Z).
    { right. eexists. split; [reflexivity | unfold ES.msPerHour; lia]. }
    destruct (phaseDiff phase targetPhase <? bestDiff).
    + destruct (phaseDiff phase targetPhase <? '0.02);
        [now apply R | now apply IH].
    + destruct (bestDiff <? '0.02); [now apply R | now apply IH].
Qed.

Lemma steady_findNextPhase (u : Z) (targetPhase : number) (name : string) :
  (lo <= u - 11 * ES.msPerHour)%Z -> (u + 745 * ES.msPerHour <= hi)%Z ->
  findNextPhase zone (TimeValue u) targetPhase name
  = findNextPhase tz (TimeValue u) targetPhase name.
Proof.
  intros Hlo Hhi. rewrite (findNextPhase_start tz).
  unfold findNextPhase, copyDate.
  change (getHours zone (TimeValue u) + '1)
    with (getHours zone (TimeValue u) + Num.of_Z 1).
  cbv zeta.
  rewrite !steady_setHours, !Z.mul_1_l by (unfold ES.msPerHour in *; lia).
  destruct (TimeClip (Num.of_Z (u + ES.msPerHour))) as [|t0] eqn:E.
  - rewrite scanHours_values. simpl List.map. now rewrite !scanLoop_Invalid.
  - destruct (TimeClip_of_Z_valid _ _ E) as [-> _].
    apply steady_scanLoop; [| |exact scanHours_range|].
    + unfold ES.msPerHour, ES.msPerMinute in *. lia.
    + unfold ES.msPerHour, ES.msPerMinute in *. lia.
    + right. eexists. split; [reflexivity | unfold ES.msPerHour; lia].
Qed.

Lemma steady_searchable (u : Z) :
  (lo <= u - 11 * ES.msPerHour)%Z -> (u + 745 * ES.msPerHour <= hi)%Z ->
  searchable zone u -> searchable tz u.
Proof.
  intros Hlo Hhi Hs t Ht. apply steady_supportedInstant; [|now apply Hs].
  unfold ES.msPerHour, ES.msPerMinute in *. lia.
Qed.

(** *** The events *)

Lemma steady_eventsStep (st en s : Z) (events : list PhaseEvent) :
  (lo <= s - ES.msPerDay)%Z -> (s + ES.msPerDay <= hi)%Z ->
  eventsStep zone (TimeValue st) (TimeValue en) (TimeValue s) events
  = eventsStep tz (TimeValue st) (TimeValue en) (TimeValue s) events.
Proof.
  intros Hlo Hhi. unfold eventsStep, copyDate.
  change (getDate zone (TimeValue s) - '1)
    with (getDate zone (TimeValue s) + Num.of_Z (-1)).
  change (getDate zone (TimeValue s) + '1)
    with (getDate zone (TimeValue s) + Num.of_Z 1).
  change (getDate tz (TimeValue s) - '1)
    with (getDate tz (TimeValue s) + Num.of_Z (-1)).
  change (getDate tz (TimeValue s) + '1)
    with (getDate tz (TimeValue s) + Num.of_Z 1).
  rewrite !steady_setDate by (unfold ES.msPerDay in *; lia).
  rewrite !setDate_shift.
  rewrite steady_moonPhase by (unfold ES.msPerDay in *; lia).
  now rewrite !steady_moonPhase_clip by (unfold ES.msPerDay in *; lia).
Qed.

Lemma steady_eventsLoop (st en : Z) (q : Q) (fuel : nat) :
  (q == inject_Z (en + 2 * ES.msPerDay))%Q ->
  (en + 3 * ES.msPerDay <= hi)%Z ->
  forall (searchDate : Date) (events : list PhaseEvent),
    (searchDate = Invalid
     \/ exists s : Z, searchDate = TimeValue s /\ (lo + ES.msPerDay <= s)%Z) ->
    eventsLoop zone fuel (TimeValue st) (TimeValue en) 'q searchDate events
    = eventsLoop tz fuel (TimeValue st) (TimeValue en) 'q searchDate events.
Proof.
  intros Hq Hhi. induction fuel as [|fuel IH]; intros searchDate events Hs;
    [reflexivity|].
  cbn [eventsLoop]. destruct (getTime searchDate <=? 'q) eqn:C; [|reflexivity].
  destruct Hs as [->|(s & -> & Hs)]; [discriminate C|].
  apply (loop_condition _ _ _ Hq) in C.
  rewrite steady_eventsStep by (unfold ES.msPerDay in *; lia).
  destruct (eventsStep tz (TimeValue st) (TimeValue en) (TimeValue s) events)
    as [[events' searchDate']|e] eqn:Hstep; [|reflexivity].
  apply eventsStep_Ok in Hstep. destruct Hstep as [-> _]. apply IH.
  destruct (TimeClip (Num.of_Z (s + ES.msPerDay))) as [|s'] eqn:E;
    [now left | right].
  destruct (TimeClip_of_Z_valid _ _ E) as [-> _].
  eexists. split; [reflexivity | unfold ES.msPerDay in *; lia].
Qed.

Lemma steady_findPhaseEvents (st en : Z) (fuel : nat) :
  (lo <= st - 3 * ES.msPerDay)%Z -> (st <= hi)%Z ->
  (en + 3 * ES.msPerDay <= hi)%Z ->
  findPhaseEvents zone fuel (TimeValue st) (TimeValue en)
  = findPhaseEvents tz fuel (TimeValue st) (TimeValue en).
Proof.
  intros Hlo Hst Hhi. rewrite !findPhaseEvents_loop.
  rewrite steady_setDate by (unfold ES.msPerDay in *; lia).
  rewrite setDate_shift.
  apply steady_eventsLoop; [| exact Hhi |].
  - rewrite inject_Z_plus. unfold ES.msPerDay.
    change (inject_Z (2 * 86400000)) with (2 * 24 * 60 * 60 * 1000)%Q.
    reflexivity.
  - destruct (TimeClip (Num.of_Z (st + -2 * ES.msPerDay))) as [|s'] eqn:Ec;
      [now left | right].
    destruct (TimeClip_of_Z_valid _ _ Ec) as [-> _].
    eexists. split; [reflexivity | unfold ES.msPerDay in *; lia].
Qed.

End Steady.

(** ** The searches on any host *)

Lemma lordHowe1996_steady (lo hi : Z) :
  (846343800000 <= lo)%Z -> steady lordHowe1996 39600000 lo hi.
Proof.
  intros Hlo t Ht. unfold lordHowe1996, clockChange. cbn [offsetAt offsetOf].
  change (Z.max 37800000 39600000) with 39600000%Z.
  destruct (Z.ltb_spec t 846343800000); [lia|].
  destruct (Z.ltb_spec (t + 39600000) (846343800000 + 39600000)); [lia|].
  split; reflexivity.
Qed.

(** X4.  How close the searches come.  On a host whose clocks do not
    change from 11 hours before [fromDate] to 745 hours after it, and
    when every instant of that window is a representable date of local
    year -4712 or later, [nextNewMoon] and [nextFullMoon] return a date,
    and the phase of that date is at a wrapped distance below 0.0031 of
    the target: the scan leaves through its early exit, and the refinement
    brings the distance from below 0.02 to below 0.0031. *)
Theorem nextPhase_returns_close (zone : Zone) (tz u : Z) :
  steady zone tz (u - 11 * ES.msPerHour) (u + 745 * ES.msPerHour) ->
  searchable zone u ->
  (exists (d : Date) (p : number),
      nextNewMoon zone (TimeValue u) = Ok d
      /\ moonPhase zone d = Ok p /\ (phaseDiff p '0 <? '0.0031) = true)
  /\ (exists (d : Date) (p : number),
         nextFullMoon zone (TimeValue u) = Ok d
         /\ moonPhase zone d = Ok p /\ (phaseDiff p '0.5 <? '0.0031) = true).
Proof.
  intros Hc Hs.
  assert (Hs' : searchable tz u)
    by (apply (steady_searchable zone tz _ _ Hc); [lia | lia | exact Hs]).
  assert (F : forall (targetPhase : number) (name : string),
             findNextPhase zone (TimeValue u) targetPhase name
             = findNextPhase tz (TimeValue u) targetPhase name)
    by (intros; apply (steady_findNextPhase zone tz _ _ Hc); lia).
  assert (M : forall (targetPhase : number) (name : string) (d : Date),
             findNextPhase tz (TimeValue u) targetPhase name = Ok d ->
             moonPhase zone d = moonPhase tz d).
  { intros targetPhase name d Hd.
    destruct (findNextPhase_window tz u _ _ _ Hd) as (td & -> & Htd).
    apply (steady_moonPhase zone tz _ _ Hc).
    unfold ES.msPerHour, ES.msPerMinute in *. lia. }
  destruct (nextPhase_close tz u Hs')
    as [(d & p & Hd & Hp & Hlt) (d' & p' & Hd' & Hp' & Hlt')].
  split.
  - exists d, p. unfold nextNewMoon in *.
    cbn [validateDate getTime Num.of_Z Num.isNaN bind] in *.
    rewrite F, (M _ _ _ Hd). auto.
  - exists d', p'. unfold nextFullMoon in *.
    cbn [validateDate getTime Num.of_Z Num.isNaN bind] in *.
    rewrite F, (M _ _ _ Hd'). auto.
Qed.

Lemma nextPhase_returns_close_witness :
  (exists (d : Date) (p : number),
      nextNewMoon lordHowe1996 (TimeValue 1700000000000) = Ok d
      /\ moonPhase lordHowe1996 d = Ok p
      /\ (phaseDiff p '0 <? '0.0031) = true)
  /\ (exists (d : Date) (p : number),
         nextFullMoon lordHowe1996 (TimeValue 1700000000000) = Ok d
         /\ moonPhase lordHowe1996 d = Ok p
         /\ (phaseDiff p '0.5 <? '0.0031) = true).
Proof.
  apply (nextPhase_returns_close lordHowe1996 39600000 1700000000000).
  - apply lordHowe1996_steady. unfold ES.msPerHour. lia.
  - intros t Ht. unfold supportedInstant, LocalTime, lordHowe1996, clockChange.
    cbn [offsetAt]. change floorTime with (-210863520000000)%Z.
    unfold ES.maxTime, ES.msPerHour, ES.msPerMinute in *.
    destruct (Z.ltb_spec t 846343800000); lia.
Defined.

(** ** A search that starts near its target *)

(** The scan of a search starts from [scanStart]. *)
Lemma findNextPhase_scan (zone : Zone) (u : Z) (targetPhase : number)
  (name : string) :
  findNextPhase zone (TimeValue u) targetPhase name
  = scanLoop zone (TimeClip (Num.of_Z (scanStart zone u))) targetPhase name
      scanHours (TimeClip (Num.of_Z (scanStart zone u))) '1.
Proof.
  unfold findNextPhase, copyDate, scanStart.
  change (getHours zone (TimeValue u) + '1)
    with (getHours zone (TimeValue u) + Num.of_Z 1).
  cbv zeta. now rewrite !setHours_local, !Z.mul_1_l.
Qed.

Lemma findNextPhase_near_start (zone : Zone) (u : Z) (tg : Q) (name : string)
  (d : Date) :
  (distanceAt zone 'tg (scanStart zone u) <? '0.02) = true ->
  findNextPhase zone (TimeValue u) 'tg name = Ok d ->
  exists td : Z,
    d = TimeValue td
    /\ (scanStart zone u - 12 * ES.msPerHour <= td
        <= scanStart zone u + 12 * ES.msPerHour)%Z.
Proof.
  intros Hnear Hrun. rewrite findNextPhase_scan in Hrun.
  unfold distanceAt, phaseAt, newDate in Hnear.
  destruct (TimeClip (Num.of_Z (scanStart zone u))) as [|t0] eqn:Hclip;
    [discriminate Hnear|].
  destruct (TimeClip_of_Z_valid _ _ Hclip) as [E _].
  rewrite scanHours_integers in Hrun.
  change (seq 0 367) with (0%nat :: seq 1 366) in Hrun.
  cbn [List.map] in Hrun. change (2 * Z.of_nat 0)%Z with 0%Z in Hrun.
  cbn [scanLoop] in Hrun. rewrite newDate_hours in Hrun.
  replace (t0 + 0 * ES.msPerHour)%Z with t0 in Hrun by lia.
  rewrite TimeClip_of_Z_in_range in Hrun
    by (rewrite E; now apply (TimeClip_of_Z_valid _ _ Hclip)).
  destruct (moonPhase zone (TimeValue t0)) as [v|e] eqn:Hv;
    [|discriminate].
  cbn [bind] in Hrun.
  assert (H1 : (phaseDiff v 'tg <? '1) = true)
    by (apply (ltb_trans _ _ _ Hnear); reflexivity).
  rewrite H1, Hnear in Hrun. unfold copyDate in Hrun.
  apply refinePhaseDate_window in Hrun.
  destruct Hrun as (a & td & [= <-] & -> & Htd).
  exists td. split; [reflexivity|]. rewrite <- E.
  unfold ES.msPerHour, ES.msPerMinute in *. lia.
Qed.

(** X5.  A search that starts near its target stays there.  When the phase
    at the instant from which the scan starts is at a wrapped distance
    below 0.0199 of the target, on either side of it (inside the 0.02 of
    the early exit by more than binary64 rounds), the date returned by
    [nextNewMoon] or [nextFullMoon] lies within 12 hours of that instant:
    it is the new or full moon at hand, also when that one has passed,
    and not the one of the next month.  The scan starts where the host
    reads the local time of [fromDate] plus one hour, which is one hour
    after [fromDate] unless the clocks change in between. *)
Theorem nextPhase_near_target (zone : Zone) (u : Z) (d : Date) :
  ((distanceAt zone '0 (scanStart zone u) <? '0.0199) = true ->
   nextNewMoon zone (TimeValue u) = Ok d ->
   exists td : Z,
     d = TimeValue td
     /\ (scanStart zone u - 12 * ES.msPerHour <= td
         <= scanStart zone u + 12 * ES.msPerHour)%Z)
  /\ ((distanceAt zone '0.5 (scanStart zone u) <? '0.0199) = true ->
      nextFullMoon zone (TimeValue u) = Ok d ->
      exists td : Z,
        d = TimeValue td
        /\ (scanStart zone u - 12 * ES.msPerHour <= td
            <= scanStart zone u + 12 * ES.msPerHour)%Z)
  /\ (offsetOf zone (LocalTime zone u + ES.msPerHour) = offsetAt zone u ->
      scanStart zone u = (u + ES.msPerHour)%Z).
Proof.
  split; [|split].
  - intros Hnear Hrun.
    assert (Hexit : (distanceAt zone '0 (scanStart zone u) <? '0.02) = true)
      by (apply (ltb_trans _ _ _ Hnear); reflexivity).
    exact (findNextPhase_near_start zone u 0 "new moon" d Hexit Hrun).
  - intros Hnear Hrun.
    assert (Hexit : (distanceAt zone '0.5 (scanStart zone u) <? '0.02) = true)
      by (apply (ltb_trans _ _ _ Hnear); reflexivity).
    exact (findNextPhase_near_start zone u 0.5 "full moon" d Hexit Hrun).
  - intro E. unfold scanStart, UTC, LocalTime in *. rewrite E. lia.
Qed.

Lemma nextPhase_near_target_witness :
  exists td : Z,
    TimeValue 846300600000 = TimeValue td
    /\ (scanStart lordHowe1996 846342000000 - 12 * ES.msPerHour <= td
        <= scanStart lordHowe1996 846342000000 + 12 * ES.msPerHour)%Z.
Proof.
  apply (proj1 (proj2 (nextPhase_near_target lordHowe1996 846342000000
                         (TimeValue 846300600000)))).
  - vm_compute. reflexivity.
  - vm_compute. reflexivity.
Defined.

Section NearTarget.

Variable tz : Z.

Lemma findNextPhase_near (u : Z) (tg : Q) (name : string) (d : Date) :
  (forall v : number,
      moonPhase tz (TimeValue (u + ES.msPerHour)) = Ok v ->
      (phaseDiff v 'tg <? '0.02) = true) ->
  findNextPhase tz (TimeValue u) 'tg name = Ok d ->
  exists td : Z,
    d = TimeValue td
    /\ (u - 11 * ES.msPerHour <= td <= u + 13 * ES.msPerHour)%Z.
Proof.
  intros Hnear Hrun. rewrite findNextPhase_start in Hrun.
  destruct (TimeClip (Num.of_Z (u + ES.msPerHour))) as [|t0] eqn:Hclip.
  { rewrite scanHours_integers in Hrun.
    change (seq 0 367) with (0%nat :: seq 1 366) in Hrun.
    cbn [List.map] in Hrun. rewrite scanLoop_Invalid in Hrun. discriminate. }
  destruct (TimeClip_of_Z_valid _ _ Hclip) as [-> _].
  rewrite scanHours_integers in Hrun.
  change (seq 0 367) with (0%nat :: seq 1 366) in Hrun.
  cbn [List.map] in Hrun. change (2 * Z.of_nat 0)%Z with 0%Z in Hrun.
  cbn [scanLoop] in Hrun. rewrite newDate_hours in Hrun.
  replace (u + ES.msPerHour + 0 * ES.msPerHour)%Z with (u + ES.msPerHour)%Z
    in Hrun by lia.
  rewrite Hclip in Hrun.
  destruct (moonPhase tz (TimeValue (u + ES.msPerHour))) as [v|e] eqn:Hv;
    [|discriminate].
  cbn [bind] in Hrun. specialize (Hnear v eq_refl).
  assert (H1 : (phaseDiff v 'tg <? '1) = true)
    by (apply (ltb_trans _ _ _ Hnear); reflexivity).
  rewrite H1, Hnear in Hrun. unfold copyDate in Hrun.
  apply refinePhaseDate_window in Hrun.
  destruct Hrun as (a & td & [= <-] & -> & Htd).
  exists td. split; [reflexivity|].
  unfold ES.msPerHour, ES.msPerMinute in *. lia.
Qed.

Lemma findNextPhase_twice (u : Z) (tg : Q) (name : string) (d d' : Date) :
  (0 <= tg <= 0.5)%Q ->
  findNextPhase tz (TimeValue u) 'tg name = Ok d ->
  (exists td : Z, d = TimeValue td)
  /\ forall td : Z,
      d = TimeValue td ->
      findNextPhase tz (TimeValue td) 'tg name = Ok d' ->
      exists td' : Z,
        d' = TimeValue td'
        /\ (td - 11 * ES.msPerHour <= td' <= td + 13 * ES.msPerHour)%Z.
Proof.
  intros Htg Hrun.
  destruct (findNextPhase_close tz u tg name d Htg Hrun) as (diff & Hd & Hlt).
  split.
  - destruct Hd as (p & Hp & _). exact (moonPhase_Ok_valid _ _ _ Hp).
  - intros td -> Hrun'. apply (findNextPhase_near td tg name d'); [|exact Hrun'].
    intros v Hv. exact (hour_after tz tg td diff v Htg Hd Hlt Hv).
Qed.

End NearTarget.

(** X6.  Searching again does not reach the next month.  From the date that
    [nextNewMoon] returned, [nextNewMoon] returns a date between 11 hours
    before it and 13 hours after it, and never the new moon that follows;
    likewise for [nextFullMoon]. *)
Theorem nextPhase_twice (tz u : Z) (d d' : Date) :
  (nextNewMoon tz (TimeValue u) = Ok d -> nextNewMoon tz d = Ok d' ->
   exists td td' : Z,
     d = TimeValue td /\ d' = TimeValue td'
     /\ (td - 11 * ES.msPerHour <= td' <= td + 13 * ES.msPerHour)%Z)
  /\ (nextFullMoon tz (TimeValue u) = Ok d -> nextFullMoon tz d = Ok d' ->
      exists td td' : Z,
        d = TimeValue td /\ d' = TimeValue td'
        /\ (td - 11 * ES.msPerHour <= td' <= td + 13 * ES.msPerHour)%Z).
Proof.
  assert (T : forall (tg : Q) (name : string),
             (0 <= tg <= 0.5)%Q ->
             findNextPhase tz (TimeValue u) 'tg name = Ok d ->
             (forall td : Z,
                 d = TimeValue td ->
                 findNextPhase tz (TimeValue td) 'tg name = Ok d') ->
             exists td td' : Z,
               d = TimeValue td /\ d' = TimeValue td'
               /\ (td - 11 * ES.msPerHour <= td'
                   <= td + 13 * ES.msPerHour)%Z).
  { intros tg name Htg H1 H2.
    destruct (findNextPhase_twice tz u tg name d d' Htg H1) as [[td Hd] W].
    destruct (W td Hd (H2 td Hd)) as (td' & Hd' & Hw).
    exists td, td'. auto. }
  split; intros H1 H2.
  - apply (T 0%Q "new moon"); [split; discriminate | exact H1|].
    intros td ->. exact H2.
  - apply (T 0.5%Q "full moon"); [split; discriminate | exact H1|].
    intros td ->. exact H2.
Qed.

Lemma nextPhase_twice_witness :
  exists td td' : Z,
    TimeValue 1702336400000 = TimeValue td
    /\ TimeValue 1702343600000 = TimeValue td'
    /\ (td - 11 * ES.msPerHour <= td' <= td + 13 * ES.msPerHour)%Z.
Proof.
  apply (proj1 (nextPhase_twice 0 1700000000000 (TimeValue 1702336400000)
                  (TimeValue 1702343600000))).
  - vm_compute. reflexivity.
  - vm_compute. reflexivity.
Defined.

(** ** daysBetween *)

Lemma toInteger_of_Z (z : Z) : toInteger (Num.of_Z z) = Some z.
Proof. unfold toInteger, Num.of_Z. now rewrite Qtrunc_inject_Z. Qed.

Lemma round_integer (q : Q) (k : Z) :
  (q == inject_Z k)%Q -> round 'q = Num.of_Z k.
Proof.
  intro E. unfold round, Num.of_Z. f_equal. f_equal.
  apply Qfloor_unique. rewrite E. split; lraQ.
Qed.

Section CalendarFacts.

Variable tz : Z.

Lemma newDateLocal_components (t : Z) :
  newDateLocal tz (getFullYear tz (TimeValue t)) (getMonth tz (TimeValue t))
    (getDate tz (TimeValue t))
  = TimeClip (Num.of_Z (calendarDay tz t * ES.msPerDay - tz)).
Proof.
  unfold newDateLocal, getFullYear, getMonth, getDate, getter.
  rewrite !toInteger_of_Z. cbv zeta. unfold calendarDay, UTC, ES.MakeDate.
  cbn [offsetAt offsetOf fixedOffset].
  cbv zeta. change (ES.MakeTime 0 0 0 0) with 0%Z. now rewrite Z.add_0_r.
Qed.

Lemma calendarDay_fullYear (t : Z) :
  fullYear tz t -> calendarDay tz t = ES.Day (LocalTime tz t).
Proof.
  intro Hy. unfold calendarDay. cbv zeta.
  replace ((0 <=? ES.YearFromTime (LocalTime tz t))
           && (ES.YearFromTime (LocalTime tz t) <=? 99))%Z with false.
  - pose proof (MakeDay_shift (LocalTime tz t) 0) as M.
    rewrite !Z.add_0_r in M. exact M.
  - symmetry. apply andb_false_iff. rewrite !Z.leb_gt.
    destruct Hy; [left | right]; lia.
Qed.

(** The time of the midnight built from an instant: an integer number of
    days less the offset of the zone, or no time at all. *)
Lemma midnight_time (t : Z) :
  getTime (TimeClip (Num.of_Z (calendarDay tz t * ES.msPerDay - tz)))
  = if (Z.abs (calendarDay tz t * ES.msPerDay - tz) <=? ES.maxTime)%Z
    then Num.of_Z (calendarDay tz t * ES.msPerDay - tz) else NaN.
Proof.
  unfold Num.of_Z at 1. rewrite (TimeClip_integer _ _ (Qeq_refl _)).
  now destruct (Z.abs _ <=? ES.maxTime)%Z.
Qed.

Lemma days_quotient (m n : Z) :
  round ((Num.of_Z (n * ES.msPerDay - tz) - Num.of_Z (m * ES.msPerDay - tz))
         / ('24 * '60 * '60 * '1000))
  = Num.of_Z (n - m).
Proof.
  unfold Num.of_Z at 1 2. cbn [Num.sub Num.add Num.neg Num.mul Num.div].
  change (Qeq_bool (24 * 60 * 60 * 1000) 0) with false. cbv iota.
  apply round_integer.
  assert (E : (inject_Z (n * ES.msPerDay - tz)
               + - inject_Z (m * ES.msPerDay - tz)
               == inject_Z (n - m) * 86400000)%Q).
  { rewrite <- inject_Z_opp, <- inject_Z_plus.
    change 86400000%Q with (inject_Z 86400000). rewrite <- inject_Z_mult.
    unfold ES.msPerDay.
    replace (n * 86400000 - tz + - (m * 86400000 - tz))%Z
      with ((n - m) * 86400000)%Z by lia.
    reflexivity. }
  rewrite E. field.
Qed.

Lemma daysBetween_TimeValue (a b : Z) :
  daysBetween tz (TimeValue a) (TimeValue b)
  = Ok (round
          ((getTime (TimeClip (Num.of_Z (calendarDay tz b * ES.msPerDay - tz)))
            - getTime
                (TimeClip (Num.of_Z (calendarDay tz a * ES.msPerDay - tz))))
           / ('24 * '60 * '60 * '1000))).
Proof.
  unfold daysBetween. cbn [validateDate getTime Num.of_Z Num.isNaN bind].
  cbv zeta. now rewrite !newDateLocal_components.
Qed.

Lemma daysBetween_cases (a b : Z) :
  (daysBetween tz (TimeValue a) (TimeValue b) = Ok NaN
   /\ ((ES.maxTime < Z.abs (calendarDay tz a * ES.msPerDay - tz))%Z
       \/ (ES.maxTime < Z.abs (calendarDay tz b * ES.msPerDay - tz))%Z))
  \/ (daysBetween tz (TimeValue a) (TimeValue b)
      = Ok (Num.of_Z (calendarDay tz b - calendarDay tz a))
      /\ (Z.abs (calendarDay tz a * ES.msPerDay - tz) <= ES.maxTime)%Z
      /\ (Z.abs (calendarDay tz b * ES.msPerDay - tz) <= ES.maxTime)%Z).
Proof.
  rewrite daysBetween_TimeValue, !midnight_time.
  destruct (Z.leb_spec (Z.abs (calendarDay tz b * ES.msPerDay - tz))
              ES.maxTime) as [Hb|Hb];
    destruct (Z.leb_spec (Z.abs (calendarDay tz a * ES.msPerDay - tz))
                ES.maxTime) as [Ha|Ha].
  - right. rewrite days_quotient. auto.
  - left. split; [reflexivity | now left].
  - left. split; [reflexivity | now right].
  - left. split; [reflexivity | now left].
Qed.

Lemma wholeDay_midnight (t : Z) :
  wholeDay t ->
  (Z.abs (ES.Day (LocalTime tz t) * ES.msPerDay - tz) <= ES.maxTime)%Z.
Proof.
  unfold wholeDay, LocalTime, ES.Day, ES.maxTime, ES.msPerDay.
  cbn [offsetAt offsetOf fixedOffset]. intro H.
  apply Z.abs_le. Z.div_mod_to_equations. lia.
Qed.

End CalendarFacts.

(** X7.  [daysBetween] counts local calendar days.  For two dates whose local
    years are not among 0 to 99 and whose local midnights are time values,
    it returns the day number of the local day of [toDate] less that of
    [fromDate], whatever the times of day. *)
Theorem daysBetween_counts_days (tz a b : Z) :
  fullYear tz a -> fullYear tz b -> wholeDay a -> wholeDay b ->
  daysBetween tz (TimeValue a) (TimeValue b)
  = Ok (Num.of_Z (ES.Day (LocalTime tz b) - ES.Day (LocalTime tz a))).
Proof.
  intros Ya Yb Wa Wb.
  pose proof (wholeDay_midnight tz a Wa) as Ma.
  pose proof (wholeDay_midnight tz b Wb) as Mb.
  rewrite <- (calendarDay_fullYear tz a Ya) in *.
  rewrite <- (calendarDay_fullYear tz b Yb) in *.
  destruct (daysBetween_cases tz a b) as [[_ [H|H]]|[H _]];
    [lia | lia | exact H].
Qed.

Lemma daysBetween_counts_days_witness :
  daysBetween 3600000 (TimeValue 1700000000000) (TimeValue 1700089200000)
  = Ok (Num.of_Z 2).
Proof.
  apply (daysBetween_counts_days 3600000 1700000000000 1700089200000).
  - right. vm_compute. reflexivity.
  - right. vm_compute. reflexivity.
  - unfold wholeDay, ES.maxTime, ES.msPerDay. lia.
  - unfold wholeDay, ES.maxTime, ES.msPerDay. lia.
Defined.

(** X8.  [daysBetween] of two valid dates never throws; it returns an integer
    or [NaN], and exchanging the dates negates the result.  The distance
    of a date to itself is 0 or [NaN]. *)
Theorem daysBetween_antisymmetric (tz a b : Z) :
  (exists x : number,
      daysBetween tz (TimeValue a) (TimeValue b) = Ok x
      /\ daysBetween tz (TimeValue b) (TimeValue a) = Ok (Num.neg x)
      /\ (x = NaN \/ exists k : Z, x = Num.of_Z k))
  /\ (daysBetween tz (TimeValue a) (TimeValue a) = Ok NaN
      \/ daysBetween tz (TimeValue a) (TimeValue a) = Ok '0).
Proof.
  split.
  - destruct (daysBetween_cases tz a b) as [[H N]|(H & Ma & Mb)].
    + exists NaN. split; [exact H|]. split; [|now left].
      destruct (daysBetween_cases tz b a) as [[H' _]|(_ & Mb & Ma)];
        [exact H' | lia].
    + exists (Num.of_Z (calendarDay tz b - calendarDay tz a)).
      split; [exact H|]. split.
      * destruct (daysBetween_cases tz b a) as [[_ N]|[H' _]]; [lia|].
        rewrite H'. unfold Num.of_Z, Num.neg, inject_Z, Qopp. cbn [Qnum Qden].
        do 3 f_equal. lia.
      * right. eexists. reflexivity.
  - destruct (daysBetween_cases tz a a) as [[H _]|[H _]]; [now left|].
    right. now rewrite H, Z.sub_diag.
Qed.

Lemma civil_year_sign (z : Z) :
  (z < -719528 <-> fst (fst (ES.civil z)) < 0)%Z.
Proof. era_split z; Z.div_mod_to_equations; lia. Qed.

Lemma civil_year_century (z : Z) :
  (-683003 <= z <-> 99 < fst (fst (ES.civil z)))%Z.
Proof. era_split z; Z.div_mod_to_equations; lia. Qed.

Lemma centuryTime_year (t : Z) :
  (centuryTime <= t <-> 99 < ES.YearFromTime t)%Z.
Proof.
  unfold ES.YearFromTime. rewrite <- civil_year_century.
  unfold centuryTime, ES.Day, ES.msPerDay.
  change (ES.daysFromCivil 100 1 1) with (-683003)%Z.
  Z.div_mod_to_equations; lia.
Qed.

(** X9.  [daysBetween] returns [NaN], and throws nothing, for a valid date
    whose local midnight is earlier than every time value: on a host east
    of Greenwich, a date of the first local day of the range. *)
Theorem daysBetween_first_day (tz a b : Z) :
  (0 < tz)%Z -> (- ES.maxTime <= a)%Z ->
  (LocalTime tz a < - ES.maxTime + ES.msPerDay)%Z ->
  validateDate (TimeValue a) "fromDate" = Ok tt
  /\ daysBetween tz (TimeValue a) (TimeValue b) = Ok NaN
  /\ daysBetween tz (TimeValue b) (TimeValue a) = Ok NaN.
Proof.
  intros Htz Ha Hlt.
  assert (Y : fullYear tz a).
  { left. apply civil_year_sign. unfold ES.Day, LocalTime, ES.maxTime,
      ES.msPerDay in *.
    cbn [offsetAt offsetOf fixedOffset] in *. Z.div_mod_to_equations. lia. }
  assert (M : (ES.maxTime < Z.abs (calendarDay tz a * ES.msPerDay - tz))%Z).
  { rewrite (calendarDay_fullYear tz a Y).
    unfold ES.Day, LocalTime, ES.maxTime, ES.msPerDay in *.
    cbn [offsetAt offsetOf fixedOffset] in *.
    Z.div_mod_to_equations. lia. }
  split; [reflexivity|]. split.
  - destruct (daysBetween_cases tz a b) as [[H _]|(_ & N & _)];
      [exact H | lia].
  - destruct (daysBetween_cases tz b a) as [[H _]|(_ & _ & N)];
      [exact H | lia].
Qed.

Lemma daysBetween_first_day_witness :
  validateDate (TimeValue (- ES.maxTime)) "fromDate" = Ok tt
  /\ daysBetween 3600000 (TimeValue (- ES.maxTime)) (TimeValue 0) = Ok NaN
  /\ daysBetween 3600000 (TimeValue 0) (TimeValue (- ES.maxTime)) = Ok NaN.
Proof.
  apply (daysBetween_first_day 3600000 (- ES.maxTime) 0).
  - lia.
  - lia.
  - unfold LocalTime, ES.maxTime, ES.msPerDay.
    cbn [offsetAt offsetOf fixedOffset]. lia.
Defined.

Section DaysAway.

Variable tz : Z.
Variable fractionToString : Q -> string.

Lemma countable_searchable (u : Z) : countable tz u -> searchable tz u.
Proof.
  intros (Hc & Hlo & Hhi) t Ht. unfold supportedInstant, LocalTime in *.
  cbn [offsetAt offsetOf fixedOffset] in *.
  change floorTime with (-210863520000000)%Z.
  change centuryTime with (-59011459200000)%Z in Hc.
  unfold ES.maxTime, ES.msPerHour, ES.msPerMinute in *. lia.
Qed.

Lemma label_of_days (n : Z) :
  (-1 <= n <= 32)%Z ->
  exists label : string,
    formatRelativeTime fractionToString (Num.of_Z n) = Ok label
    /\ ((n = -1 /\ label = "Yesterday")%Z
        \/ (n = 0 /\ label = "Today")%Z
        \/ (n = 1 /\ label = "Tomorrow")%Z
        \/ ((2 <= n <= 32)%Z
            /\ label
               = "In " ++ NilZero.string_of_int (Z.to_int n) ++ " days")).
Proof.
  intro Hn.
  assert (C : (n = -1 \/ n = 0 \/ n = 1 \/ 2 <= n <= 32)%Z) by lia.
  destruct C as [-> | [-> | [-> | C]]].
  - eexists. split; [reflexivity | auto].
  - eexists. split; [reflexivity | auto].
  - eexists. split; [reflexivity | auto 6].
  - eexists. split; [|right; right; right; split; [exact C | reflexivity]].
    unfold formatRelativeTime, Num.of_Z. cbn [Num.isNaN Num.eqb Num.gtb Num.ltb].
    assert (E0 : Qeq_bool (inject_Z n) 0 = false).
    { apply not_true_is_false. intro E. apply Qeq_bool_iff in E.
      unfold Qeq in E. cbn [Qnum Qden inject_Z] in E. lia. }
    assert (E1 : Qeq_bool (inject_Z n) 1 = false).
    { apply not_true_is_false. intro E. apply Qeq_bool_iff in E.
      unfold Qeq in E. cbn [Qnum Qden inject_Z] in E. lia. }
    assert (E2 : Qeq_bool (inject_Z n) (-1) = false).
    { apply not_true_is_false. intro E. apply Qeq_bool_iff in E.
      unfold Qeq in E. cbn [Qnum Qden inject_Z] in E. lia. }
    assert (P : Qlt_bool 0 (inject_Z n) = true).
    { apply Qlt_bool_iff. change 0%Q with (inject_Z 0). rewrite <- Zlt_Qlt.
      lia. }
    rewrite E0, E1, E2, P. unfold toString.
    assert (I : isInteger (inject_Z n) = true).
    { unfold isInteger. apply Qeq_bool_iff. now rewrite Qfloor_Z. }
    assert (B : Qle_bool (Qabs (inject_Z n)) 9007199254740992 = true).
    { apply Qle_bool_iff. rewrite Qabs_pos.
      - apply Qle_trans with (inject_Z 33); [rewrite <- Zle_Qle; lia|].
        discriminate.
      - change 0%Q with (inject_Z 0). rewrite <- Zle_Qle. lia. }
    rewrite I, B. cbn [andb]. now rewrite Qfloor_Z.
Qed.

Lemma days_away (u td : Z) :
  countable tz u ->
  (u + ES.msPerHour - 720 * ES.msPerMinute
   <= td
   <= u + ES.msPerHour + 732 * ES.msPerHour + 720 * ES.msPerMinute)%Z ->
  exists n : Z,
    daysBetween tz (TimeValue u) (TimeValue td) = Ok (Num.of_Z n)
    /\ (-1 <= n <= 32)%Z.
Proof.
  intros (Hc & Hlo & Hhi) Htd.
  exists (ES.Day (LocalTime tz td) - ES.Day (LocalTime tz u))%Z.
  assert (Yu : fullYear tz u).
  { right. apply centuryTime_year. unfold LocalTime, ES.msPerHour in *.
    cbn [offsetAt offsetOf fixedOffset] in *. lia. }
  assert (Yd : fullYear tz td).
  { right. apply centuryTime_year.
    unfold LocalTime, ES.msPerHour, ES.msPerMinute in *.
    cbn [offsetAt offsetOf fixedOffset] in *. lia. }
  assert (Mu : (Z.abs (ES.Day (LocalTime tz u) * ES.msPerDay - tz)
                <= ES.maxTime)%Z).
  { apply wholeDay_midnight.
    unfold wholeDay, ES.maxTime, ES.msPerDay, ES.msPerHour in *. lia. }
  assert (Md : (Z.abs (ES.Day (LocalTime tz td) * ES.msPerDay - tz)
                <= ES.maxTime)%Z).
  { apply wholeDay_midnight.
    unfold wholeDay, ES.maxTime, ES.msPerDay, ES.msPerHour,
      ES.msPerMinute in *. lia. }
  rewrite <- (calendarDay_fullYear tz u Yu) in *.
  rewrite <- (calendarDay_fullYear tz td Yd) in *.
  split.
  - destruct (daysBetween_cases tz u td) as [[_ [H|H]]|[H _]];
      [lia | lia | exact H].
  - rewrite (calendarDay_fullYear tz u Yu), (calendarDay_fullYear tz td Yd).
    unfold ES.Day, LocalTime, ES.msPerDay, ES.msPerHour, ES.msPerMinute in *.
    cbn [offsetAt offsetOf fixedOffset] in *.
    Z.div_mod_to_equations. lia.
Qed.

Lemma search_days_away (u : Z) (tg : Q) (name : string) :
  (0 <= tg <= 0.5)%Q ->
  countable tz u ->
  exists (d : Date) (n : Z) (label : string),
    findNextPhase tz (TimeValue u) 'tg name = Ok d
    /\ daysBetween tz (TimeValue u) d = Ok (Num.of_Z n)
    /\ formatRelativeTime fractionToString (Num.of_Z n) = Ok label
    /\ ((n = -1 /\ label = "Yesterday")%Z
        \/ (n = 0 /\ label = "Today")%Z
        \/ (n = 1 /\ label = "Tomorrow")%Z
        \/ ((2 <= n <= 32)%Z
            /\ label
               = "In " ++ NilZero.string_of_int (Z.to_int n) ++ " days")).
Proof.
  intros Htg Hc.
  destruct (findNextPhase_returns tz u tg name (countable_searchable u Hc)
              (scanFails_never tz tg u Htg)) as [d Hd].
  destruct (findNextPhase_window tz u 'tg name d Hd) as (td & -> & Htd).
  destruct (days_away u td Hc Htd) as (n & Hn & Hr).
  destruct (label_of_days n Hr) as (label & Hl & Hcases).
  exists (TimeValue td), n, label. auto.
Qed.

End DaysAway.

(** X10.  The two lines of the display that tell how far the next new moon and
    the next full moon are.  From a date of local year 100 or later, away
    from the ends of the range of time values, [nextNewMoon] and
    [nextFullMoon] return a date, [daysBetween] counts from -1 to 32 days
    to it, and [formatRelativeTime] labels it Yesterday, Today, Tomorrow
    or In n days, never as days ago. *)
Theorem next_phase_label (tz u : Z) (fractionToString : Q -> string) :
  countable tz u ->
  (exists (d : Date) (n : Z) (label : string),
      nextNewMoon tz (TimeValue u) = Ok d
      /\ daysBetween tz (TimeValue u) d = Ok (Num.of_Z n)
      /\ formatRelativeTime fractionToString (Num.of_Z n) = Ok label
      /\ ((n = -1 /\ label = "Yesterday")%Z
          \/ (n = 0 /\ label = "Today")%Z
          \/ (n = 1 /\ label = "Tomorrow")%Z
          \/ ((2 <= n <= 32)%Z
              /\ label
                 = "In " ++ NilZero.string_of_int (Z.to_int n) ++ " days")))
  /\ (exists (d : Date) (n : Z) (label : string),
         nextFullMoon tz (TimeValue u) = Ok d
         /\ daysBetween tz (TimeValue u) d = Ok (Num.of_Z n)
         /\ formatRelativeTime fractionToString (Num.of_Z n) = Ok label
         /\ ((n = -1 /\ label = "Yesterday")%Z
             \/ (n = 0 /\ label = "Today")%Z
             \/ (n = 1 /\ label = "Tomorrow")%Z
             \/ ((2 <= n <= 32)%Z
                 /\ label
                    = "In " ++ NilZero.string_of_int (Z.to_int n)
                      ++ " days"))).
Proof.
  intro Hc. split.
  - apply (search_days_away tz fractionToString u 0 "new moon");
      [split; discriminate | exact Hc].
  - apply (search_days_away tz fractionToString u 0.5 "full moon");
      [split; discriminate | exact Hc].
Qed.

Lemma next_phase_label_witness :
  countable 0 947155500000
  /\ exists (d : Date) (n : Z) (label : string),
      nextNewMoon 0 (TimeValue 947155500000) = Ok d
      /\ daysBetween 0 (TimeValue 947155500000) d = Ok (Num.of_Z n)
      /\ formatRelativeTime (fun _ => EmptyString) (Num.of_Z n) = Ok label
      /\ ((n = -1 /\ label = "Yesterday")%Z
          \/ (n = 0 /\ label = "Today")%Z
          \/ (n = 1 /\ label = "Tomorrow")%Z
          \/ ((2 <= n <= 32)%Z
              /\ label
                 = "In " ++ NilZero.string_of_int (Z.to_int n) ++ " days")).
Proof.
  assert (C : countable 0 947155500000).
  { unfold countable, LocalTime, ES.maxTime, ES.msPerHour.
    cbn [offsetAt offsetOf fixedOffset].
    change centuryTime with (-59011459200000)%Z. lia. }
  split; [exact C|].
  exact (proj1 (next_phase_label 0 947155500000 (fun _ => EmptyString) C)).
Defined.

(** ** The events and their names *)

Ltac classify_test :=
  match goal with
  | |- context [if ?a && ?b then _ else _] =>
      let C := fresh "C" in destruct a eqn:C; [destruct b|]; cbn [andb]
  end.

Lemma classify_cases (v : Q) (prev next : number) :
  truthy (classify 'v prev next) = true ->
  (classify 'v prev next = "new-moon" /\ (v < 0.05)%Q)
  \/ (classify 'v prev next = "full-moon" /\ (Qabs (v - 0.5) < 0.05)%Q)
  \/ (classify 'v prev next = "quarter"
      /\ ((Qabs (v - 0.25) < 0.05)%Q \/ (Qabs (v - 0.75) < 0.05)%Q)).
Proof.
  unfold classify. repeat classify_test; intro T; try discriminate T; clear T;
    repeat match goal with
      | H : (_ <? _) = _ |- _ => first [apply ltb_Fin in H | clear H]
      end;
    first [ left; split; [reflexivity | assumption]
          | right; left; split; [reflexivity | assumption]
          | right; right; split; [reflexivity | left; assumption]
          | right; right; split; [reflexivity | right; assumption] ].
Qed.

Lemma phaseName_of_event (v : Q) :
  (0 <= v < 1)%Q ->
  ((v < 0.05)%Q -> phaseName 'v = Ok "New Moon")
  /\ ((Qabs (v - 0.5) < 0.05)%Q -> phaseName 'v = Ok "Full Moon")
  /\ ((Qabs (v - 0.25) < 0.05)%Q -> phaseName 'v = Ok "First Quarter")
  /\ ((Qabs (v - 0.75) < 0.05)%Q -> phaseName 'v = Ok "Last Quarter").
Proof.
  intros [L U]. unfold phaseName, Num.gtb.
  rewrite (proj2 (ltb_Fin_false v 0)) by lraQ.
  rewrite (proj2 (ltb_Fin_false 1 v)) by lraQ. cbn [orb].
  repeat split; intro H; try apply Qabs_Qlt_condition in H;
    repeat match goal with
      | |- context [if '?a <? '?b then _ else _] =>
          first [ rewrite (proj2 (ltb_Fin a b)) by lraQ
                | rewrite (proj2 (ltb_Fin_false a b)) by lraQ ]
      end;
    reflexivity.
Qed.

(** ** The days that the events miss *)

Lemma fraction_add (y d : Q) :
  (0 <= fraction y + d < 1)%Q -> (fraction (y + d) == fraction y + d)%Q.
Proof.
  intros H. unfold fraction in *.
  rewrite (Qfloor_unique (y + d) (Qfloor y)) by (split; lraQ). ring.
Qed.

Lemma fraction_add_down (y d : Q) :
  (0 <= fraction y + d + 1 < 1)%Q ->
  (fraction (y + d) == fraction y + d + 1)%Q.
Proof.
  intros H. unfold fraction in *.
  rewrite (Qfloor_unique (y + d) (Qfloor y - 1)).
  - unfold Z.sub. rewrite inject_Z_plus. change (inject_Z (- (1))) with (-1)%Q.
    ring.
  - unfold Z.sub. rewrite inject_Z_plus. change (inject_Z (- (1))) with (-1)%Q.
    split; lraQ.
Qed.

Lemma fraction_add_up (y d : Q) :
  (0 <= fraction y + d - 1 < 1)%Q ->
  (fraction (y + d) == fraction y + d - 1)%Q.
Proof.
  intros H. unfold fraction in *.
  rewrite (Qfloor_unique (y + d) (Qfloor y + 1)).
  - rewrite inject_Z_plus. change (inject_Z 1) with 1%Q. ring.
  - rewrite inject_Z_plus. change (inject_Z 1) with 1%Q. split; lraQ.
Qed.

(** The phases of the day before and of the day after. *)
Lemma neighbours (v p n : Q) :
  (0 <= v < 1)%Q ->
  (p == fraction (v - dayStep))%Q -> (n == fraction (v + dayStep))%Q ->
  ((dayStep <= v)%Q /\ (p == v - dayStep)%Q
   \/ (v < dayStep)%Q /\ (p == v - dayStep + 1)%Q)
  /\ ((v + dayStep < 1)%Q /\ (n == v + dayStep)%Q
      \/ (1 <= v + dayStep)%Q /\ (n == v + dayStep - 1)%Q).
Proof.
  intros Hv Hp Hn.
  assert (C1 : (0.0338 < dayStep)%Q) by reflexivity.
  assert (C2 : (dayStep < 0.0339)%Q) by reflexivity.
  assert (Fv : (fraction v == v)%Q).
  { unfold fraction.
    rewrite (Qfloor_unique v 0)
      by (change (inject_Z 0) with 0%Q; split; lraQ).
    change (inject_Z 0) with 0%Q. ring. }
  split.
  - destruct (Qlt_le_dec v dayStep) as [L|G].
    + right. split; [exact L|]. rewrite Hp.
      change (v - dayStep)%Q with (v + - dayStep)%Q.
      rewrite fraction_add_down by (rewrite Fv; split; lraQ).
      rewrite Fv. ring.
    + left. split; [exact G|]. rewrite Hp.
      change (v - dayStep)%Q with (v + - dayStep)%Q.
      rewrite fraction_add by (rewrite Fv; split; lraQ).
      rewrite Fv. ring.
  - destruct (Qlt_le_dec (v + dayStep) 1) as [L|G].
    + left. split; [exact L|]. rewrite Hn.
      rewrite fraction_add by (rewrite Fv; split; lraQ).
      rewrite Fv. ring.
    + right. split; [exact G|]. rewrite Hn.
      rewrite fraction_add_up by (rewrite Fv; split; lraQ).
      rewrite Fv. ring.
Qed.

Lemma abs_ltb_true (x m r : Q) :
  (m - r < x < m + r)%Q -> (Num.abs ('x - 'm) <? 'r) = true.
Proof.
  intro H. apply ltb_Fin. apply Qabs_Qlt_condition. split; lraQ.
Qed.

Lemma abs_ltb_false (x m r : Q) :
  (x <= m - r)%Q \/ (m + r <= x)%Q -> (Num.abs ('x - 'm) <? 'r) = false.
Proof.
  intro H. apply ltb_Fin_false. change (r <= Qabs (x + - m))%Q.
  destruct H as [H|H].
  - pose proof (Qle_Qabs (- (x + - m))) as A. rewrite Qabs_opp in A. lraQ.
  - pose proof (Qle_Qabs (x + - m)) as A. lraQ.
Qed.

Lemma abs_gtb_false (x m r : Q) :
  (m - r <= x <= m + r)%Q -> (Num.abs ('x - 'm) >? 'r) = false.
Proof.
  intro H. apply ltb_Fin_false. apply Qabs_Qle_condition. split; lraQ.
Qed.

(** On a day within 0.016 of a full moon or of a quarter, the two
    neighbouring days are in the band too, and nothing is recorded. *)
Lemma classify_peak (v p n m : Q) :
  (0 <= v < 1)%Q ->
  (p == fraction (v - dayStep))%Q -> (n == fraction (v + dayStep))%Q ->
  m = 0.25%Q \/ m = 0.5%Q \/ m = 0.75%Q ->
  (Qabs (v - m) <= 0.016)%Q ->
  classify 'v 'p 'n = EmptyString.
Proof.
  intros Hv Hp Hn Hm Hpeak.
  assert (C1 : (0.0338 < dayStep)%Q) by reflexivity.
  assert (C2 : (dayStep < 0.0339)%Q) by reflexivity.
  destruct (neighbours v p n Hv Hp Hn) as [P N].
  clear Hp Hn. generalize dependent dayStep. intros c C1 C2 P N.
  apply Qabs_Qle_condition in Hpeak. unfold classify.
  destruct Hm as [-> | [-> | ->]];
    (destruct P as [[P1 P2]|[P1 P2]]; [|exfalso; lraQ]);
    (destruct N as [[N1 N2]|[N1 N2]]; [|exfalso; lraQ]);
    rewrite (proj2 (ltb_Fin_false v 0.05)) by lraQ; cbn [andb].
  - rewrite (abs_ltb_false v 0.5 0.05) by (left; lraQ). cbn [andb].
    rewrite (abs_ltb_true v 0.25 0.05) by lraQ.
    rewrite (abs_gtb_false p 0.25 0.05), (abs_gtb_false n 0.25 0.05) by lraQ.
    cbn [orb andb].
    rewrite (abs_ltb_false v 0.75 0.05) by (left; lraQ). reflexivity.
  - rewrite (abs_ltb_true v 0.5 0.05) by lraQ.
    rewrite (abs_gtb_false p 0.5 0.05), (abs_gtb_false n 0.5 0.05) by lraQ.
    cbn [orb andb].
    rewrite (abs_ltb_false v 0.25 0.05) by (right; lraQ). cbn [andb].
    rewrite (abs_ltb_false v 0.75 0.05) by (left; lraQ). reflexivity.
  - rewrite (abs_ltb_false v 0.5 0.05) by (right; lraQ). cbn [andb].
    rewrite (abs_ltb_false v 0.25 0.05) by (right; lraQ). cbn [andb].
    rewrite (abs_ltb_true v 0.75 0.05) by lraQ.
    rewrite (abs_gtb_false p 0.75 0.05), (abs_gtb_false n 0.75 0.05) by lraQ.
    reflexivity.
Qed.

Lemma classify_off_peak (v p n : Q) :
  (0 <= v < 1)%Q ->
  (p == fraction (v - dayStep))%Q -> (n == fraction (v + dayStep))%Q ->
  truthy (classify 'v 'p 'n) = true ->
  (classify 'v 'p 'n = "new-moon" /\ (0 <= v < 0.05)%Q)
  \/ (classify 'v 'p 'n = "full-moon"
      /\ (0.016 < Qabs (v - 0.5) < 0.05)%Q)
  \/ (classify 'v 'p 'n = "quarter"
      /\ ((0.016 < Qabs (v - 0.25) < 0.05)%Q
          \/ (0.016 < Qabs (v - 0.75) < 0.05)%Q)).
Proof.
  intros Hv Hp Hn T.
  assert (K : forall m : Q,
             m = 0.25%Q \/ m = 0.5%Q \/ m = 0.75%Q ->
             (0.016 < Qabs (v - m))%Q).
  { intros m Hm. apply Qnot_le_lt. intro Hpeak.
    rewrite (classify_peak v p n m Hv Hp Hn Hm Hpeak) in T. discriminate T. }
  destruct (classify_cases v 'p 'n T) as [[E H]|[[E H]|[E [H|H]]]].
  - left. split; [exact E|]. split; [apply Hv | exact H].
  - right. left. split; [exact E|]. split; [apply K; auto | exact H].
  - right. right. split; [exact E|]. left.
    split; [apply K; auto | exact H].
  - right. right. split; [exact E|]. right.
    split; [apply K; auto | exact H].
Qed.

Lemma event_named (zone : Zone) (s : Z) (ph prev next : number) :
  moonPhase zone (TimeValue s) = Ok ph ->
  truthy (classify ph prev next) = true ->
  named (mkEvent (TimeValue s) (classify ph prev next) ph).
Proof.
  intros Hph T.
  destruct (moonPhase_Ok_value zone s ph Hph) as (v & -> & _ & Hv).
  destruct (phaseName_of_event v Hv) as (N & F & Q1 & Q3).
  unfold named. cbn [type phase].
  destruct (classify_cases v prev next T) as [[-> H]|[[-> H]|[-> [H|H]]]];
    auto 6.
Qed.

Section EventNames.

Variable tz : Z.

Lemma eventsStep_event (st en s : Z) (events events' : list PhaseEvent)
  (searchDate' : Date) :
  eventsStep tz (TimeValue st) (TimeValue en) (TimeValue s) events
  = Ok (events', searchDate') ->
  searchDate' = TimeClip (Num.of_Z (s + ES.msPerDay))
  /\ (events' = events
      \/ exists (ph prev next : number),
          moonPhase tz (TimeValue s) = Ok ph
          /\ moonPhase tz (TimeClip (Num.of_Z (s + -1 * ES.msPerDay)))
             = Ok prev
          /\ moonPhase tz (TimeClip (Num.of_Z (s + 1 * ES.msPerDay)))
             = Ok next
          /\ truthy (classify ph prev next) = true
          /\ events'
             = (events ++ [mkEvent (TimeValue s) (classify ph prev next) ph])%list
          /\ (st <= s <= en)%Z).
Proof.
  unfold eventsStep, copyDate.
  change (getDate tz (TimeValue s) - '1)
    with (getDate tz (TimeValue s) + Num.of_Z (-1)).
  change (getDate tz (TimeValue s) + '1)
    with (getDate tz (TimeValue s) + Num.of_Z 1).
  rewrite !setDate_shift.
  destruct (moonPhase tz (TimeValue s)) as [ph|]; [|discriminate].
  cbn [bind].
  destruct (moonPhase tz (TimeClip (Num.of_Z (s + -1 * ES.msPerDay))))
    as [prev|]; [|discriminate].
  cbn [bind].
  destruct (moonPhase tz (TimeClip (Num.of_Z (s + 1 * ES.msPerDay))))
    as [next|]; [|discriminate].
  cbn [bind]. cbv zeta.
  destruct (truthy (classify ph prev next)
            && (getTime (TimeValue s) >=? getTime (TimeValue st))
            && (getTime (TimeValue s) <=? getTime (TimeValue en))) eqn:C;
    intros [= <- <-]; (split; [reflexivity|]).
  - right. exists ph, prev, next.
    rewrite !andb_true_iff in C. destruct C as [[C0 C1] C2].
    unfold Num.geb in C1. cbn [getTime] in C1, C2.
    apply leb_of_Z in C1, C2.
    repeat split; try reflexivity; try assumption; lia.
  - now left.
Qed.

Lemma moonPhase_day_apart (s k : Z) (ph other : number) :
  moonPhase tz (TimeValue s) = Ok ph ->
  moonPhase tz (TimeClip (Num.of_Z (s + k * ES.msPerDay))) = Ok other ->
  exists v w : Q,
    ph = 'v /\ other = 'w /\ (0 <= v < 1)%Q
    /\ (w == fraction (v + inject_Z k * dayStep))%Q.
Proof.
  intros Hph Hother.
  destruct (moonPhase_Ok_value tz s ph Hph) as (v & -> & Ev & Hv).
  destruct (moonPhase_Ok_valid _ _ _ Hother) as [t Ht].
  rewrite Ht in Hother.
  destruct (TimeClip_of_Z_valid _ _ Ht) as [-> _].
  destruct (moonPhase_Ok_value tz _ other Hother) as (w & -> & Ew & _).
  exists v, w. repeat split; try apply Hv. rewrite Ew.
  assert (L : (lunations tz (s + k * ES.msPerDay)
               == lunations tz s + inject_Z k * dayStep)%Q).
  { replace (s + k * ES.msPerDay)%Z with (s + (24 * k) * ES.msPerHour)%Z
      by (unfold ES.msPerDay, ES.msPerHour; lia).
    rewrite lunations_hours, inject_Z_mult. change (inject_Z 24) with 24%Q.
    unfold dayStep. field. }
  rewrite (fraction_comp _ _ L).
  assert (S : (lunations tz s + inject_Z k * dayStep
               == v + inject_Z k * dayStep
                  + inject_Z (Qfloor (lunations tz s)))%Q).
  { rewrite Ev. unfold fraction. ring. }
  rewrite (fraction_comp _ _ S). apply fraction_shift.
Qed.

Lemma event_off_peak (s : Z) (ph prev next : number) :
  moonPhase tz (TimeValue s) = Ok ph ->
  moonPhase tz (TimeClip (Num.of_Z (s + -1 * ES.msPerDay))) = Ok prev ->
  moonPhase tz (TimeClip (Num.of_Z (s + 1 * ES.msPerDay))) = Ok next ->
  truthy (classify ph prev next) = true ->
  offPeak (mkEvent (TimeValue s) (classify ph prev next) ph).
Proof.
  intros Hph Hprev Hnext T.
  destruct (moonPhase_day_apart s (-1) ph prev Hph Hprev)
    as (v & p & -> & -> & Hv & Ep).
  destruct (moonPhase_day_apart s 1 'v next Hph Hnext)
    as (v' & n & [= <-] & -> & _ & En).
  exists v. cbn [type phase]. split; [reflexivity|].
  apply classify_off_peak; assumption.
Qed.

Lemma eventsLoop_events (st en : Z) (endTime : number) (fuel : nat) :
  forall (searchDate : Date) (events evs : list PhaseEvent),
    Forall (fun e => onDayOf tz st e /\ named e /\ offPeak e) events ->
    (searchDate = Invalid
     \/ exists k : Z, searchDate = TimeValue (st + k * ES.msPerDay)) ->
    eventsLoop tz fuel (TimeValue st) (TimeValue en) endTime searchDate events
    = Some (Ok evs) ->
    Forall (fun e => onDayOf tz st e /\ named e /\ offPeak e) evs.
Proof.
  induction fuel as [|fuel IH]; intros searchDate events evs Hall Hdate Hrun;
    [discriminate|].
  cbn [eventsLoop] in Hrun.
  destruct (getTime searchDate <=? endTime).
  - destruct Hdate as [->|[k ->]]; [discriminate Hrun|].
    destruct (eventsStep tz (TimeValue st) (TimeValue en)
                (TimeValue (st + k * ES.msPerDay)) events)
      as [[events' searchDate']|e] eqn:Hstep; [|discriminate].
    apply eventsStep_event in Hstep. destruct Hstep as [-> Hev].
    apply (IH _ _ _) in Hrun; [exact Hrun | |].
    + destruct Hev
        as [->|(ph & prev & next & Hph & Hprev & Hnext & T & -> & Hr)];
        [assumption|].
      apply Forall_app. split; [assumption|].
      constructor; [|constructor]. split; [|split].
      * exists k. cbn [date phase]. split; [|split; [reflexivity | exact Hph]].
        unfold ES.msPerDay in Hr. lia.
      * now apply (event_named tz).
      * now apply event_off_peak.
    + destruct (TimeClip (Num.of_Z (st + k * ES.msPerDay + ES.msPerDay)))
        as [|s'] eqn:Hclip; [now left|].
      right. exists (k + 1)%Z.
      apply TimeClip_of_Z_valid in Hclip. destruct Hclip as [-> _].
      f_equal; lia.
  - injection Hrun as <-. exact Hall.
Qed.

Lemma findPhaseEvents_events (st : Z) (endDate : Date) (fuel : nat)
  (evs : list PhaseEvent) :
  findPhaseEvents tz fuel (TimeValue st) endDate = Some (Ok evs) ->
  Forall (fun e => onDayOf tz st e /\ named e /\ offPeak e) evs.
Proof.
  destruct endDate as [|en]; [discriminate|].
  destruct (findPhaseEvents_TimeValue tz st en) as (q & Hq & Hrun).
  rewrite Hrun. apply eventsLoop_events; [constructor|].
  destruct (TimeClip (Num.of_Z (st - 2 * ES.msPerDay))) as [|s] eqn:Hclip;
    [now left|].
  right. exists (-2)%Z.
  apply TimeClip_of_Z_valid in Hclip. destruct Hclip as [-> _].
  f_equal; lia.
Qed.

End EventNames.

(** ** Every day of a new moon is recorded *)

Lemma classify_new_moon (v p n : Q) :
  (0 <= v < 0.05)%Q ->
  (p == fraction (v - dayStep))%Q -> (n == fraction (v + dayStep))%Q ->
  classify 'v 'p 'n = "new-moon".
Proof.
  intros Hv Hp Hn.
  assert (C1 : (0.0338 < dayStep)%Q) by reflexivity.
  assert (C2 : (dayStep < 0.0339)%Q) by reflexivity.
  destruct (neighbours v p n) as [P N]; [split; lraQ | assumption ..|].
  clear Hp Hn. generalize dependent dayStep. intros c C1 C2 P N.
  unfold classify, Num.gtb. rewrite (proj2 (ltb_Fin v 0.05)) by lraQ.
  destruct P as [[P1 P2]|[P1 P2]].
  - destruct N as [[N1 N2]|[N1 N2]]; [|exfalso; lraQ].
    rewrite (proj2 (ltb_Fin 0.05 n)) by lraQ. now rewrite orb_true_r.
  - rewrite (proj2 (ltb_Fin 0.95 p)) by lraQ. reflexivity.
Qed.

Section NewMoonDays.

Variable tz : Z.

Lemma eventsStep_new_moon (st en s : Z) (v : Q) (events events' : list PhaseEvent)
  (searchDate' : Date) :
  (st <= s <= en)%Z ->
  moonPhase tz (TimeValue s) = Ok 'v -> (v < 0.05)%Q ->
  eventsStep tz (TimeValue st) (TimeValue en) (TimeValue s) events
  = Ok (events', searchDate') ->
  events' = (events ++ [mkEvent (TimeValue s) "new-moon" 'v])%list.
Proof.
  intros Hs Hv Hlt. unfold eventsStep, copyDate.
  change (getDate tz (TimeValue s) - '1)
    with (getDate tz (TimeValue s) + Num.of_Z (-1)).
  change (getDate tz (TimeValue s) + '1)
    with (getDate tz (TimeValue s) + Num.of_Z 1).
  rewrite !setDate_shift, Hv. cbn [bind].
  destruct (moonPhase tz (TimeClip (Num.of_Z (s + -1 * ES.msPerDay))))
    as [prev|] eqn:Hprev; [|discriminate].
  cbn [bind].
  destruct (moonPhase tz (TimeClip (Num.of_Z (s + 1 * ES.msPerDay))))
    as [next|] eqn:Hnext; [|discriminate].
  cbn [bind]. cbv zeta.
  destruct (moonPhase_day_apart tz s (-1) 'v prev Hv Hprev)
    as (v1 & p & [= <-] & -> & Hr & Ep).
  destruct (moonPhase_day_apart tz s 1 'v next Hv Hnext)
    as (v2 & n & [= <-] & -> & _ & En).
  rewrite (classify_new_moon v p n) by (try split; try apply Hr; assumption).
  cbn [truthy andb]. unfold Num.geb. cbn [getTime].
  rewrite (proj2 (leb_of_Z st s)), (proj2 (leb_of_Z s en)) by lia.
  now intros [= <- _].
Qed.

Lemma eventsLoop_keeps (st en : Z) (endTime : number) (e : PhaseEvent)
  (fuel : nat) :
  forall (searchDate : Date) (events evs : list PhaseEvent),
    In e events ->
    eventsLoop tz fuel (TimeValue st) (TimeValue en) endTime searchDate events
    = Some (Ok evs) ->
    In e evs.
Proof.
  induction fuel as [|fuel IH]; intros searchDate events evs Hin Hrun;
    [discriminate|].
  cbn [eventsLoop] in Hrun.
  destruct (getTime searchDate <=? endTime).
  - destruct searchDate as [|s]; [discriminate Hrun|].
    destruct (eventsStep tz (TimeValue st) (TimeValue en) (TimeValue s)
                events) as [[events' searchDate']|err] eqn:Hstep;
      [|discriminate].
    apply eventsStep_Ok in Hstep.
    destruct Hstep as [_ [->|(ty & ph & -> & _)]].
    + exact (IH _ _ _ Hin Hrun).
    + apply (IH _ _ _) in Hrun; [exact Hrun|].
      apply in_or_app. now left.
  - injection Hrun as <-. exact Hin.
Qed.

Lemma eventsLoop_new_moon (st en : Z) (q : Q) (s : Z) (v : Q) (fuel : nat) :
  (q == inject_Z (en + 2 * ES.msPerDay))%Q ->
  (st <= s <= en)%Z -> (en <= ES.maxTime)%Z ->
  moonPhase tz (TimeValue s) = Ok 'v -> (v < 0.05)%Q ->
  forall (j : nat) (events evs : list PhaseEvent),
    (- ES.maxTime <= s - Z.of_nat j * ES.msPerDay)%Z ->
    eventsLoop tz fuel (TimeValue st) (TimeValue en) 'q
      (TimeValue (s - Z.of_nat j * ES.msPerDay)) events
    = Some (Ok evs) ->
    In (mkEvent (TimeValue s) "new-moon" 'v) evs.
Proof.
  intros Hq Hs Hen Hv Hlt.
  induction fuel as [|fuel IH]; intros j events evs Hlo Hrun;
    [discriminate|].
  cbn [eventsLoop] in Hrun.
  rewrite (proj2 (loop_condition _ _ _ Hq)) in Hrun
    by (unfold ES.msPerDay; lia).
  destruct (eventsStep tz (TimeValue st) (TimeValue en)
              (TimeValue (s - Z.of_nat j * ES.msPerDay)) events)
    as [[events' searchDate']|err] eqn:Hstep; [|discriminate].
  destruct j as [|j].
  - replace (s - Z.of_nat 0 * ES.msPerDay)%Z with s in Hstep by lia.
    apply (eventsStep_new_moon st en s v _ _ _ Hs Hv Hlt) in Hstep.
    subst events'.
    apply (eventsLoop_keeps st en 'q
             (mkEvent (TimeValue s) "new-moon" 'v) fuel _ _ _) in Hrun;
      [exact Hrun|].
    apply in_or_app. right. now left.
  - apply eventsStep_Ok in Hstep. destruct Hstep as [-> _].
    replace (s - Z.of_nat (S j) * ES.msPerDay + ES.msPerDay)%Z
      with (s - Z.of_nat j * ES.msPerDay)%Z in Hrun by lia.
    rewrite TimeClip_of_Z_in_range in Hrun
      by (unfold ES.msPerDay, ES.maxTime in *; lia).
    apply (IH j _ _) in Hrun; [exact Hrun|].
    unfold ES.msPerDay in *. lia.
Qed.

End NewMoonDays.

(** Where the offset never changes, every day of a new moon is
    recorded. *)
Lemma findPhaseEvents_new_moon_days (tz st en k : Z) (v : Q) (fuel : nat)
  (evs : list PhaseEvent) :
  (- ES.maxTime <= st - 2 * ES.msPerDay)%Z -> (en <= ES.maxTime)%Z ->
  (0 <= k)%Z -> (st + k * ES.msPerDay <= en)%Z ->
  moonPhase tz (TimeValue (st + k * ES.msPerDay)) = Ok 'v -> (v < 0.05)%Q ->
  findPhaseEvents tz fuel (TimeValue st) (TimeValue en) = Some (Ok evs) ->
  In (mkEvent (TimeValue (st + k * ES.msPerDay)) "new-moon" 'v) evs.
Proof.
  intros Hst Hen Hk Hs Hv Hlt Hrun.
  destruct (findPhaseEvents_TimeValue tz st en) as (q & Hq & E).
  rewrite E in Hrun.
  rewrite TimeClip_of_Z_in_range in Hrun
    by (unfold ES.msPerDay, ES.maxTime in *; lia).
  apply (eventsLoop_new_moon tz st en q (st + k * ES.msPerDay) v fuel Hq)
    with (j := Z.to_nat (k + 2)) (events := []); try assumption.
  - unfold ES.msPerDay in *. lia.
  - rewrite Z2Nat.id by lia. unfold ES.msPerDay in *. lia.
  - rewrite Z2Nat.id by lia.
    replace (st + k * ES.msPerDay - (k + 2) * ES.msPerDay)%Z
      with (st - 2 * ES.msPerDay)%Z by lia.
    exact Hrun.
Qed.

(** ** The events on any host *)

Section EventsAnywhere.

Variable zone : Zone.

Lemma eventsStep_pushed (st en s : Z) (events events' : list PhaseEvent)
  (searchDate' : Date) :
  eventsStep zone (TimeValue st) (TimeValue en) (TimeValue s) events
  = Ok (events', searchDate') ->
  events' = events
  \/ exists (ph prev next : number),
      moonPhase zone (TimeValue s) = Ok ph
      /\ truthy (classify ph prev next) = true
      /\ events'
         = (events ++ [mkEvent (TimeValue s) (classify ph prev next) ph])%list
      /\ (st <= s <= en)%Z.
Proof.
  unfold eventsStep, copyDate.
  change (getDate zone (TimeValue s) - '1)
    with (getDate zone (TimeValue s) + Num.of_Z (-1)).
  change (getDate zone (TimeValue s) + '1)
    with (getDate zone (TimeValue s) + Num.of_Z 1).
  rewrite !setDate_local.
  destruct (moonPhase zone (TimeValue s)) as [ph|]; [|discriminate].
  cbn [bind].
  destruct (moonPhase zone
              (TimeClip
                 (Num.of_Z (UTC zone (LocalTime zone s + -1 * ES.msPerDay)))))
    as [prev|]; [|discriminate].
  cbn [bind].
  destruct (moonPhase zone
              (TimeClip
                 (Num.of_Z (UTC zone (LocalTime zone s + 1 * ES.msPerDay)))))
    as [next|]; [|discriminate].
  cbn [bind]. cbv zeta.
  destruct (truthy (classify ph prev next)
            && (getTime (TimeValue s) >=? getTime (TimeValue st))
            && (getTime (TimeValue s) <=? getTime (TimeValue en))) eqn:C;
    intros [= <- _]; [right | now left].
  exists ph, prev, next.
  rewrite !andb_true_iff in C. destruct C as [[C0 C1] C2].
  unfold Num.geb in C1. cbn [getTime] in C1, C2.
  apply leb_of_Z in C1, C2. repeat split; try assumption; lia.
Qed.

Lemma eventsLoop_drawn (st en : Z) (endTime : number) (fuel : nat) :
  forall (searchDate : Date) (events evs : list PhaseEvent),
    Forall (drawn zone st en) events ->
    eventsLoop zone fuel (TimeValue st) (TimeValue en) endTime searchDate
      events
    = Some (Ok evs) ->
    Forall (drawn zone st en) evs.
Proof.
  induction fuel as [|fuel IH]; intros searchDate events evs Hall Hrun;
    [discriminate|].
  cbn [eventsLoop] in Hrun.
  destruct (getTime searchDate <=? endTime).
  - destruct searchDate as [|s]; [discriminate Hrun|].
    destruct (eventsStep zone (TimeValue st) (TimeValue en) (TimeValue s)
                events) as [[events' searchDate']|e] eqn:Hstep;
      [|discriminate].
    apply eventsStep_pushed in Hstep. apply (IH _ _ _) in Hrun; [exact Hrun|].
    destruct Hstep as [->|(ph & prev & next & Hph & T & -> & Hr)];
      [assumption|].
    apply Forall_app. split; [assumption|].
    constructor; [|constructor]. split; [|split].
    + now apply (event_named zone).
    + exact Hph.
    + unfold withinRange, eventTime. cbn [date getTime].
      split; apply leb_of_Z; lia.
  - injection Hrun as <-. exact Hall.
Qed.

Lemma findPhaseEvents_drawn (st en : Z) (fuel : nat) (evs : list PhaseEvent) :
  findPhaseEvents zone fuel (TimeValue st) (TimeValue en) = Some (Ok evs) ->
  Forall (drawn zone st en) evs.
Proof.
  rewrite findPhaseEvents_loop. apply eventsLoop_drawn. constructor.
Qed.

End EventsAnywhere.

(** X11.  The events that the timeline draws.  On any host, every event
    returned by [findPhaseEvents] has a type that agrees with the name
    that [phaseName] gives to its phase (New Moon for new-moon, Full Moon
    for full-moon, First Quarter or Last Quarter for quarter), so that
    [phaseName] never throws on the phase of an event; it carries the
    phase that [moonPhase] gives to its date; and its date is in the
    range.  On a host whose clocks do not change from 3 days before the
    range to 3 days after it, the events lie a whole number of days of
    86400000 ms after [startDate]. *)
Theorem findPhaseEvents_named (zone : Zone) (st en : Z) (fuel : nat)
  (evs : list PhaseEvent) :
  findPhaseEvents zone fuel (TimeValue st) (TimeValue en) = Some (Ok evs) ->
  Forall (drawn zone st en) evs
  /\ forall tz : Z,
      (st <= en)%Z ->
      steady zone tz (st - 3 * ES.msPerDay) (en + 3 * ES.msPerDay) ->
      Forall (onDayOf zone st) evs.
Proof.
  intro H. split; [exact (findPhaseEvents_drawn zone st en fuel evs H)|].
  intros tz Hse Hc.
  pose proof (findPhaseEvents_drawn zone st en fuel evs H) as D.
  rewrite (steady_findPhaseEvents zone tz _ _ Hc) in H
    by (unfold ES.msPerDay; lia).
  apply findPhaseEvents_events in H.
  apply Forall_forall. intros e He.
  rewrite Forall_forall in H, D.
  destruct (H e He) as ((k & Hk & Hd & _) & _). destruct (D e He) as (_ & P & _).
  exists k. auto.
Qed.

Lemma findPhaseEvents_named_witness :
  exists evs : list PhaseEvent,
    findPhaseEvents lordHowe1996 10 (TimeValue 846201600000)
      (TimeValue 846460800000)
    = Some (Ok evs)
    /\ evs <> []
    /\ Forall (drawn lordHowe1996 846201600000 846460800000) evs.
Proof.
  destruct (findPhaseEvents lordHowe1996 10 (TimeValue 846201600000)
              (TimeValue 846460800000)) as [[evs|e]|] eqn:H;
    [|vm_compute in H; discriminate H ..].
  exists evs. split; [reflexivity|]. split.
  - intros ->. vm_compute in H. discriminate H.
  - exact (proj1 (findPhaseEvents_named lordHowe1996 846201600000
                    846460800000 10 evs H)).
Defined.

(** X12.  The events miss the day of the full moon.  On a host whose clocks
    do not change from 3 days before the range to 3 days after it, the
    phase of a full-moon event is more than 0.016 away from 0.5, and that
    of a quarter event more than 0.016 away from 0.25 or 0.75: a day
    closer than that to its target has both its neighbours within 0.05 of
    it and is left out.  The phase of a new-moon event is below 0.05; no
    event is recorded for a phase just below 1. *)
Theorem findPhaseEvents_off_peak (zone : Zone) (tz st en : Z) (fuel : nat)
  (evs : list PhaseEvent) :
  (st <= en)%Z ->
  steady zone tz (st - 3 * ES.msPerDay) (en + 3 * ES.msPerDay) ->
  findPhaseEvents zone fuel (TimeValue st) (TimeValue en) = Some (Ok evs) ->
  Forall offPeak evs.
Proof.
  intros Hse Hc H.
  rewrite (steady_findPhaseEvents zone tz _ _ Hc) in H
    by (unfold ES.msPerDay; lia).
  apply findPhaseEvents_events in H.
  eapply Forall_impl; [|exact H]. now intros e (_ & _ & H3).
Qed.

Lemma findPhaseEvents_off_peak_witness :
  exists evs : list PhaseEvent,
    findPhaseEvents lordHowe1996 12 (TimeValue 948240000000)
      (TimeValue 948585600000)
    = Some (Ok evs)
    /\ evs <> []
    /\ Forall offPeak evs.
Proof.
  destruct (findPhaseEvents lordHowe1996 12 (TimeValue 948240000000)
              (TimeValue 948585600000)) as [[evs|e]|] eqn:H;
    [|vm_compute in H; discriminate H ..].
  exists evs. split; [reflexivity|]. split.
  - intros ->. vm_compute in H. discriminate H.
  - apply (findPhaseEvents_off_peak lordHowe1996 39600000 948240000000
             948585600000 12 evs); [lia | | exact H].
    apply lordHowe1996_steady. unfold ES.msPerDay. lia.
Defined.

(** X13.  Every day of a new moon is recorded.  On a host whose clocks do
    not change from 3 days before the range to 3 days after it, when
    [findPhaseEvents] returns, each instant a whole number of days after
    [startDate] and not after [endDate] whose phase is below 0.0499 is
    among the events, with the type new-moon: the test on the
    neighbouring days never removes one.  (The code compares with 0.05;
    the margin keeps the statement clear of the rounding of binary64.)
    The range starts at least two days after the first time value. *)
Theorem findPhaseEvents_new_moons (zone : Zone) (tz st en k : Z) (v : Q)
  (fuel : nat) (evs : list PhaseEvent) :
  steady zone tz (st - 3 * ES.msPerDay) (en + 3 * ES.msPerDay) ->
  (- ES.maxTime <= st - 2 * ES.msPerDay)%Z -> (en <= ES.maxTime)%Z ->
  (0 <= k)%Z -> (st + k * ES.msPerDay <= en)%Z ->
  moonPhase zone (TimeValue (st + k * ES.msPerDay)) = Ok 'v ->
  (v < 0.0499)%Q ->
  findPhaseEvents zone fuel (TimeValue st) (TimeValue en) = Some (Ok evs) ->
  In (mkEvent (TimeValue (st + k * ES.msPerDay)) "new-moon" 'v) evs.
Proof.
  intros Hc Hst Hen Hk Hs Hv Hlt0 Hrun.
  assert (Hlt : (v < 0.05)%Q) by lraQ.
  rewrite (steady_findPhaseEvents zone tz _ _ Hc) in Hrun
    by (unfold ES.msPerDay in *; lia).
  rewrite (steady_moonPhase zone tz _ _ Hc) in Hv
    by (unfold ES.msPerDay in *; lia).
  exact (findPhaseEvents_new_moon_days tz st en k v fuel evs Hst Hen Hk Hs Hv
           Hlt Hrun).
Qed.

Lemma findPhaseEvents_new_moons_witness :
  exists (evs : list PhaseEvent) (v : Q),
    findPhaseEvents lordHowe1996 10 (TimeValue 946990800000)
      (TimeValue 947250000000)
    = Some (Ok evs)
    /\ moonPhase lordHowe1996 (TimeValue (946990800000 + 1 * ES.msPerDay))
       = Ok 'v
    /\ In (mkEvent (TimeValue (946990800000 + 1 * ES.msPerDay)) "new-moon" 'v)
         evs.
Proof.
  destruct (findPhaseEvents lordHowe1996 10 (TimeValue 946990800000)
              (TimeValue 947250000000)) as [[evs|e]|] eqn:H;
    [|vm_compute in H; discriminate H ..].
  destruct (moonPhase lordHowe1996
              (TimeValue (946990800000 + 1 * ES.msPerDay)))
    as [[| |v]|e] eqn:Hv; [vm_compute in Hv; discriminate Hv .. | |
                           vm_compute in Hv; discriminate Hv].
  exists evs, v. split; [reflexivity|]. split; [reflexivity|].
  apply (findPhaseEvents_new_moons lordHowe1996 39600000 946990800000
           947250000000 1 v 10 evs).
  - apply lordHowe1996_steady. unfold ES.msPerDay. lia.
  - unfold ES.maxTime, ES.msPerDay. lia.
  - unfold ES.maxTime. lia.
  - lia.
  - unfold ES.msPerDay. lia.
  - exact Hv.
  - vm_compute in Hv. injection Hv as <-. reflexivity.
  - exact H.
Defined.

(** ** Days later *)

Lemma lunations_days (zone : Zone) (t t' k : Z) :
  LocalTime zone t' = (LocalTime zone t + k * ES.msPerDay)%Z ->
  (lunations zone t' == lunations zone t + inject_Z k * dayStep)%Q.
Proof.
  intro E. unfold lunations, localSeconds. rewrite E.
  replace ((LocalTime zone t + k * ES.msPerDay) / 1000)%Z
    with (LocalTime zone t / 1000 + k * 86400)%Z
    by (unfold ES.msPerDay; Z.div_mod_to_equations; lia).
  rewrite inject_Z_plus, inject_Z_mult. change (inject_Z 86400) with 86400%Q.
  unfold dayStep. field.
Qed.

(** X14.  The phase some days later.  When [setDate] moves a date by a whole
    number of days, as [findPhaseEvents] and [addDays] do, and the host
    reads at the new instant the local time of the date plus that number
    of days (no change of the clocks skips that local time), the phase
    advances by that number over 29.53058868, modulo 1. *)
Theorem moonPhase_days_later (zone : Zone) (t k : Z) (p w : number) :
  LocalTime zone (daysLater zone t k)
  = (LocalTime zone t + k * ES.msPerDay)%Z ->
  moonPhase zone (TimeValue t) = Ok p ->
  moonPhase zone
    (setDate zone (TimeValue t) (getDate zone (TimeValue t) + Num.of_Z k))
  = Ok w ->
  exists v q : Q,
    p = 'v /\ w = 'q /\ (q == fraction (v + inject_Z k * dayStep))%Q.
Proof.
  intros E Hp Hw. unfold daysLater in E. rewrite setDate_local in Hw.
  destruct (moonPhase_Ok_value zone t p Hp) as (v & -> & Ev & _).
  destruct (moonPhase_Ok_valid _ _ _ Hw) as [t' Ht]. rewrite Ht in Hw.
  destruct (TimeClip_of_Z_valid _ _ Ht) as [-> _].
  destruct (moonPhase_Ok_value zone _ w Hw) as (q & -> & Eq & _).
  exists v, q. split; [reflexivity|]. split; [reflexivity|].
  rewrite Eq, (fraction_comp _ _ (lunations_days zone t _ k E)).
  assert (S : (lunations zone t + inject_Z k * dayStep
               == v + inject_Z k * dayStep
                  + inject_Z (Qfloor (lunations zone t)))%Q).
  { rewrite Ev. unfold fraction. ring. }
  rewrite (fraction_comp _ _ S). apply fraction_shift.
Qed.

Lemma moonPhase_days_later_witness :
  exists (p w : number) (v q : Q),
    moonPhase lordHowe1996 (TimeValue 846342000000) = Ok p
    /\ setDate lordHowe1996 (TimeValue 846342000000)
         (getDate lordHowe1996 (TimeValue 846342000000) + Num.of_Z 1)
       = TimeValue (846342000000 + 23 * ES.msPerHour + 30 * ES.msPerMinute)
    /\ p = 'v /\ w = 'q /\ (q == fraction (v + inject_Z 1 * dayStep))%Q.
Proof.
  destruct (moonPhase lordHowe1996 (TimeValue 846342000000)) as [p|e] eqn:Hp;
    [|vm_compute in Hp; discriminate Hp].
  destruct (moonPhase lordHowe1996
              (setDate lordHowe1996 (TimeValue 846342000000)
                 (getDate lordHowe1996 (TimeValue 846342000000)
                  + Num.of_Z 1))) as [w|e] eqn:Hw;
    [|vm_compute in Hw; discriminate Hw].
  destruct (moonPhase_days_later lordHowe1996 846342000000 1 p w
              ltac:(vm_compute; reflexivity) Hp Hw) as (v & q & H).
  exists p, w, v, q. split; [reflexivity|].
  split; [vm_compute; reflexivity | exact H].
Defined.

(** ** A range that starts with the time values *)

(** X15.  [findPhaseEvents] from a valid date less than two days after the
    first time value returns no event and throws nothing, whatever the end
    of the range: the date two days earlier, where the search would start,
    is not a date. *)
Theorem findPhaseEvents_early_start (tz st en : Z) (fuel : nat) :
  (st - 2 * ES.msPerDay < - ES.maxTime)%Z ->
  findPhaseEvents tz (S fuel) (TimeValue st) (TimeValue en) = Some (Ok []).
Proof.
  intro H. destruct (findPhaseEvents_TimeValue tz st en) as (q & _ & E).
  rewrite E. unfold Num.of_Z. rewrite (TimeClip_integer _ _ (Qeq_refl _)).
  replace (Z.abs (st - 2 * ES.msPerDay) <=? ES.maxTime)%Z with false
    by (symmetry; apply Z.leb_gt; unfold ES.maxTime, ES.msPerDay in *; lia).
  reflexivity.
Qed.

Lemma findPhaseEvents_early_start_witness :
  findPhaseEvents 0 (S 0) (TimeValue (- ES.maxTime + ES.msPerDay))
    (TimeValue 0)
  = Some (Ok []).
Proof.
  apply (findPhaseEvents_early_start 0 (- ES.maxTime + ES.msPerDay) 0 0).
  unfold ES.maxTime, ES.msPerDay. lia.
Defined.

(** ** isSameDay *)

Lemma eqb_of_Z (a b : Z) : (Num.of_Z a === Num.of_Z b) = true <-> a = b.
Proof.
  unfold Num.of_Z. cbn [Num.eqb]. rewrite Qeq_bool_iff.
  unfold Qeq. cbn [Qnum Qden inject_Z]. lia.
Qed.

(** X16.  [isSameDay] tells whether two dates fall on the same local day: it
    holds of two valid dates exactly when their local times have the same
    day number, and of no invalid date, not even of one and itself. *)
Theorem isSameDay_days (tz : Z) :
  (forall a b : Z,
      Timeline.isSameDay tz (TimeValue a) (TimeValue b) = true
      <-> ES.Day (LocalTime tz a) = ES.Day (LocalTime tz b))
  /\ (forall date : Date,
        Timeline.isSameDay tz Invalid date = false
        /\ Timeline.isSameDay tz date Invalid = false).
Proof.
  split.
  - intros a b. unfold Timeline.isSameDay, getFullYear, getMonth, getDate,
      getter.
    rewrite !andb_true_iff, !eqb_of_Z.
    unfold ES.YearFromTime, ES.MonthFromTime, ES.DateFromTime.
    split.
    + intros [[Hy Hm] Hd].
      rewrite <- (daysFromCivil_civil (ES.Day (LocalTime tz a))),
        <- (daysFromCivil_civil (ES.Day (LocalTime tz b))).
      rewrite Hy, Hd. f_equal. lia.
    + intros ->. auto.
  - intro date. split; [reflexivity|].
    unfold Timeline.isSameDay. destruct date as [|t]; [reflexivity|].
    cbn [getFullYear getter Num.eqb Num.of_Z]. reflexivity.
Qed.

(** ** The date tracker *)

Lemma Qfloor_shift (a : Z) (q : Q) :
  Qfloor (inject_Z a + q) = (a + Qfloor q)%Z.
Proof.
  apply Qfloor_unique. pose proof (Qfloor_le q). pose proof (Qlt_floor q).
  rewrite !inject_Z_plus in *. change (inject_Z 1) with 1%Q in *.
  split; lraQ.
Qed.

Lemma phaseName_total (v : Q) :
  (0 <= v <= 1)%Q -> exists name : string, phaseName 'v = Ok name.
Proof.
  intros [L U]. unfold phaseName, Num.gtb.
  rewrite (proj2 (ltb_Fin_false v 0)) by lraQ.
  rewrite (proj2 (ltb_Fin_false 1 v)) by lraQ. cbn [orb].
  repeat match goal with
    | |- context [if ?c then _ else _] => destruct c
    end; eexists; reflexivity.
Qed.

Section Tracker.

Variable zone : Zone.
Variable onDateChange : Date -> result unit.
Variable r : DateTracker.readings.

(** [addDays] without animation, when [setDate] of [Date] makes the
    instant [moved] of the current date. *)
Lemma addDays_run (this : DateTracker.tracker) (u : Z) (q : Q) (moved : Z) :
  DateTracker.currentDate this = TimeValue u ->
  setDate zone (TimeValue u) (getDate zone (TimeValue u) + 'q)
  = TimeClip (Num.of_Z moved) ->
  DateTracker.addDays zone onDateChange 'q false r this
  = if (Z.abs moved <=? ES.maxTime)%Z
    then
      (DateTracker.handed (TimeValue moved)
         (DateTracker.setCurrentDate (TimeValue moved) this),
       onDateChange (TimeValue moved))
    else (this, Throw (InvalidDate "date")).
Proof.
  intros Hu E.
  unfold DateTracker.addDays, DateTracker.setDate, DateTracker.andThen,
    DateTracker.read, DateTracker.lift, DateTracker.assign,
    DateTracker.callOnDateChange, copyDate.
  cbn [Num.isNaN]. cbv zeta. rewrite Hu, E. unfold Num.of_Z.
  rewrite (TimeClip_integer _ _ (Qeq_refl _)).
  now destruct (Z.abs moved <=? ES.maxTime)%Z.
Qed.

Lemma setDate_fraction (u : Z) (q : Q) :
  (-1 <= q)%Q ->
  setDate zone (TimeValue u) (getDate zone (TimeValue u) + 'q)
  = TimeClip (Num.of_Z (daysLater zone u (Qfloor q))).
Proof.
  intro Hq. unfold setDate, getDate, getter, Num.of_Z.
  cbn [Num.add toInteger].
  pose proof (civil_month_day (ES.Day (LocalTime zone u))) as [_ Hd].
  fold (ES.DateFromTime (LocalTime zone u)) in Hd.
  assert (T : Qtrunc (inject_Z (ES.DateFromTime (LocalTime zone u)) + q)
              = (ES.DateFromTime (LocalTime zone u) + Qfloor q)%Z).
  { unfold Qtrunc.
    assert (P : (0 <= inject_Z (ES.DateFromTime (LocalTime zone u)) + q)%Q).
    { assert (1 <= inject_Z (ES.DateFromTime (LocalTime zone u)))%Q
        by (change 1%Q with (inject_Z 1); rewrite <- Zle_Qle; lia).
      lraQ. }
    apply Qle_bool_iff in P. rewrite P. apply Qfloor_shift. }
  rewrite T. cbv zeta.
  now rewrite MakeDay_shift, MakeDate_day_shift.
Qed.

End Tracker.

(** X17.  [addDays] with a whole number of days, without animation, on any
    host.  The current date becomes the instant at which the host reads
    the local time of the current date plus that number of days;
    [onDateChange] receives the new date, and [addDays] ends as that call
    ends, the other fields staying as they are.  When the new instant is
    not a time value the call throws the error of an invalid date, not
    that of an invalid number of days, and leaves the fields as they
    were.  The new instant is that number of days of 86400000 ms later
    when the offset of the zone is the same there; and where the offset
    never changes, [addDays(a)] followed by [addDays(b)] ends on the date
    on which [addDays(a + b)] ends. *)
Theorem addDays_moves (onDateChange : Date -> result unit)
  (r : DateTracker.readings) (this : DateTracker.tracker) (u : Z) :
  DateTracker.currentDate this = TimeValue u ->
  (forall (zone : Zone) (k : Z),
      DateTracker.addDays zone onDateChange (Num.of_Z k) false r this
      = if (Z.abs (daysLater zone u k) <=? ES.maxTime)%Z
        then
          (DateTracker.handed (TimeValue (daysLater zone u k))
             (DateTracker.setCurrentDate (TimeValue (daysLater zone u k))
                this),
           onDateChange (TimeValue (daysLater zone u k)))
        else (this, Throw (InvalidDate "date")))
  /\ (forall (zone : Zone) (k : Z),
        offsetOf zone (LocalTime zone u + k * ES.msPerDay) = offsetAt zone u ->
        daysLater zone u k = (u + k * ES.msPerDay)%Z)
  /\ (forall (tz a b : Z) (this1 this2 : DateTracker.tracker),
        DateTracker.addDays tz onDateChange (Num.of_Z a) false r this
        = (this1, Ok tt) ->
        DateTracker.addDays tz onDateChange (Num.of_Z b) false r this1
        = (this2, Ok tt) ->
        DateTracker.currentDate this2
        = TimeValue (u + (a + b) * ES.msPerDay)).
Proof.
  intro Hu.
  assert (M : forall (zone : Zone) (k t : Z) (this0 : DateTracker.tracker),
             DateTracker.currentDate this0 = TimeValue t ->
             DateTracker.addDays zone onDateChange (Num.of_Z k) false r this0
             = if (Z.abs (daysLater zone t k) <=? ES.maxTime)%Z
               then
                 (DateTracker.handed (TimeValue (daysLater zone t k))
                    (DateTracker.setCurrentDate
                       (TimeValue (daysLater zone t k)) this0),
                  onDateChange (TimeValue (daysLater zone t k)))
               else (this0, Throw (InvalidDate "date"))).
  { intros zone k t this0 Ht.
    apply (addDays_run zone onDateChange r this0 t (inject_Z k)); [exact Ht|].
    exact (setDate_local zone t k). }
  assert (F : forall tz t k : Z,
             daysLater tz t k = (t + k * ES.msPerDay)%Z).
  { intros tz t k. unfold daysLater, UTC, LocalTime.
    cbn [offsetAt offsetOf fixedOffset]. lia. }
  split; [intros zone k; now apply M|]. split.
  - intros zone k E. unfold daysLater, UTC, LocalTime in *. rewrite E. lia.
  - intros tz a b this1 this2 H1 H2. rewrite (M tz a u this Hu), F in H1.
    destruct (Z.abs (u + a * ES.msPerDay) <=? ES.maxTime)%Z; [|discriminate].
    injection H1 as <- _.
    rewrite (M tz b (u + a * ES.msPerDay)%Z
               (DateTracker.handed (TimeValue (u + a * ES.msPerDay))
                  (DateTracker.setCurrentDate
                     (TimeValue (u + a * ES.msPerDay)) this)) eq_refl), F
      in H2.
    destruct (Z.abs (u + a * ES.msPerDay + b * ES.msPerDay) <=? ES.maxTime)%Z;
      [|discriminate].
    injection H2 as <- _. cbn [DateTracker.currentDate DateTracker.handed
      DateTracker.setCurrentDate]. f_equal. lia.
Qed.

Lemma addDays_moves_witness :
  DateTracker.addDays lordHowe1996 (fun _ => Ok tt) (Num.of_Z 1) false
    (DateTracker.mkReadings '0 '0 '0 '0)
    (DateTracker.mkTracker (TimeValue 846342000000) '1 false None None '0 [])
  = (DateTracker.mkTracker
       (TimeValue (846342000000 + 23 * ES.msPerHour + 30 * ES.msPerMinute))
       '1 false None None '0
       [TimeValue (846342000000 + 23 * ES.msPerHour + 30 * ES.msPerMinute)],
     Ok tt).
Proof.
  rewrite (proj1 (addDays_moves (fun _ => Ok tt)
                    (DateTracker.mkReadings '0 '0 '0 '0)
                    (DateTracker.mkTracker (TimeValue 846342000000) '1 false
                       None None '0 [])
                    846342000000 eq_refl) lordHowe1996 1).
  reflexivity.
Defined.

(** X18.  [addDays] rounds a fraction of a day down, also below zero.  For a
    number of days from -1 on that is a binary fraction, so that
    [getDate() + days] is exact ([days] a multiple of 2^-32, at most
    2^20), the current date moves by the floor of that number of days:
    [addDays(-0.5)] goes back one day and [addDays(0.5)] stays. *)
Theorem addDays_fraction (zone : Zone) (onDateChange : Date -> result unit)
  (r : DateTracker.readings) (this : DateTracker.tracker) (u n : Z) (q : Q) :
  DateTracker.currentDate this = TimeValue u ->
  (q == n # 4294967296)%Q -> (-1 <= q <= 1048576)%Q ->
  DateTracker.addDays zone onDateChange 'q false r this
  = if (Z.abs (daysLater zone u (Qfloor q)) <=? ES.maxTime)%Z
    then
      (DateTracker.handed (TimeValue (daysLater zone u (Qfloor q)))
         (DateTracker.setCurrentDate
            (TimeValue (daysLater zone u (Qfloor q))) this),
       onDateChange (TimeValue (daysLater zone u (Qfloor q))))
    else (this, Throw (InvalidDate "date")).
Proof.
  intros Hu _ [Hq _]. apply (addDays_run zone onDateChange r this u q);
    [exact Hu|].
  now apply setDate_fraction.
Qed.

Lemma addDays_fraction_witness :
  DateTracker.addDays 0 (fun _ => Ok tt) '(-0.5) false
    (DateTracker.mkReadings '0 '0 '0 '0)
    (DateTracker.mkTracker (TimeValue 1700000000000) '1 false None None '0 [])
  = (DateTracker.mkTracker (TimeValue (1700000000000 - 86400000))
       '1 false None None '0 [TimeValue (1700000000000 - 86400000)],
     Ok tt).
Proof.
  rewrite (addDays_fraction 0 (fun _ => Ok tt)
             (DateTracker.mkReadings '0 '0 '0 '0)
             (DateTracker.mkTracker (TimeValue 1700000000000) '1 false None
                None '0 [])
             1700000000000 (-2147483648) (-0.5) eq_refl).
  - reflexivity.
  - reflexivity.
  - split; discriminate.
Defined.

(** X19.  The panel of the current phase.  From a date whose search window
    holds only representable dates of local year -4712 or later,
    [getCurrentPhaseInfo] throws nothing: the phase is in [0, 1), it has a
    name, its illumination is between 0 and 100, and both searches return
    a date. *)
Theorem getCurrentPhaseInfo_total (tz u : Z) (this : DateTracker.tracker) :
  DateTracker.currentDate this = TimeValue u ->
  searchable tz u ->
  exists (v : Q) (name : string) (r : R) (newMoon fullMoon : Date),
    DateTracker.getCurrentPhaseInfo tz this
    = Ok (DateTracker.mkPhaseInfo 'v name (Fin r) newMoon fullMoon)
    /\ moonPhase tz (TimeValue u) = Ok 'v
    /\ (0 <= v < 1)%Q
    /\ phaseName 'v = Ok name
    /\ (0 <= r <= 100)%R
    /\ nextNewMoon tz (TimeValue u) = Ok newMoon
    /\ nextFullMoon tz (TimeValue u) = Ok fullMoon.
Proof.
  intros Hcur Hs.
  assert (Hu : supportedInstant tz u)
    by (apply Hs; unfold ES.msPerHour, ES.msPerMinute; lia).
  destruct (moonPhase_at tz u Hu) as (v & Hv & _ & Hr).
  destruct (phaseName_total v) as [name Hname]; [split; lraQ|].
  pose proof (illumination_in_range v) as Hill.
  destruct (findNextPhase_returns tz u 0 "new moon" Hs) as [dn Hn].
  { apply scanFails_never. split; discriminate. }
  destruct (findNextPhase_returns tz u 0.5 "full moon" Hs) as [df Hf].
  { apply scanFails_never. split; discriminate. }
  exists v, name, (Rabs (Rtrigo_def.cos (Q2R v * 2 * Rtrigo1.PI)) * 100)%R,
    dn, df.
  assert (Hnn : nextNewMoon tz (TimeValue u) = Ok dn) by exact Hn.
  assert (Hnf : nextFullMoon tz (TimeValue u) = Ok df) by exact Hf.
  unfold DateTracker.getCurrentPhaseInfo. rewrite Hcur, Hv. cbn [bind]. rewrite Hname. cbn [bind].
  rewrite Hill by (split; lraQ). cbn [bind]. rewrite Hnn, Hnf. cbn [bind].
  repeat split; try assumption; try apply Hr.
  - apply Rmult_le_pos; [apply Rabs_pos | Lra.lra].
  - pose proof (COS_bound (Q2R v * 2 * Rtrigo1.PI)) as [B1 B2].
    assert (Rabs (Rtrigo_def.cos (Q2R v * 2 * Rtrigo1.PI)) <= 1)%R
      by (apply Rabs_le; split; assumption).
    Lra.lra.
Qed.

Lemma getCurrentPhaseInfo_total_witness :
  exists (v : Q) (name : string) (r : R) (newMoon fullMoon : Date),
    DateTracker.getCurrentPhaseInfo 0
      (DateTracker.mkTracker (TimeValue 1700000000000) '1 false None None '0
         [])
    = Ok (DateTracker.mkPhaseInfo 'v name (Fin r) newMoon fullMoon)
    /\ moonPhase 0 (TimeValue 1700000000000) = Ok 'v
    /\ (0 <= v < 1)%Q
    /\ phaseName 'v = Ok name
    /\ (0 <= r <= 100)%R
    /\ nextNewMoon 0 (TimeValue 1700000000000) = Ok newMoon
    /\ nextFullMoon 0 (TimeValue 1700000000000) = Ok fullMoon.
Proof.
  apply (getCurrentPhaseInfo_total 0 1700000000000); [reflexivity|].
  intros t Ht. unfold supportedInstant, LocalTime.
  cbn [offsetAt offsetOf fixedOffset].
  change floorTime with (-210863520000000)%Z.
  unfold ES.maxTime, ES.msPerHour, ES.msPerMinute in *. lia.
Defined.

(** ** The animation of the date tracker *)

Lemma cube_nonneg (p : Q) : (0 <= p)%Q -> (0 <= p * p * p)%Q.
Proof.
  intro H. apply Qmult_le_0_compat; [apply Qmult_le_0_compat|]; assumption.
Qed.

Lemma cube_mono (p q : Q) :
  (0 <= p)%Q -> (p <= q)%Q -> (p * p * p <= q * q * q)%Q.
Proof.
  intros H0 H. apply Qmult_le_compat_nonneg.
  - split; [now apply Qmult_le_0_compat|].
    apply Qmult_le_compat_nonneg; split; assumption.
  - split; assumption.
Qed.

Lemma ease_low (q : Q) :
  (q < 0.5)%Q -> DateTracker.easeInOutCubic 'q = '(4 * q * q * q).
Proof.
  intro H. unfold DateTracker.easeInOutCubic.
  now rewrite (proj2 (ltb_Fin q 0.5) H).
Qed.

Lemma ease_high (q : Q) :
  (0.5 <= q)%Q ->
  exists r : Q,
    DateTracker.easeInOutCubic 'q = 'r
    /\ (r == 1 - ((2 - 2 * q) * (2 - 2 * q) * (2 - 2 * q)) / 2)%Q.
Proof.
  intro H. unfold DateTracker.easeInOutCubic.
  rewrite (proj2 (ltb_Fin_false q 0.5) H).
  cbn [DateTracker.pow Num.mul Num.add Num.sub Num.neg Num.div].
  change (Qeq_bool 2 0) with false. cbv iota.
  eexists. split; [reflexivity|]. field.
Qed.

Lemma ease_value (q : Q) :
  (0 <= q <= 1)%Q ->
  exists r : Q,
    DateTracker.easeInOutCubic 'q = 'r
    /\ ((q < 0.5)%Q /\ (r == 4 * (q * q * q))%Q /\ (0 <= r <= 0.5)%Q
        \/ (0.5 <= q)%Q
           /\ (r == 1 - 4 * ((1 - q) * (1 - q) * (1 - q)))%Q
           /\ (0.5 <= r <= 1)%Q).
Proof.
  intros [L U]. destruct (Qlt_le_dec q 0.5) as [Lo|Hi].
  - exists (4 * q * q * q)%Q. split; [now apply ease_low|]. left.
    split; [exact Lo|].
    assert (E : (4 * q * q * q == 4 * (q * q * q))%Q) by ring.
    split; [exact E|]. rewrite E.
    pose proof (cube_nonneg q L) as C0.
    pose proof (cube_mono q 0.5 L (Qlt_le_weak _ _ Lo)) as C1.
    change (0.5 * 0.5 * 0.5)%Q with (125 # 1000) in C1. split; lraQ.
  - destruct (ease_high q Hi) as (r & Hr & E). exists r.
    split; [exact Hr|]. right. split; [exact Hi|].
    assert (E' : (r == 1 - 4 * ((1 - q) * (1 - q) * (1 - q)))%Q)
      by (rewrite E; field).
    split; [exact E'|]. rewrite E'.
    assert (A0 : (0 <= 1 - q)%Q) by lraQ.
    pose proof (cube_nonneg (1 - q) A0) as C0.
    assert (A1 : (1 - q <= 0.5)%Q) by lraQ.
    pose proof (cube_mono (1 - q) 0.5 A0 A1) as C1.
    change (0.5 * 0.5 * 0.5)%Q with (125 # 1000) in C1. split; lraQ.
Qed.

Lemma easeInOutCubic_range_helper :
  (forall q : Q,
      (0 <= q <= 1)%Q ->
      exists r : Q,
        DateTracker.easeInOutCubic 'q = 'r /\ (0 <= r <= 1)%Q)
  /\ DateTracker.easeInOutCubic '1 =~ '1.
Proof.
  split; [|vm_compute; reflexivity].
  intros q Hq. destruct (ease_value q Hq) as (r & Hr & [H|H]);
    exists r; (split; [exact Hr|]); destruct H as (_ & _ & H); split; lraQ.
Qed.

(** X20.  The easing of the animation.  On [0, 1] [easeInOutCubic] takes its
    values in [0, 1], it is 0 at 0, 1/2 at 1/2 and 1 at 1, it never
    decreases, and it is symmetric: the value at [1 - t] is 1 less the
    value at [t]. *)
Theorem easeInOutCubic_shape :
  (forall q : Q,
      (0 <= q <= 1)%Q ->
      exists r : Q,
        DateTracker.easeInOutCubic 'q = 'r /\ (0 <= r <= 1)%Q)
  /\ DateTracker.easeInOutCubic '0 =~ '0
  /\ DateTracker.easeInOutCubic '0.5 =~ '0.5
  /\ DateTracker.easeInOutCubic '1 =~ '1
  /\ (forall p q rp rq : Q,
        (0 <= p)%Q -> (p <= q)%Q -> (q <= 1)%Q ->
        DateTracker.easeInOutCubic 'p = 'rp ->
        DateTracker.easeInOutCubic 'q = 'rq -> (rp <= rq)%Q)
  /\ (forall q r s : Q,
        (0 <= q <= 1)%Q ->
        DateTracker.easeInOutCubic 'q = 'r ->
        DateTracker.easeInOutCubic '(1 - q) = 's -> (s == 1 - r)%Q).
Proof.
  repeat match goal with |- _ /\ _ => split end.
  - intros q Hq. destruct (ease_value q Hq) as (r & Hr & [H|H]);
      exists r; (split; [exact Hr|]); destruct H as (_ & _ & H); split; lraQ.
  - vm_compute. reflexivity.
  - vm_compute. reflexivity.
  - vm_compute. reflexivity.
  - intros p q rp rq Hp Hpq Hq Ep Eq.
    destruct (ease_value p) as (rp' & Ep' & Cp); [split; lraQ|].
    destruct (ease_value q) as (rq' & Eq' & Cq); [split; lraQ|].
    rewrite Ep in Ep'. rewrite Eq in Eq'.
    injection Ep' as <-. injection Eq' as <-.
    destruct Cp as [(Lp & Vp & Rp)|(Lp & Vp & Rp)],
        Cq as [(Lq & Vq & Rq)|(Lq & Vq & Rq)].
    + rewrite Vp, Vq. pose proof (cube_mono p q Hp Hpq). lraQ.
    + lraQ.
    + exfalso. lraQ.
    + rewrite Vp, Vq.
      assert (A0 : (0 <= 1 - q)%Q) by lraQ.
      assert (A1 : (1 - q <= 1 - p)%Q) by lraQ.
      pose proof (cube_mono (1 - q) (1 - p) A0 A1). lraQ.
  - intros q r s Hq Er Es.
    destruct (ease_value q Hq) as (r' & Er' & Cr).
    destruct (ease_value (1 - q)) as (s' & Es' & Cs); [split; lraQ|].
    rewrite Er in Er'. rewrite Es in Es'.
    injection Er' as <-. injection Es' as <-.
    destruct Cr as [(Lr & Vr & _)|(Lr & Vr & _)],
        Cs as [(Ls & Vs & _)|(Ls & Vs & _)].
    + exfalso. lraQ.
    + rewrite Vr, Vs. ring.
    + rewrite Vr, Vs. ring.
    + assert (Eh : (q == 0.5)%Q) by lraQ.
      rewrite Vr, Vs, Eh. reflexivity.
Qed.

Lemma Qtrunc_between (x : Q) (a b : Z) :
  (inject_Z a <= x <= inject_Z b)%Q -> (a <= Qtrunc x <= b)%Z.
Proof.
  intros [L U]. unfold Qtrunc. destruct (Qle_bool 0 x) eqn:S.
  - split.
    + apply Qfloor_resp_le in L. now rewrite Qfloor_Z in L.
    + apply Qfloor_resp_le in U. now rewrite Qfloor_Z in U.
  - split.
    + apply Qceiling_resp_le in L. now rewrite Qceiling_Z in L.
    + apply Qceiling_resp_le in U. now rewrite Qceiling_Z in U.
Qed.

Lemma min_one (p : Q) :
  DateTracker.min 'p '1 = if Qlt_bool p 1 then 'p else '1.
Proof. reflexivity. Qed.

Ltac run_frame :=
  unfold DateTracker.animate, DateTracker.callOnDateChange;
  unfold DateTracker.andThen, DateTracker.read, DateTracker.assign,
    DateTracker.ret, DateTracker.lift.

Section Animation.

Variable onDateChange : Date -> result unit.
Variable s g : Z.
Variable v e : Q.
Variable r : DateTracker.readings.
Variable startTime : number.
Variable this : DateTracker.tracker.

Hypothesis start_valid : (- ES.maxTime <= s <= ES.maxTime)%Z.
Hypothesis target_valid : (- ES.maxTime <= g <= ES.maxTime)%Z.
Hypothesis speed : DateTracker.animationSpeed this = 'v.
Hypothesis speed_positive : (0 < v)%Q.
Hypothesis elapsed : DateTracker.frameNow r - startTime = 'e.

(** The frame that the closure runs for the move from [s] to [g]. *)
Let frame : DateTracker.tracker * result unit :=
  DateTracker.animate onDateChange (TimeValue s) (TimeValue g)
    (Num.abs (getTime (TimeValue g) - getTime (TimeValue s))) startTime r
    this.

Lemma progress_value :
  (0 < Qabs (inject_Z g - inject_Z s))%Q ->
  DateTracker.min
    ('e / (Num.abs (getTime (TimeValue g) - getTime (TimeValue s)) / 'v)) '1
  = if Qlt_bool (e / (Qabs (inject_Z g - inject_Z s) / v)) 1
    then '(e / (Qabs (inject_Z g - inject_Z s) / v)) else '1.
Proof.
  intro T. cbn [getTime Num.of_Z Num.sub Num.add Num.neg Num.abs Num.div].
  change (inject_Z g + - inject_Z s)%Q with (inject_Z g - inject_Z s)%Q.
  assert (V : Qeq_bool v 0 = false).
  { apply not_true_is_false. intro E. apply Qeq_bool_iff in E.
    rewrite E in speed_positive. discriminate speed_positive. }
  rewrite V.
  assert (D : Qeq_bool (Qabs (inject_Z g - inject_Z s) / v) 0 = false).
  { apply not_true_is_false. intro E. apply Qeq_bool_iff in E.
    assert (P : (0 < Qabs (inject_Z g - inject_Z s) / v)%Q)
      by (apply Qlt_shift_div_l; [assumption | lraQ]).
    rewrite E in P. discriminate P. }
  rewrite D. apply min_one.
Qed.

Lemma frame_on_the_way :
  (0 <= e)%Q -> (e * v < Qabs (inject_Z g - inject_Z s))%Q ->
  exists c : Z,
    DateTracker.currentDate (fst frame) = TimeValue c
    /\ (Z.min s g <= c <= Z.max s g)%Z
    /\ (snd frame = Ok tt ->
        DateTracker.animationId (fst frame) = Some (DateTracker.requestId r)
        /\ DateTracker.isAnimating (fst frame) = DateTracker.isAnimating this
        /\ DateTracker._targetDate (fst frame)
           = DateTracker._targetDate this).
Proof.
  intros He Hlt.
  assert (T : (0 < Qabs (inject_Z g - inject_Z s))%Q).
  { apply Qle_lt_trans with (e * v)%Q; [|exact Hlt].
    apply Qmult_le_0_compat; [exact He | now apply Qlt_le_weak]. }
  set (p := (e / (Qabs (inject_Z g - inject_Z s) / v))%Q).
  assert (Dpos : (0 < Qabs (inject_Z g - inject_Z s) / v)%Q)
    by (apply Qlt_shift_div_l; [assumption | lraQ]).
  assert (P0 : (0 <= p)%Q).
  { unfold p. apply Qle_shift_div_l; [exact Dpos | lraQ]. }
  assert (P1 : (p < 1)%Q).
  { unfold p. apply Qlt_shift_div_r; [exact Dpos|].
    rewrite Qmult_1_l. apply Qlt_shift_div_l; assumption. }
  destruct (proj1 easeInOutCubic_range_helper p) as (w & Hw & W0 & W1);
    [split; lraQ|].
  unfold frame. run_frame. rewrite elapsed, speed.
  rewrite (progress_value T). fold p.
  rewrite (proj2 (Qlt_bool_iff p 1) P1). rewrite Hw.
  rewrite (proj2 (ltb_Fin p 1) P1).
  set (x := (inject_Z s + (inject_Z g + - inject_Z s) * w)%Q).
  assert (B : (inject_Z (Z.min s g) <= x <= inject_Z (Z.max s g))%Q).
  { unfold x. destruct (Z.le_ge_cases s g) as [O|O].
    - rewrite Z.min_l, Z.max_r by lia.
      assert (D : (0 <= inject_Z g + - inject_Z s)%Q)
        by (rewrite Zle_Qle in O; lraQ).
      pose proof (Qmult_le_0_compat _ _ D W0) as M0.
      pose proof (Qmult_le_compat_nonneg _ _ _ _
                    (conj D (Qle_refl _)) (conj W0 W1)) as M1.
      rewrite Qmult_1_r in M1. split; lraQ.
    - rewrite Z.min_r, Z.max_l by lia.
      assert (D : (0 <= inject_Z s + - inject_Z g)%Q)
        by (rewrite Zle_Qle in O; lraQ).
      pose proof (Qmult_le_0_compat _ _ D W0) as M0.
      pose proof (Qmult_le_compat_nonneg _ _ _ _
                    (conj D (Qle_refl _)) (conj W0 W1)) as M1.
      rewrite Qmult_1_r in M1.
      assert (N : ((inject_Z g + - inject_Z s) * w
                   == - ((inject_Z s + - inject_Z g) * w))%Q) by ring.
      split; lraQ. }
  pose proof (Qtrunc_between x _ _ B) as C.
  assert (Hclip : newDate (getTime (TimeValue s)
                           + (getTime (TimeValue g) - getTime (TimeValue s))
                             * 'w)
                  = TimeValue (Qtrunc x)).
  { cbn [getTime Num.of_Z Num.sub Num.add Num.neg Num.mul newDate TimeClip].
    fold x.
    replace (Qle_bool (Qabs x) (inject_Z ES.maxTime)) with true;
      [reflexivity|].
    symmetry. apply Qle_bool_iff. apply Qabs_Qle_condition.
    assert (inject_Z (- ES.maxTime) <= inject_Z (Z.min s g))%Q
      by (rewrite <- Zle_Qle; lia).
    assert (inject_Z (Z.max s g) <= inject_Z ES.maxTime)%Q
      by (rewrite <- Zle_Qle; lia).
    rewrite inject_Z_opp in *. split; lraQ. }
  rewrite Hclip. exists (Qtrunc x).
  cbn [DateTracker.lastUpdateTime DateTracker.setCurrentDate
         DateTracker.currentDate DateTracker.handed].
  destruct ((DateTracker.notifyNow r - DateTracker.lastUpdateTime this
             >=? DateTracker.updateThrottle) || ('p >=? '1));
    cbn [DateTracker.currentDate DateTracker.setCurrentDate];
    [destruct (onDateChange (TimeValue (Qtrunc x))) as [[]|err]|];
    cbn [fst snd DateTracker.currentDate DateTracker.animationId
           DateTracker.isAnimating DateTracker._targetDate
           DateTracker.setAnimationId DateTracker.setLastUpdateTime
           DateTracker.handed DateTracker.setCurrentDate];
    (split; [reflexivity|]); (split; [exact C|]); intro O;
    try discriminate O; auto.
Qed.

Lemma frame_arrives :
  (0 < Qabs (inject_Z g - inject_Z s))%Q ->
  (Qabs (inject_Z g - inject_Z s) <= e * v)%Q ->
  DateTracker.currentDate (fst frame) = TimeValue g
  /\ DateTracker.notified (fst frame)
     = (DateTracker.notified this ++ [TimeValue g])%list
  /\ snd frame = onDateChange (TimeValue g)
  /\ (snd frame = Ok tt ->
      DateTracker.isAnimating (fst frame) = false
      /\ DateTracker._targetDate (fst frame) = None
      /\ DateTracker.lastUpdateTime (fst frame) = DateTracker.notifyNow r)
  /\ (forall err : error,
        snd frame = Throw err ->
        DateTracker.isAnimating (fst frame) = DateTracker.isAnimating this
        /\ DateTracker._targetDate (fst frame)
           = DateTracker._targetDate this
        /\ DateTracker.lastUpdateTime (fst frame)
           = DateTracker.lastUpdateTime this).
Proof.
  intros T Hge.
  set (p := (e / (Qabs (inject_Z g - inject_Z s) / v))%Q).
  assert (Dpos : (0 < Qabs (inject_Z g - inject_Z s) / v)%Q)
    by (apply Qlt_shift_div_l; [assumption | lraQ]).
  assert (P1 : (1 <= p)%Q).
  { unfold p. apply Qle_shift_div_l; [exact Dpos|].
    rewrite Qmult_1_l. apply Qle_shift_div_r; assumption. }
  destruct (ease_high 1) as (w & Hw & Ew); [discriminate|].
  assert (W : (w == 1)%Q) by (rewrite Ew; vm_compute; reflexivity).
  unfold frame. run_frame. rewrite elapsed, speed.
  rewrite (progress_value T). fold p.
  rewrite (proj2 (Qlt_bool_false_iff p 1) P1). rewrite Hw.
  assert (Hclip : newDate (getTime (TimeValue s)
                           + (getTime (TimeValue g) - getTime (TimeValue s))
                             * 'w)
                  = TimeValue g).
  { cbn [getTime Num.of_Z Num.sub Num.add Num.neg Num.mul newDate].
    apply TimeClip_in_range; [|exact target_valid]. rewrite W. ring. }
  rewrite Hclip.
  change ('1 >=? '1) with true. change ('1 <? '1) with false.
  rewrite orb_true_r.
  cbn [DateTracker.currentDate DateTracker.setCurrentDate DateTracker.handed].
  destruct (onDateChange (TimeValue g)) as [[]|err];
    cbn [fst snd DateTracker.currentDate DateTracker.animationId
           DateTracker.isAnimating DateTracker._targetDate
           DateTracker.notified DateTracker.lastUpdateTime
           DateTracker.setIsAnimating DateTracker.set_targetDate
           DateTracker.setLastUpdateTime DateTracker.handed
           DateTracker.setCurrentDate];
    repeat split; try reflexivity; try discriminate; auto.
Qed.

End Animation.

Section Standstill.

Variable onDateChange : Date -> result unit.
Variable s : Z.
Variable v e : Q.
Variable r : DateTracker.readings.
Variable startTime : number.
Variable this : DateTracker.tracker.

Hypothesis speed : DateTracker.animationSpeed this = 'v.
Hypothesis speed_positive : (0 < v)%Q.
Hypothesis elapsed : DateTracker.frameNow r - startTime = 'e.
Hypothesis no_time : (e == 0)%Q.

(** A frame of the move from a date to itself, run before the clock has
    moved: the progress is 0 / 0. *)
Lemma frame_stalls :
  DateTracker.animate onDateChange (TimeValue s) (TimeValue s)
    (Num.abs (getTime (TimeValue s) - getTime (TimeValue s))) startTime r this
  = if DateTracker.notifyNow r - DateTracker.lastUpdateTime this
       >=? DateTracker.updateThrottle
    then
      match onDateChange Invalid with
      | Ok _ =>
          (DateTracker.set_targetDate None
             (DateTracker.setIsAnimating false
                (DateTracker.setLastUpdateTime (DateTracker.notifyNow r)
                   (DateTracker.handed Invalid
                      (DateTracker.setCurrentDate Invalid this)))),
           Ok tt)
      | Throw err =>
          (DateTracker.handed Invalid
             (DateTracker.setCurrentDate Invalid this),
           Throw err)
      end
    else
      (DateTracker.set_targetDate None
         (DateTracker.setIsAnimating false
            (DateTracker.setCurrentDate Invalid this)),
       Ok tt).
Proof.
  run_frame. rewrite elapsed, speed.
  assert (P : 'e / (Num.abs (getTime (TimeValue s) - getTime (TimeValue s))
                    / 'v) = NaN).
  { cbn [getTime Num.of_Z Num.sub Num.add Num.neg Num.abs Num.div].
    assert (V : Qeq_bool v 0 = false).
    { apply not_true_is_false. intro E. apply Qeq_bool_iff in E.
      rewrite E in speed_positive. discriminate speed_positive. }
    rewrite V.
    assert (D : Qeq_bool (Qabs (inject_Z s + - inject_Z s) / v) 0 = true).
    { apply Qeq_bool_iff.
      assert (Z0 : (inject_Z s + - inject_Z s == 0)%Q) by ring.
      rewrite Z0. reflexivity. }
    rewrite D. apply Qeq_bool_iff in no_time. now rewrite no_time. }
  rewrite P. cbn [DateTracker.min Num.isNaN orb].
  assert (E : DateTracker.easeInOutCubic NaN = NaN) by reflexivity.
  rewrite E.
  assert (C : newDate (getTime (TimeValue s)
                       + (getTime (TimeValue s) - getTime (TimeValue s))
                         * NaN)
              = Invalid) by reflexivity.
  rewrite C. change (NaN >=? '1) with false. change (NaN <? '1) with false.
  rewrite orb_false_r.
  cbn [DateTracker.lastUpdateTime DateTracker.setCurrentDate
         DateTracker.currentDate].
  destruct (DateTracker.notifyNow r - DateTracker.lastUpdateTime this
            >=? DateTracker.updateThrottle);
    cbn [DateTracker.currentDate DateTracker.setCurrentDate]; [|reflexivity].
  now destruct (onDateChange Invalid) as [[]|err].
Qed.

End Standstill.

(** The time elapsed between two readings of the clock, which are whole
    numbers of milliseconds. *)
Lemma elapsed_readings (now t0 : Z) :
  Num.of_Z now - Num.of_Z t0 = '(inject_Z now + - inject_Z t0)
  /\ (inject_Z now + - inject_Z t0 == inject_Z (now - t0))%Q.
Proof.
  split; [reflexivity|].
  unfold Z.sub. now rewrite inject_Z_plus, inject_Z_opp.
Qed.

(** X21.  A frame of the animation from a date to another one, both time
    values at most 2^53 ms apart, at a positive speed; the clock readings
    are whole numbers of milliseconds, as [Date.now()] gives them.  While
    the time elapsed, multiplied by the speed, is less than the number of
    milliseconds between the two dates, the frame leaves the current date
    between them; at the speed 1 of the constructor it then requests
    another frame, unless [onDateChange] has thrown.  Once the time
    elapsed, multiplied by the speed, has reached that number, the
    current date is the target and [onDateChange] receives it; the frame
    ends as that call ends: when it returns the animation is over, when
    it throws [isAnimating] and [_targetDate] stay as they were.  So an
    animation lasts as long as the time it crosses, divided by the
    speed. *)
Theorem animate_frame (onDateChange : Date -> result unit) (s g t0 now : Z)
  (v : Q) (r : DateTracker.readings) (this : DateTracker.tracker) :
  (- ES.maxTime <= s <= ES.maxTime)%Z ->
  (- ES.maxTime <= g <= ES.maxTime)%Z ->
  (Z.abs (g - s) <= 9007199254740992)%Z ->
  DateTracker.animationSpeed this = 'v -> (0 < v)%Q ->
  DateTracker.frameNow r = Num.of_Z now ->
  (0 <= t0 <= now)%Z -> (now <= 9007199254740992)%Z ->
  let frame :=
    DateTracker.animate onDateChange (TimeValue s) (TimeValue g)
      (Num.abs (getTime (TimeValue g) - getTime (TimeValue s)))
      (Num.of_Z t0) r this in
  ((inject_Z (now - t0) * v < inject_Z (Z.abs (g - s)))%Q ->
   exists c : Z,
     DateTracker.currentDate (fst frame) = TimeValue c
     /\ (Z.min s g <= c <= Z.max s g)%Z
     /\ ((v == 1)%Q -> snd frame = Ok tt ->
         DateTracker.animationId (fst frame) = Some (DateTracker.requestId r)
         /\ DateTracker.isAnimating (fst frame)
            = DateTracker.isAnimating this
         /\ DateTracker._targetDate (fst frame)
            = DateTracker._targetDate this))
  /\ (g <> s ->
      (inject_Z (Z.abs (g - s)) <= inject_Z (now - t0) * v)%Q ->
      DateTracker.currentDate (fst frame) = TimeValue g
      /\ DateTracker.notified (fst frame)
         = (DateTracker.notified this ++ [TimeValue g])%list
      /\ snd frame = onDateChange (TimeValue g)
      /\ (snd frame = Ok tt ->
          DateTracker.isAnimating (fst frame) = false
          /\ DateTracker._targetDate (fst frame) = None)
      /\ (forall err : error,
            snd frame = Throw err ->
            DateTracker.isAnimating (fst frame)
            = DateTracker.isAnimating this
            /\ DateTracker._targetDate (fst frame)
               = DateTracker._targetDate this)).
Proof.
  intros Hs Hg _ Hv Hpos Hnow Ht _. cbv zeta.
  destruct (elapsed_readings now t0) as [El Ee].
  rewrite <- Hnow in El.
  assert (A : (inject_Z (Z.abs (g - s)) == Qabs (inject_Z g - inject_Z s))%Q).
  { unfold Qminus. rewrite <- inject_Z_opp, <- inject_Z_plus.
    unfold Qabs, inject_Z. reflexivity. }
  assert (H0 : (0 <= inject_Z now + - inject_Z t0)%Q).
  { rewrite Ee. change 0%Q with (inject_Z 0). rewrite <- Zle_Qle. lia. }
  split.
  - intro Hlt. rewrite <- Ee, A in Hlt.
    destruct (frame_on_the_way onDateChange s g v _ r (Num.of_Z t0) this Hs
                Hg Hv Hpos El H0 Hlt) as (c & H1 & H2 & H3).
    exists c. auto.
  - intros Hne Hge. rewrite <- Ee, A in Hge.
    assert (T : (0 < Qabs (inject_Z g - inject_Z s))%Q).
    { rewrite <- A. change 0%Q with (inject_Z 0). rewrite <- Zlt_Qlt. lia. }
    destruct (frame_arrives onDateChange s g v _ r (Num.of_Z t0) this Hg Hv
                Hpos El T Hge) as (H1 & H2 & H3 & H4 & H5).
    repeat split; try assumption.
    + now apply H4.
    + now apply H4.
    + now apply (H5 err).
    + now apply (H5 err).
Qed.

Lemma animate_frame_witness :
  let frame :=
    DateTracker.animate (fun _ => Ok tt) (TimeValue 0) (TimeValue 86400000)
      (Num.abs (getTime (TimeValue 86400000) - getTime (TimeValue 0)))
      (Num.of_Z 1000)
      (DateTracker.mkReadings '1000 (Num.of_Z 86401000) '86401000 '7)
      (DateTracker.mkTracker (TimeValue 0) '1 true (Some (TimeValue 86400000))
         None '0 []) in
  DateTracker.currentDate (fst frame) = TimeValue 86400000
  /\ DateTracker.notified (fst frame) = ([] ++ [TimeValue 86400000])%list
  /\ snd frame = Ok tt
  /\ (snd frame = Ok tt ->
      DateTracker.isAnimating (fst frame) = false
      /\ DateTracker._targetDate (fst frame) = None)
  /\ (forall err : error,
        snd frame = Throw err ->
        DateTracker.isAnimating (fst frame) = true
        /\ DateTracker._targetDate (fst frame) = Some (TimeValue 86400000)).
Proof.
  apply (proj2 (animate_frame (fun _ => Ok tt) 0 86400000 1000 86401000 1
                  (DateTracker.mkReadings '1000 (Num.of_Z 86401000) '86401000
                     '7)
                  (DateTracker.mkTracker (TimeValue 0) '1 true
                     (Some (TimeValue 86400000)) None '0 [])
                  ltac:(unfold ES.maxTime; lia) ltac:(unfold ES.maxTime; lia)
                  ltac:(lia) eq_refl eq_refl eq_refl ltac:(lia) ltac:(lia))).
  - lia.
  - discriminate.
Defined.

(** X22.  Animating to the date where the tracker is.  When [setDate] is asked
    to animate to the current date and the first frame, which [setDate]
    runs itself, reads the same millisecond of the clock as the start of
    the animation, the progress is 0 / 0 and the current date becomes an
    invalid date, on which [getCurrentPhaseInfo] throws.  When 100 ms
    have passed since the last update, [onDateChange] receives the
    invalid date and [setDate] ends as that call ends: if it throws, as a
    function that asks for the phase of the date does, the tracker is left
    animating, with its target.  When [setDate] returns, the animation is
    over. *)
Theorem setDate_same_date (onDateChange : Date -> result unit)
  (s now n l : Z) (v : Q) (r : DateTracker.readings)
  (this : DateTracker.tracker) :
  DateTracker.currentDate this = TimeValue s ->
  DateTracker.animationSpeed this = 'v -> (0 < v)%Q ->
  DateTracker.startNow r = Num.of_Z now ->
  DateTracker.frameNow r = Num.of_Z now ->
  DateTracker.notifyNow r = Num.of_Z n ->
  DateTracker.lastUpdateTime this = Num.of_Z l ->
  let after := DateTracker.setDate onDateChange (TimeValue s) true r this in
  DateTracker.currentDate (fst after) = Invalid
  /\ (forall zone : Zone,
        DateTracker.getCurrentPhaseInfo zone (fst after)
        = Throw (InvalidDate "date"))
  /\ ((100 <= n - l)%Z ->
      DateTracker.notified (fst after)
      = (DateTracker.notified this ++ [Invalid])%list
      /\ snd after = onDateChange Invalid
      /\ (forall err : error,
            onDateChange Invalid = Throw err ->
            DateTracker.isAnimating (fst after) = true
            /\ DateTracker._targetDate (fst after) = Some (TimeValue s)))
  /\ (snd after = Ok tt ->
      DateTracker.isAnimating (fst after) = false
      /\ DateTracker._targetDate (fst after) = None).
Proof.
  intros Hcur Hv Hpos Hstart Hframe Hn Hl. cbv zeta.
  assert (E : DateTracker.setDate onDateChange (TimeValue s) true r this
              = DateTracker.animate onDateChange (TimeValue s) (TimeValue s)
                  (Num.abs (getTime (TimeValue s) - getTime (TimeValue s)))
                  (DateTracker.startNow r) r
                  (DateTracker.set_targetDate (Some (TimeValue s))
                     (DateTracker.setIsAnimating true this))).
  { unfold DateTracker.setDate, DateTracker.animateToDate.
    unfold DateTracker.andThen, DateTracker.lift, DateTracker.assign,
      DateTracker.read, copyDate.
    cbn [validateDate getTime Num.of_Z Num.isNaN DateTracker.currentDate
           DateTracker.set_targetDate DateTracker.setIsAnimating].
    now rewrite Hcur. }
  rewrite E.
  destruct (elapsed_readings now now) as [El Ee].
  rewrite <- Hframe, <- Hstart in El at 1.
  assert (E0 : (inject_Z now + - inject_Z now == 0)%Q) by ring.
  rewrite (frame_stalls onDateChange s v _ r (DateTracker.startNow r)
             (DateTracker.set_targetDate (Some (TimeValue s))
                (DateTracker.setIsAnimating true this)) Hv Hpos El E0).
  cbn [DateTracker.lastUpdateTime DateTracker.set_targetDate
         DateTracker.setIsAnimating].
  rewrite Hn, Hl.
  assert (C : (Num.of_Z n - Num.of_Z l >=? DateTracker.updateThrottle) = true
              <-> (100 <= n - l)%Z).
  { unfold Num.geb, DateTracker.updateThrottle.
    rewrite (proj1 (elapsed_readings n l)), leb_Fin,
      (proj2 (elapsed_readings n l)).
    change 100%Q with (inject_Z 100). now rewrite <- Zle_Qle. }
  destruct (Num.of_Z n - Num.of_Z l >=? DateTracker.updateThrottle) eqn:Th.
  - destruct (onDateChange Invalid) as [[]|err];
      cbn [fst snd DateTracker.currentDate DateTracker.isAnimating
             DateTracker._targetDate DateTracker.notified
             DateTracker.set_targetDate DateTracker.setIsAnimating
             DateTracker.setLastUpdateTime DateTracker.handed
             DateTracker.setCurrentDate];
      repeat split; try reflexivity; try discriminate; intros;
      discriminate.
  - assert (N : ~ (100 <= n - l)%Z) by (intro H; apply C in H; discriminate H).
    cbn [fst snd DateTracker.currentDate DateTracker.isAnimating
           DateTracker._targetDate DateTracker.notified
           DateTracker.set_targetDate DateTracker.setIsAnimating
           DateTracker.setCurrentDate].
    repeat split; try reflexivity; try discriminate; intros; contradiction.
Qed.

Lemma setDate_same_date_witness :
  let after :=
    DateTracker.setDate
      (fun date => validateDate date "date")
      (TimeValue 1700000000000) true
      (DateTracker.mkReadings (Num.of_Z 1700000000005)
         (Num.of_Z 1700000000005) (Num.of_Z 1700000000005) '1)
      (DateTracker.mkTracker (TimeValue 1700000000000) '1 false None None
         (Num.of_Z 0) []) in
  DateTracker.currentDate (fst after) = Invalid
  /\ snd after = Throw (InvalidDate "date")
  /\ DateTracker.isAnimating (fst after) = true
  /\ DateTracker._targetDate (fst after) = Some (TimeValue 1700000000000).
Proof.
  destruct (setDate_same_date (fun date => validateDate date "date")
              1700000000000 1700000000005 1700000000005 0 1
              (DateTracker.mkReadings (Num.of_Z 1700000000005)
                 (Num.of_Z 1700000000005) (Num.of_Z 1700000000005) '1)
              (DateTracker.mkTracker (TimeValue 1700000000000) '1 false None
                 None (Num.of_Z 0) [])
              eq_refl eq_refl eq_refl eq_refl eq_refl eq_refl eq_refl)
    as (H1 & _ & H3 & _).
  destruct (H3 ltac:(lia)) as (_ & H4 & H5).
  destruct (H5 (InvalidDate "date") eq_refl) as [H6 H7].
  cbv zeta. auto.
Defined.
